(** * BA_Michael_DL: the dataset tools, embedded and verified

    The development follows the three scripts under [Tools/]:

    - [Tools/draw_bounding_box.py]  (module [DrawBoundingBox]),
    - [Tools/split_data.py]         (module [SplitData]),
    - [Tools/synthetic_data.py]     (module [SyntheticData]).

    Conventions of the embedding.

    - A Python [int] is a [Z].  A Python [float] that the scripts obtain from
      integers by [/], [*] and halving is a rational [Q]: the quantities are
      pixel counts and ratios, far below 2^53, so truncation [int(..)] and the
      comparisons with 0 and 1 give the same answer on the exact quotient as
      on its correctly rounded double.  Angles and trigonometric values are
      real numbers [R].
    - A Python [str] is a [string]; a Python [list] is a [list].
    - Library state the scripts do not control is explicit: a random generator
      is an interface with the law the script relies on, and a library call
      that may raise (reading a mesh, rendering, opening, pasting or saving an
      image, writing a label) raises when the fault oracle of the run says so.
      Exceptions are explicit results of a state and exception monad.
*)

From Stdlib Require Import ZArith QArith Qround Reals Qreals Lra Lia.
From Stdlib Require Lqa.
From Stdlib Require Import Ascii String.
From stdpp Require Import base option list gmap strings pretty.

(** ** Python scalars *)

Module Py.

(** [int(x)] on a float: truncation toward zero. *)
Definition int (x : Q) : Z := Z.quot (Qnum x) (Zpos (Qden x)).

(** Integer to float conversion, implicit in mixed arithmetic. *)
Definition float (n : Z) : Q := inject_Z n.

(** [str(n)] / [f"{n}"] for an integer. *)
Definition str (n : Z) : string := pretty n.

(** [str.isspace] restricted to ASCII. *)
Definition isspace (c : ascii) : bool :=
  let n := nat_of_ascii c in
  ((9 <=? n)%nat && (n <=? 13)%nat) || ((28 <=? n)%nat && (n <=? 32)%nat).

(** [s.lstrip()], [s.strip()] *)
Fixpoint lstrip (s : string) : string :=
  match s with
  | String c s' => if isspace c then lstrip s' else s
  | EmptyString => EmptyString
  end.

Definition strip (s : string) : string :=
  String.rev (lstrip (String.rev (lstrip s))).

(** [s.split()]: the maximal runs of non-blank characters, in order.
    [cur] is the run being read, reversed. *)
Fixpoint split_go (cur : option string) (s : string) : list string :=
  match s with
  | EmptyString => option_list (String.rev <$> cur)
  | String c s' =>
      if isspace c
      then option_list (String.rev <$> cur) ++ split_go None s'
      else split_go (Some (String c (default EmptyString cur))) s'
  end.

Definition split (s : string) : list string := split_go None s.

(** [s.startswith(p)] *)
Fixpoint startswith (p s : string) : bool :=
  match p, s with
  | EmptyString, _ => true
  | String a p', String b s' => if decide (a = b) then startswith p' s' else false
  | String _ _, EmptyString => false
  end.

(** [s.replace(old, new)] for a non-empty [old]: every occurrence, found
    left to right without overlap.  [skip] counts the characters of an
    occurrence still to be dropped. *)
Fixpoint replace_go (old new : string) (skip : nat) (s : string) : string :=
  match s with
  | EmptyString => EmptyString
  | String c s' =>
      match skip with
      | S k => replace_go old new k s'
      | O =>
          if startswith old s
          then new +:+ replace_go old new (String.length old - 1) s'
          else String c (replace_go old new 0 s')
      end
  end.

Definition replace (s old new : string) : string := replace_go old new 0 s.

(** Decimal literals accepted by [float(..)]: an optional sign, digits, an
    optional fraction.  Exponents, [inf] and [nan] are outside the model and
    are rejected like any other malformed token ([ValueError]). *)
Fixpoint digits (s : string) (acc : N) : option N :=
  match s with
  | EmptyString => Some acc
  | String c s' =>
      match Ascii.is_nat c with
      | Some d => digits s' (acc * 10 + N.of_nat d)%N
      | None => None
      end
  end.

Fixpoint split_dot (s : string) : string * option string :=
  match s with
  | EmptyString => (EmptyString, None)
  | String c s' =>
      if decide (c = "."%char) then (EmptyString, Some s')
      else let '(a, b) := split_dot s' in (String c a, b)
  end.

Definition unsigned_literal (s : string) : option Q :=
  match split_dot s with
  | (ip, None) =>
      if decide (ip = EmptyString) then None
      else n ← digits ip 0; Some (Z.of_N n # 1)
  | (ip, Some fp) =>
      if decide (ip = EmptyString ∧ fp = EmptyString) then None
      else
        a ← digits ip 0;
        b ← digits fp 0;
        let scale := (10 ^ Z.of_nat (String.length fp))%Z in
        Some (Qred ((Z.of_N a * scale + Z.of_N b) # Z.to_pos scale))
  end.

Definition float_of_string (s : string) : option Q :=
  match s with
  | String "-" s' => Qopp <$> unsigned_literal s'
  | String "+" s' => unsigned_literal s'
  | _ => unsigned_literal s
  end.

(** Substring test [sub in s]. *)
Fixpoint contains (sub s : string) : bool :=
  startswith sub s ||
  match s with
  | String _ s' => contains sub s'
  | EmptyString => false
  end.

(** [os.path.basename] (POSIX): the text after the last separator, the
    whole string when there is none. *)
Fixpoint after_last (sep : ascii) (s : string) : option string :=
  match s with
  | EmptyString => None
  | String c s' =>
      match after_last sep s' with
      | Some t => Some t
      | None => if decide (c = sep) then Some s' else None
      end
  end.

Definition basename (s : string) : string := default s (after_last "/" s).

(** [os.path.splitext(s)[0]] for a name with an inner dot: the text before
    the last dot, the whole string when there is none. *)
Fixpoint before_last (sep : ascii) (s : string) : option string :=
  match s with
  | EmptyString => None
  | String c s' =>
      match before_last sep s' with
      | Some t => Some (String c t)
      | None => if decide (c = sep) then Some EmptyString else None
      end
  end.

Definition splitext_root (s : string) : string := default s (before_last "." s).

(** A string of decimal digits. *)
Fixpoint all_digits (s : string) : Prop :=
  match s with
  | EmptyString => True
  | String c s' => is_Some (Ascii.is_nat c) ∧ all_digits s'
  end.

(** *** Exceptions and effects *)

Inductive exn : Type :=
| FileNotFoundError (p : list string)
| ValueError
| IndexError
| NameError
| ZeroDivisionError
| OSError.

Inductive outcome (A : Type) : Type :=
| Ok (a : A)
| Raise (e : exn).
Global Arguments Ok {A} a.
Global Arguments Raise {A} e.

(** A computation reads and updates a state and returns or raises; what it
    did to the state before raising stays done. *)
Definition M (S A : Type) : Type := S → outcome A * S.

Global Instance M_ret {S} : MRet (M S) := λ A a st, (Ok a, st).
Global Instance M_bind {S} : MBind (M S) := λ A B k m st,
  match m st with
  | (Ok a, st') => k a st'
  | (Raise e, st') => (Raise e, st')
  end.

Definition raise {S A} (e : exn) : M S A := λ st, (Raise e, st).
Definition get {S} : M S S := λ st, (Ok st, st).
Definition modify {S} (f : S → S) : M S unit := λ st, (Ok tt, f st).

(** [try: body except Exception as e: handler(e)] *)
Definition try_except {S A} (body : M S A) (handler : exn → M S A) : M S A :=
  λ st, match body st with
        | (Ok a, st') => (Ok a, st')
        | (Raise e, st') => handler e st'
        end.

End Py.

(** ** [Tools/draw_bounding_box.py] *)

Module DrawBoundingBox.

(** The image is only written to by OpenCV's drawing primitives; the model
    keeps the primitives that were issued, in order. *)
Inductive draw_cmd : Type :=
| Rectangle (pt1 pt2 : Z * Z)
| PutText (text : string) (org : Z * Z).

Global Instance draw_cmd_eq_dec : EqDecision draw_cmd.
Proof. solve_decision. Defined.

(** Body of the per-line [try]: [None] is the [except] branch (the line is
    reported and skipped). *)
Definition draw_line (img_width img_height : Z) (line : string)
  : option (list draw_cmd) :=
  match Py.float_of_string <$> Py.split (Py.strip line) with
  | [Some class_id; Some x; Some y; Some width; Some height] =>
      let x_pixel := Py.int (x * Py.float img_width) in
      let y_pixel := Py.int (y * Py.float img_height) in
      let width_pixel := Py.int (width * Py.float img_width) in
      let height_pixel := Py.int (height * Py.float img_height) in
      Some [ Rectangle (x_pixel - width_pixel `div` 2, y_pixel - height_pixel `div` 2)
                       (x_pixel + width_pixel `div` 2, y_pixel + height_pixel `div` 2);
             PutText ("Class " +:+ Py.str (Py.int class_id)) (x_pixel, y_pixel - 10) ]%Z
  | _ => None
  end.

(** [draw_boxes] on an image of the given size and the lines of the label
    file: the drawing primitives applied to the image before it is saved. *)
Definition draw_boxes (img_width img_height : Z) (lines : list string)
  : list draw_cmd :=
  mjoin ((λ line, default [] (draw_line img_width img_height line)) <$> lines).

(** Extent of a drawn rectangle along each axis, and its centre. *)
Definition extent (c : draw_cmd) : option (Z * Z) :=
  match c with
  | Rectangle (x1, y1) (x2, y2) => Some (x2 - x1, y2 - y1)%Z
  | PutText _ _ => None
  end.

Definition center (c : draw_cmd) : option (Z * Z) :=
  match c with
  | Rectangle (x1, y1) (x2, y2) => Some ((x1 + x2) `div` 2, (y1 + y2) `div` 2)%Z
  | PutText _ _ => None
  end.

Definition newline : string := String "010"%char EmptyString.

(** The label line of the drawing test. *)
Definition sample_line : string := "0 0.5 0.5 0.2 0.2".

End DrawBoundingBox.


(** ** [Tools/split_data.py] *)

Module SplitData.

(** *** The file system

    A path is the list of its components ([os.path.join] appends one).  The
    file system maps every existing directory to its entries; the scripts
    only list and copy regular files, so an entry is a file's contents, and
    a directory is not an entry of its parent. *)
Abbreviation path := (list string).
Abbreviation filesystem := (gmap (list string) (gmap string string)).
Abbreviation IO := (Py.M filesystem).

Definition os_path_join (a : path) (b : string) : path := a ++ [b].

(** Directory part and last component of a path. *)
Definition path_split (p : path) : option (path * string) :=
  match reverse p with
  | name :: rdir => Some (reverse rdir, name)
  | [] => None
  end.

Definition read_file (fs : filesystem) (p : path) : option string :=
  '(d, name) ← path_split p; entries ← fs !! d; entries !! name.

(** [os.makedirs(d, exist_ok=True)] *)
Definition os_makedirs (d : path) : IO unit :=
  λ fs, (Py.Ok tt, match fs !! d with Some _ => fs | None => <[d := ∅]> fs end).

(** [os.listdir(d)]: the entry names, in an order that depends on the
    directory only. *)
Definition os_listdir (d : path) : IO (list string) :=
  λ fs, match fs !! d with
        | Some entries => (Py.Ok (map_to_list entries).*1, fs)
        | None => (Py.Raise (Py.FileNotFoundError d), fs)
        end.

(** [shutil.copyfile(src, dst)] *)
Definition shutil_copyfile (src dst : path) : IO unit :=
  λ fs, match read_file fs src, path_split dst with
        | Some data, Some (d, name) =>
            match fs !! d with
            | Some entries => (Py.Ok tt, <[d := <[name := data]> entries]> fs)
            | None => (Py.Raise (Py.FileNotFoundError dst), fs)
            end
        | None, _ => (Py.Raise (Py.FileNotFoundError src), fs)
        | _, None => (Py.Raise (Py.FileNotFoundError dst), fs)
        end.

(** *** The random generator

    [random.shuffle] belongs to the Python library; the script relies on it
    returning the same elements in some order decided by the generator
    state. *)
Class Random (G : Type) := {
  random_shuffle : G → list string → list string;
  random_shuffle_perm : ∀ g l, random_shuffle g l ≡ₚ l
}.

(** *** [split_data] *)

Definition label_name (file : string) : string := Py.replace file ".jpg" ".txt".

Definition destination (i train_split val_split : Z) : string :=
  if (i <? train_split)%Z then "train"
  else if (i <? train_split + val_split)%Z then "valid"
  else "test".

Section split_data.
Context {G : Type} `{!Random G}.
Variable root_folder : path.

Definition images_folder : path := os_path_join root_folder "images".
Definition labels_folder : path := os_path_join root_folder "labels".
Definition train_folder : path := os_path_join root_folder "train".
Definition val_folder : path := os_path_join root_folder "valid".
Definition test_folder : path := os_path_join root_folder "test".

Fixpoint make_folders (folders : list path) : IO unit :=
  match folders with
  | [] => mret tt
  | folder :: rest =>
      os_makedirs (os_path_join folder "images");;
      os_makedirs (os_path_join folder "labels");;
      make_folders rest
  end.

(** One iteration of the distribution loop. *)
Definition copy_pair (train_split val_split : Z) (i : nat) (file : string) : IO unit :=
  let source_img := os_path_join images_folder file in
  let source_txt := os_path_join labels_folder (label_name file) in
  let destination_folder :=
    os_path_join root_folder (destination (Z.of_nat i) train_split val_split) in
  let dest_img := os_path_join (os_path_join destination_folder "images") file in
  let dest_txt :=
    os_path_join (os_path_join destination_folder "labels") (label_name file) in
  shutil_copyfile source_img dest_img;;
  shutil_copyfile source_txt dest_txt.

Fixpoint distribute (train_split val_split : Z) (i : nat) (files : list string)
  : IO unit :=
  match files with
  | [] => mret tt
  | file :: rest =>
      copy_pair train_split val_split i file;;
      distribute train_split val_split (S i) rest
  end.

(** The images that have a label, in listing order. *)
Definition paired (image_files label_files : list string) : list string :=
  filter (λ file, label_name file ∈ label_files) image_files.

Definition split_data (train_ratio val_ratio : Q) (g : G) : IO unit :=
  make_folders [train_folder; val_folder; test_folder];;
  image_files ← os_listdir images_folder;
  label_files ← os_listdir labels_folder;
  let image_files := paired image_files label_files in
  let image_files := random_shuffle g image_files in
  let total_files := Z.of_nat (length image_files) in
  let train_split := Py.int (train_ratio * Py.float total_files) in
  let val_split := Py.int (val_ratio * Py.float total_files) in
  distribute train_split val_split 0 image_files.

(** What a run decides: the shuffled paired files with the partition each
    is copied to, in loop order ([None] when a listing raises). *)
Definition assignment (train_ratio val_ratio : Q) (g : G) (fs : filesystem)
  : option (list (string * string)) :=
  image_files ← fs !! images_folder;
  label_files ← fs !! labels_folder;
  let image_files :=
    random_shuffle g (paired (map_to_list image_files).*1 (map_to_list label_files).*1) in
  let total_files := Z.of_nat (length image_files) in
  let train_split := Py.int (train_ratio * Py.float total_files) in
  let val_split := Py.int (val_ratio * Py.float total_files) in
  Some (imap (λ i file, (file, destination (Z.of_nat i) train_split val_split))
             image_files).

Definition partition (dest : string) (plan : list (string * string)) : list string :=
  (filter (λ entry, entry.2 = dest) plan).*1.
End split_data.

(** A generator for examples: a linear congruential state driving the
    exchange loop of Fisher and Yates. *)
Definition lcg_next (g : N) : N := ((g * 1103515245 + 12345) `mod` 2147483648)%N.

Definition swap {A} (l : list A) (i j : nat) : list A :=
  match l !! i, l !! j with
  | Some a, Some b => <[i := b]> (<[j := a]> l)
  | _, _ => l
  end.

Fixpoint fisher_yates (g : N) (i : nat) (l : list string) : list string :=
  match i with
  | O => l
  | S i' => fisher_yates (lcg_next g) i' (swap l i (N.to_nat (g `mod` N.of_nat (S i))%N))
  end.

Definition lcg_shuffle (g : N) (l : list string) : list string :=
  fisher_yates g (length l - 1) l.

#[global] Instance lcg_random : Random N.
Proof.
  refine {| random_shuffle := lcg_shuffle |}.
  assert (Hswap : ∀ (l : list string) i j, swap l i j ≡ₚ l).
  { intros l i j. unfold swap.
    destruct (l !! i) as [a|] eqn:Hi; [|done].
    destruct (l !! j) as [b|] eqn:Hj; [|done].
    pose proof (lookup_lt_Some _ _ _ Hi) as Hli.
    pose proof (lookup_lt_Some _ _ _ Hj) as Hlj.
    apply Permutation_inj. split; [by rewrite !length_insert|].
    exists (λ k, if decide (k = i) then j else if decide (k = j) then i else k).
    split.
    - intros x y. repeat case_decide; congruence.
    - intros k. repeat case_decide; subst.
      + rewrite list_lookup_insert_eq by (by rewrite length_insert). done.
      + rewrite list_lookup_insert_ne by done.
        rewrite list_lookup_insert_eq by done. done.
      + by rewrite !list_lookup_insert_ne by done. }
  intros g l. unfold lcg_shuffle. generalize (length l - 1)%nat as i.
  intros i. revert g l. induction i as [|i IH]; intros g l; [done|].
  cbn [fisher_yates]. rewrite IH. apply Hswap.
Defined.

(** *** Observations on file systems, used to state the properties *)

Section observations.
Variable root : path.

Definition is_source (q : path) : Prop :=
  q = images_folder root ∨ q = labels_folder root.

Definition partitions : list string := ["train"; "valid"; "test"].
Definition kinds : list string := ["images"; "labels"].

(** Entry [name] of the input folder [kind], as [fs] has it. *)
Definition source_entry (fs : filesystem) (kind name : string) : option string :=
  fs !! os_path_join root kind ≫= (.!! name).

(** Entry [name] of folder [kind] of partition [dest]. *)
Definition partition_entry (fs : filesystem) (dest kind name : string)
  : option string :=
  fs !! os_path_join (os_path_join root dest) kind ≫= (.!! name).

(** [fs] holds in partition [dest] a copy of the entry that [fs0] has in
    its input folder. *)
Definition copied (fs0 fs : filesystem) (dest kind name : string) : Prop :=
  ∃ data, source_entry fs0 kind name = Some data
          ∧ partition_entry fs dest kind name = Some data.

(** [file] is in one partition of the plan and in no other. *)
Definition in_exactly_one (file : string) (plan : list (string * string)) : Prop :=
  ((file ∈ partition "train" plan) ∧ (file ∉ partition "valid" plan)
   ∧ (file ∉ partition "test" plan))
  ∨ ((file ∉ partition "train" plan) ∧ (file ∈ partition "valid" plan)
     ∧ (file ∉ partition "test" plan))
  ∨ ((file ∉ partition "train" plan) ∧ (file ∉ partition "valid" plan)
     ∧ (file ∈ partition "test" plan)).

Definition partition_folders_exist (fs : filesystem) : Prop :=
  ∀ dest kind, dest ∈ partitions → kind ∈ kinds →
               is_Some (fs !! os_path_join (os_path_join root dest) kind).

(** [fs] is a state of a run started in [fs0]: the input folders are as
    in [fs0] and the partition folders exist. *)
Definition running (fs0 fs : filesystem) : Prop :=
  (∀ q, is_source q → fs !! q = fs0 !! q) ∧ partition_folders_exist fs.
End observations.

(** A small dataset: four labelled pictures, one picture without label and
    one label without picture. *)
Definition example_images : gmap string string :=
  {[ "a.jpg" := "A"; "b.jpg" := "B"; "c.jpg" := "C"; "d.jpg" := "D"; "e.jpg" := "E" ]}.

Definition example_labels : gmap string string :=
  {[ "a.txt" := "0 0.5 0.5 0.2 0.2"; "b.txt" := "1 0.5 0.5 0.2 0.2";
     "c.txt" := ""; "d.txt" := "2 0.1 0.1 0.1 0.1"; "z.txt" := "" ]}.

Definition example_fs : filesystem :=
  {[ ["data"; "images"] := example_images; ["data"; "labels"] := example_labels ]}.

End SplitData.


(** ** [Tools/synthetic_data.py] *)

Module SyntheticData.

(** *** Arrays: [np.array] of nested lists and [np.dot] *)

Definition column (j : nat) (m : list (list R)) : list R :=
  (λ row, nth j row 0%R) <$> m.

Definition inner (u v : list R) : R := foldr Rplus 0%R (zip_with Rmult u v).

Definition np_dot (a b : list (list R)) : list (list R) :=
  (λ row, (λ j, inner row (column j b)) <$> seq 0 (length (default [] (head b)))) <$> a.





(** *** The NumPy generator

    [random_sample] is the double in [0, 1) behind [np.random.uniform];
    [randint_below g n] is [np.random.randint(0, n)] for a positive [n]. *)
Class NumpyRandom (G : Type) := {
  random_sample : G → Q * G;
  random_sample_range : ∀ g, (0 <= (random_sample g).1)%Q ∧ ((random_sample g).1 < 1)%Q;
  randint_below : G → nat → nat * G;
  randint_below_lt : ∀ g n, (0 < n)%nat → ((randint_below g n).1 < n)%nat
}.

(** *** Rotation sampler *)

Definition rotation_matrix_x (angle_x : R) : list (list R) :=
  [[1; 0; 0; 0];
   [0; cos angle_x; - sin angle_x; 0];
   [0; sin angle_x; cos angle_x; 0];
   [0; 0; 0; 1]]%R.

Definition rotation_matrix_y (angle_y : R) : list (list R) :=
  [[cos angle_y; 0; sin angle_y; 0];
   [0; 1; 0; 0];
   [- sin angle_y; 0; cos angle_y; 0];
   [0; 0; 0; 1]]%R.

Definition rotation_matrix_z (angle_z : R) : list (list R) :=
  [[cos angle_z; - sin angle_z; 0; 0];
   [sin angle_z; cos angle_z; 0; 0];
   [0; 0; 1; 0];
   [0; 0; 0; 1]]%R.




(** *** Labels and state *)

Record label_line := LabelLine {
  class_id : string;
  x_center : Q;
  y_center : Q;
  width : Q;
  height : Q
}.

(** A completed placement: the raster, the grid cell it was centred on and
    the label line written for it. *)
Record placed_object := PlacedObject {
  raster_name : string;
  cell : Z * Z;
  paste_position : Z * Z;
  label : label_line
}.

Inductive render_fault : Type := RenderOk | FailRead | FailPlot | FailScreenshot.
Inductive place_fault : Type := PlaceOk | FailOpen | FailPaste | FailSave | FailLabel.

Global Instance render_fault_eq_dec : EqDecision render_fault.
Proof. solve_decision. Defined.
Global Instance place_fault_eq_dec : EqDecision place_fault.
Proof. solve_decision. Defined.

(** Everything the processing of one background image reads and writes:
    the generator, the [temp] folder (raster name to image size), the two
    accumulators, the free cells, the pastes made on the background, the
    label file, the completed placements and the console. *)
Record state (G : Type) := State {
  rng : G;
  temp : gmap string (Z * Z);
  avg_width : Z;
  avg_height : Z;
  matrix : list (Z * Z);
  background : list (string * (Z * Z));
  label_file : list label_line;
  placed : list placed_object;
  stdout : list string
}.
Global Arguments State {G}.
Global Arguments rng {G}.
Global Arguments temp {G}.
Global Arguments avg_width {G}.
Global Arguments avg_height {G}.
Global Arguments matrix {G}.
Global Arguments background {G}.
Global Arguments label_file {G}.
Global Arguments placed {G}.
Global Arguments stdout {G}.

Definition initial_state {G} (g : G) : state G :=
  State g ∅ 0 0 [] [] [] [] [].

Section generator.
Context {G : Type} `{!NumpyRandom G}.

(** [plotter.window_size], PyVista's default window. *)
Variable window_size : Z * Z.

Abbreviation M := (Py.M (state G)).

Definition set_rng (g : G) (st : state G) : state G :=
  State g (temp st) (avg_width st) (avg_height st) (matrix st)
        (background st) (label_file st) (placed st) (stdout st).
Definition set_temp (t : gmap string (Z * Z)) (st : state G) : state G :=
  State (rng st) t (avg_width st) (avg_height st) (matrix st)
        (background st) (label_file st) (placed st) (stdout st).
Definition set_avg (w h : Z) (st : state G) : state G :=
  State (rng st) (temp st) w h (matrix st)
        (background st) (label_file st) (placed st) (stdout st).
Definition set_matrix (m : list (Z * Z)) (st : state G) : state G :=
  State (rng st) (temp st) (avg_width st) (avg_height st) m
        (background st) (label_file st) (placed st) (stdout st).
Definition set_background (b : list (string * (Z * Z))) (st : state G) : state G :=
  State (rng st) (temp st) (avg_width st) (avg_height st) (matrix st)
        b (label_file st) (placed st) (stdout st).
Definition set_label_file (l : list label_line) (st : state G) : state G :=
  State (rng st) (temp st) (avg_width st) (avg_height st) (matrix st)
        (background st) l (placed st) (stdout st).
Definition set_placed (p : list placed_object) (st : state G) : state G :=
  State (rng st) (temp st) (avg_width st) (avg_height st) (matrix st)
        (background st) (label_file st) p (stdout st).
Definition set_stdout (o : list string) (st : state G) : state G :=
  State (rng st) (temp st) (avg_width st) (avg_height st) (matrix st)
        (background st) (label_file st) (placed st) o.

Definition print (msg : string) : M unit :=
  Py.modify (λ st, set_stdout (stdout st ++ [msg]) st).

(** A library call that raises when the run's fault oracle says so. *)
Definition may_fail (failing : bool) : M unit :=
  if failing then Py.raise Py.OSError else mret tt.

Definition np_random_sample : M Q :=
  λ st, let '(u, g) := random_sample (rng st) in (Py.Ok u, set_rng g st).

Definition np_random_uniform (low high : Q) : M Q :=
  u ← np_random_sample; mret (low + (high - low) * u)%Q.

(** [np.random.randint(0, high)] *)
Definition np_random_randint0 (high : nat) : M nat :=
  match high with
  | O => Py.raise Py.ValueError
  | S _ => λ st, let '(k, g) := randint_below (rng st) high in (Py.Ok k, set_rng g st)
  end.

Definition os_remove (name : string) : M unit :=
  st ← Py.get;
  match temp st !! name with
  | Some _ => Py.modify (set_temp (delete name (temp st)))
  | None => Py.raise (Py.FileNotFoundError ["temp"; name])
  end.

(** The three draws of [generate_random_rotation_matrix], x then y then z. *)
Definition rotation_samples : M (Q * Q * Q) :=
  ux ← np_random_sample;
  uy ← np_random_sample;
  uz ← np_random_sample;
  mret (ux, uy, uz).


(** [create_label_file]: the line appended to the label file. *)
Definition create_label_file (class_id : string) (x_center y_center : Z)
    (width height : Q) (bg_width bg_height : Z) : M label_line :=
  if decide (bg_width = 0%Z ∨ bg_height = 0%Z) then Py.raise Py.ZeroDivisionError
  else
    let x_min_normalized := (Py.float x_center / Py.float bg_width)%Q in
    let y_min_normalized := (Py.float y_center / Py.float bg_height)%Q in
    let width_normalized := (width / Py.float bg_width)%Q in
    let height_normalized := (height / Py.float bg_height)%Q in
    let line := LabelLine class_id x_min_normalized y_min_normalized
                          width_normalized height_normalized in
    Py.modify (λ st, set_label_file (label_file st ++ [line]) st);;
    mret line.

(** Body of the loop over the STL files.  The mesh geometry is not part
    of the state: of the rotation only its three draws are kept. *)
Definition render_mesh (fault : render_fault) (j : nat) (your_stl_file : string)
  : M unit :=
  Py.try_except
    (may_fail (bool_decide (fault = FailRead));;
     rotation_samples;;
     may_fail (bool_decide (fault = FailPlot));;
     scaling_factor ←
       (if Py.contains "lid" your_stl_file
        then np_random_uniform (22 # 100) (3 # 10)
        else np_random_uniform (5 # 100) (22 # 100));
     let scaled_width := Py.int (Py.float window_size.1 * scaling_factor) in
     let scaled_height := Py.int (Py.float window_size.2 * scaling_factor) in
     Py.modify (λ st, set_avg (avg_width st + scaled_width)%Z
                              (avg_height st + scaled_height)%Z st);;
     let screenshot_path := Py.str (Z.of_nat j) +:+ ".png" in
     may_fail (bool_decide (fault = FailScreenshot));;
     Py.modify (λ st, set_temp (<[screenshot_path := (scaled_width, scaled_height)]>
                                  (temp st)) st))
    (λ e, print ("Fehler beim Verarbeiten der STL-Datei " +:+ your_stl_file)).

Fixpoint render_all (faults : nat → render_fault) (j : nat) (stl_files : list string)
  : M unit :=
  match stl_files with
  | [] => mret tt
  | your_stl_file :: rest =>
      render_mesh (faults j) j your_stl_file;;
      render_all faults (S j) rest
  end.

(** The two nested [range] loops filling [matrix]. *)
Definition grid_cells (avg_width avg_height grid_horisontal grid_vertical : Z)
  : list (Z * Z) :=
  v ← seqZ 0 grid_vertical;
  h ← seqZ 0 grid_horisontal;
  [ (Py.int (Py.float avg_width / 2) + h * avg_width,
     Py.int (Py.float avg_height / 2) + v * avg_height)%Z ].

(** The cells one pass of the inner loop appends. *)
Definition grid_row (avg_width avg_height grid_horisontal v : Z) : list (Z * Z) :=
  (λ h, (Py.int (Py.float avg_width / 2) + h * avg_width,
         Py.int (Py.float avg_height / 2) + v * avg_height)%Z)
    <$> seqZ 0 grid_horisontal.

(** Average footprint of a mesh and the grid derived from it; [n] is
    [len(stl_files)], so that [j] is [n - 1] after the render loop and is
    unbound when there was no mesh. *)
Definition footprint (total : Z) (j : nat) : Z :=
  Py.int (Py.float total / Py.float (Z.of_nat j + 1) / 2).

Definition build_matrix (bg_width bg_height : Z) (n : nat) : M unit :=
  match n with
  | O => Py.raise Py.NameError
  | S j =>
      st ← Py.get;
      let avg_width := footprint (avg_width st) j in
      let avg_height := footprint (avg_height st) j in
      Py.modify (set_avg avg_width avg_height);;
      if decide (avg_width = 0%Z) then Py.raise Py.ZeroDivisionError else
      let grid_horisontal := Py.int (Py.float bg_width / Py.float avg_width) in
      if decide (avg_height = 0%Z) then Py.raise Py.ZeroDivisionError else
      let grid_vertical := Py.int (Py.float bg_height / Py.float avg_height) in
      Py.modify (set_matrix (grid_cells avg_width avg_height grid_horisontal grid_vertical))
  end.

Definition error_message (image_file : string) : string :=
  "Fehler beim Verarbeiten des Bildes " +:+ image_file.

(** Body of the loop over the rasters in [temp]. *)
Definition place_raster (bg_width bg_height : Z) (image_file : string)
    (fault : place_fault) (screenshot_path : string) : M unit :=
  let rotated_image_path := screenshot_path in
  Py.try_except
    (may_fail (bool_decide (fault = FailOpen));;
     st ← Py.get;
     size ← from_option mret
              (Py.raise (Py.FileNotFoundError ["temp"; rotated_image_path]))
              (temp st !! rotated_image_path);
     let file_name := Py.basename rotated_image_path in
     random_index ← np_random_randint0 (length (matrix st));
     random_position ← from_option mret (Py.raise Py.IndexError)
                         (matrix st !! random_index);
     let paste_position :=
       (Py.int (Py.float random_position.1 - Py.float size.1 / 2),
        Py.int (Py.float random_position.2 - Py.float size.2 / 2)) in
     may_fail (bool_decide (fault = FailPaste));;
     Py.modify (λ st, set_background
                        (background st ++ [(rotated_image_path, paste_position)]) st);;
     may_fail (bool_decide (fault = FailSave));;
     let class_id := Py.replace file_name ".png" "" in
     let '(x_center, y_center) := random_position in
     let '(width, height) := ((Py.float size.1 / 2)%Q, (Py.float size.1 / 2)%Q) in
     may_fail (bool_decide (fault = FailLabel));;
     line ← create_label_file class_id x_center y_center width height
                              bg_width bg_height;
     Py.modify (λ st, set_placed
                        (placed st ++ [PlacedObject rotated_image_path random_position
                                                    paste_position line]) st);;
     os_remove rotated_image_path;;
     Py.modify (λ st, set_matrix (delete random_index (matrix st)) st))
    (λ e,
     os_remove rotated_image_path;;
     print (error_message image_file)).

Fixpoint place_all (bg_width bg_height : Z) (image_file : string)
    (faults : nat → place_fault) (x : nat) (listing : list string) : M unit :=
  match listing with
  | [] => mret tt
  | screenshot_path :: rest =>
      place_raster bg_width bg_height image_file (faults x) screenshot_path;;
      place_all bg_width bg_height image_file faults (S x) rest
  end.

(** The body of the loop of [synthetic_data_generator] over the background
    images, for one image of the given size: first the accumulators are
    reset, the meshes rendered and the grid built; then the rasters found in
    [temp] are placed.  [initial_state] is the state in which the function
    enters the loop: [os.makedirs] has just created an empty [temp]. *)
Definition prepare_image (bg_width bg_height : Z) (stl_files : list string)
    (render_faults : nat → render_fault) : M unit :=
  Py.modify (set_avg 0 0);;
  render_all render_faults 0 stl_files;;
  build_matrix bg_width bg_height (length stl_files).

Definition os_listdir_temp (st : state G) : list string := (map_to_list (temp st)).*1.

Definition place_rasters (bg_width bg_height : Z) (image_file : string)
    (place_faults : nat → place_fault) : M unit :=
  st ← Py.get;
  place_all bg_width bg_height image_file place_faults 0 (os_listdir_temp st).

Definition process_image (bg_width bg_height : Z) (image_file : string)
    (stl_files : list string)
    (render_faults : nat → render_fault) (place_faults : nat → place_fault)
  : M unit :=
  prepare_image bg_width bg_height stl_files render_faults;;
  place_rasters bg_width bg_height image_file place_faults.

(** *** What one pass of the placement loop can do *)

(** The label line for a raster of the given size centred on [pos]. *)
Definition label_for (bg_width bg_height : Z) (name : string) (pos size : Z * Z)
  : label_line :=
  LabelLine (Py.replace (Py.basename name) ".png" "")
            (Py.float pos.1 / Py.float bg_width)
            (Py.float pos.2 / Py.float bg_height)
            (Py.float size.1 / 2 / Py.float bg_width)
            (Py.float size.1 / 2 / Py.float bg_height).

Definition placement_for (bg_width bg_height : Z) (name : string) (pos size : Z * Z)
  : placed_object :=
  PlacedObject name pos
               (Py.int (Py.float pos.1 - Py.float size.1 / 2),
                Py.int (Py.float pos.2 - Py.float size.2 / 2))
               (label_for bg_width bg_height name pos size).

(** Either the raster is placed on a free cell, which is then taken out
    of [matrix], or the pass is abandoned with a message; in both cases
    the raster leaves [temp]. *)
Inductive pass (bg_width bg_height : Z) (image_file : string) (fault : place_fault)
    (name : string) (st st' : state G) : Prop :=
| pass_placed (random_index : nat) (pos size : Z * Z) :
    fault = PlaceOk →
    bg_width ≠ 0%Z → bg_height ≠ 0%Z →
    temp st !! name = Some size →
    matrix st !! random_index = Some pos →
    temp st' = delete name (temp st) →
    matrix st' = delete random_index (matrix st) →
    placed st' = placed st ++ [placement_for bg_width bg_height name pos size] →
    label_file st' = label_file st ++ [label_for bg_width bg_height name pos size] →
    stdout st' = stdout st →
    pass bg_width bg_height image_file fault name st st'
| pass_skipped :
    temp st' = delete name (temp st) →
    matrix st' = matrix st →
    placed st' = placed st →
    label_file st' = label_file st →
    stdout st' = stdout st ++ [error_message image_file] →
    pass bg_width bg_height image_file fault name st st'.

(** What the render loop may have put in [temp], from mesh number [j0]
    on: the raster of a mesh that rendered, under the mesh's number. *)
Definition rendered (faults : nat → render_fault) (j0 n : nat)
    (name : string) (size : Z * Z) : Prop :=
  ∃ j, (j0 ≤ j < j0 + n)%nat ∧ faults j = RenderOk
       ∧ name = Py.str (Z.of_nat j) +:+ ".png"
       ∧ ((0 ≤ window_size.1)%Z → (0 ≤ size.1)%Z).

(** A run of the placement loop from pass number [x] on. *)
Inductive passes (bg_width bg_height : Z) (image_file : string)
    (faults : nat → place_fault) : nat → list string → state G → state G → Prop :=
| passes_nil x st : passes bg_width bg_height image_file faults x [] st st
| passes_cons x name rest st st1 st2 :
    pass bg_width bg_height image_file (faults x) name st st1 →
    passes bg_width bg_height image_file faults (S x) rest st1 st2 →
    passes bg_width bg_height image_file faults x (name :: rest) st st2.

(** A placement made during a loop that started in [st] with the rasters
    of [listing]. *)
Definition placement_of (bg_width bg_height : Z) (listing : list string)
    (st : state G) (p : placed_object) : Prop :=
  ∃ pos size,
    p = placement_for bg_width bg_height (raster_name p) pos size
    ∧ raster_name p ∈ listing
    ∧ temp st !! raster_name p = Some size
    ∧ pos ∈ matrix st
    ∧ bg_width ≠ 0%Z ∧ bg_height ≠ 0%Z.

End generator.

(** *** Reading the specification *)

(** The class identifier the specification describes: the base name of the
    mesh file without its extension. *)
Definition spec_class_id (your_stl_file : string) : string :=
  Py.splitext_root (Py.basename your_stl_file).

(** The footprint the specification describes: the average of the given
    sizes (those of the meshes that rendered), halved. *)
Definition spec_footprint (sizes : list Z) : Z :=
  Py.int (Py.float (foldr Z.add 0%Z sizes) / Py.float (Z.of_nat (length sizes)) / 2).

(** *** A generator for examples

    The state is a counter; sample number [g] is [(g mod 170) / 170] and an
    index below [n] is [g mod n]. *)
#[global] Instance counter_random : NumpyRandom nat.
Proof.
  refine {| random_sample g := (Z.of_nat (g `mod` 170) # 170, S g);
            randint_below g n := ((g `mod` n)%nat, S g) |}.
  - intros g. cbn. unfold Qle, Qlt. cbn.
    pose proof (Nat.mod_upper_bound g 170). lia.
  - intros g n Hn. cbn. apply Nat.mod_upper_bound. lia.
Defined.

(** PyVista's default window. *)
Definition default_window : Z * Z := (1024, 768)%Z.

(** One mesh, rendered 101 pixels wide, on a background 50 pixels wide. *)
Definition narrow_run : Py.outcome unit * state nat :=
  process_image default_window 50 40 "bg.jpg" ["stl/sun_c.stl"]
                (λ _, RenderOk) (λ _, PlaceOk) (initial_state 46%nat).

(** Two meshes on a background with room for one cell, the label file not
    writable. *)
Definition unlabelled_run : Py.outcome unit * state nat :=
  process_image default_window 100 100 "bg.jpg" ["stl/sun_c.stl"; "stl/lid.stl"]
                (λ _, RenderOk) (λ _, FailLabel) (initial_state 0%nat).

(** Two meshes, the first of which cannot be read. *)
Definition one_failed_run : Py.outcome unit * state nat :=
  prepare_image default_window 1920 1080 ["stl/sun_c.stl"; "stl/lid.stl"]
                (λ j, if decide (j = 0%nat) then FailRead else RenderOk)
                (initial_state 0%nat).

End SyntheticData.

(** ** Observations on the render loop *)

Module SyntheticDataObservations.
Import SyntheticData.

(** The range the scaling factor of a mesh is drawn from. *)
Definition scaling_range (your_stl_file : string) : Q * Q :=
  if Py.contains "lid" your_stl_file then (22 # 100, 3 # 10) else (5 # 100, 22 # 100).

(** The size of the raster for a scaling factor. *)
Definition raster_size (window_size : Z * Z) (scaling_factor : Q) : Z * Z :=
  (Py.int (Py.float window_size.1 * scaling_factor),
   Py.int (Py.float window_size.2 * scaling_factor)).

(** The name of the raster of mesh number [j]. *)
Definition raster_of (j : nat) : string := Py.str (Z.of_nat j) +:+ ".png".

(** The message printed for a mesh that did not render, as the generator's
    state records it: up to the mesh's path (the text of the exception, which
    follows it on the console, is not recorded). *)
Definition stl_message (your_stl_file : string) : string :=
  "Fehler beim Verarbeiten der STL-Datei " +:+ your_stl_file.

(** The meshes of the list, numbered from [j0], that did not render. *)
Definition failed_meshes (faults : nat → render_fault) (j0 : nat)
    (stl_files : list string) : list string :=
  (filter (λ jf, faults jf.1 ≠ RenderOk) (zip (seq j0 (length stl_files)) stl_files)).*2.

(** How many of the meshes numbered from [j0] rendered. *)
Definition rendered_count (faults : nat → render_fault) (j0 n : nat) : nat :=
  length (filter (λ j, faults j = RenderOk) (seq j0 n)).

(** Sums of the widths and of the heights of the rasters in [temp]. *)
Definition total_width (t : gmap string (Z * Z)) : Z :=
  map_fold (λ _ size acc, (size.1 + acc)%Z) 0%Z t.

Definition total_height (t : gmap string (Z * Z)) : Z :=
  map_fold (λ _ size acc, (size.2 + acc)%Z) 0%Z t.

(** What a placement pasted on the background. *)
Definition paste_of (p : placed_object) : string * (Z * Z) :=
  (raster_name p, paste_position p).

(** A pass that raises after the paste: saving the image or writing the
    label fails, or the background has a zero dimension. *)
Definition late_failure (bg_width bg_height : Z) (fault : place_fault) : Prop :=
  fault = FailSave ∨ fault = FailLabel ∨ bg_width = 0%Z ∨ bg_height = 0%Z.

End SyntheticDataObservations.

(** ** What a run of [split_data] may change *)

Module SplitDataInvariant.
Import SplitData.

Section invariant.
Variable root : path.

(** One of the six folders a run writes to. *)
Definition is_partition_folder (d : path) : Prop :=
  ∃ dest kind, dest ∈ partitions ∧ kind ∈ kinds
               ∧ d = os_path_join (os_path_join root dest) kind.

(** [fs] differs from [fs0] by entries of partition folders only; every
    entry of [fs0] is still listed, and an entry of a partition folder is
    as in [fs0] or holds what the input folder of [fs0] has under its
    name. *)
Definition extended_by_copies (fs0 fs : filesystem) : Prop :=
  (∀ d, ¬ is_partition_folder d → fs !! d = fs0 !! d)
  ∧ (∀ d entries, fs0 !! d = Some entries →
       ∃ entries', fs !! d = Some entries'
                   ∧ ∀ name, is_Some (entries !! name) → is_Some (entries' !! name))
  ∧ (∀ dest kind name data,
       partition_entry root fs dest kind name = Some data →
       partition_entry root fs0 dest kind name = Some data
       ∨ source_entry root fs0 kind name = Some data).
End invariant.

(** A dataset whose labels folder is missing. *)
Definition images_only_fs : filesystem :=
  {[ ["data"; "images"] := example_images ]}.

End SplitDataInvariant.

(** * Properties *)

(** Decides the tests on closed values, then runs a monadic term as far as
    the remaining tests allow. *)
Ltac eval_tests :=
  repeat match goal with
         | |- context [bool_decide ?P] =>
             let b := eval vm_compute in (bool_decide P) in
             lazymatch b with
             | true => change (bool_decide P) with true
             | false => change (bool_decide P) with false
             end
         end.

Ltac run :=
  repeat (progress (unfold mbind, mret, Py.M_bind, Py.M_ret, Py.try_except, Py.raise,
                      Py.get, Py.modify, SyntheticData.may_fail, SyntheticData.print,
                      SyntheticData.os_remove, from_option;
                    eval_tests; cbn)).

(** ** Drawing boxes *)

Module DrawBoundingBoxSpec.
Import DrawBoundingBox.

Lemma draw_line_sample :
  draw_line 100 100 sample_line
  = Some [Rectangle (40, 40)%Z (60, 60)%Z; PutText "Class 0" (50, 40)%Z].
Proof. vm_compute. reflexivity. Qed.

(** The line as [readlines] returns it, with its line end, draws the same. *)
Lemma draw_line_sample_newline :
  draw_line 100 100 (sample_line +:+ newline) = draw_line 100 100 sample_line.
Proof. vm_compute. reflexivity. Qed.

(** C7, as amended: on a 100x100 image the label line [0 0.5 0.5 0.2 0.2]
    (with or without its line end) makes [draw_boxes] draw exactly one
    rectangle, from (40,40) to (60,60): centred at (50,50) and spanning
    20x20 pixels, followed by the class text at (50,40). *)
Theorem C7_sample_box_is_20_by_20 :
  let drawn := draw_boxes 100 100 [sample_line] in
  drawn = [Rectangle (40, 40)%Z (60, 60)%Z; PutText "Class 0" (50, 40)%Z]
  ∧ draw_boxes 100 100 [sample_line +:+ newline] = drawn
  ∧ (center <$> head drawn) = Some (Some (50, 50)%Z)
  ∧ (extent <$> head drawn) = Some (Some (20, 20)%Z).
Proof.
  unfold draw_boxes. cbn [fmap list_fmap mjoin list_join].
  rewrite draw_line_sample_newline, draw_line_sample.
  repeat split.
Qed.

(** C7, as stated, fails: no rectangle drawn for the sample line is centred
    at (50,50) with an extent within one pixel of 40x40. *)
Lemma C7_no_40_by_40_box :
  ¬ ∃ r w h, r ∈ draw_boxes 100 100 [sample_line]
             ∧ center r = Some (50, 50)%Z
             ∧ extent r = Some (w, h)
             ∧ (39 ≤ w ≤ 41)%Z ∧ (39 ≤ h ≤ 41)%Z.
Proof.
  intros (r & w & h & Hin & _ & Hext & Hw & _).
  unfold draw_boxes in Hin. cbn [fmap list_fmap mjoin list_join] in Hin.
  rewrite draw_line_sample in Hin. cbn in Hin.
  apply elem_of_cons in Hin as [-> | Hin].
  - cbn in Hext. injection Hext as <- <-. lia.
  - apply elem_of_cons in Hin as [-> | Hin]; [discriminate Hext |].
    by apply elem_of_nil in Hin.
Qed.

End DrawBoundingBoxSpec.

(** ** Splitting a dataset *)

Module SplitDataSpec.
Import SplitData.

(** *** Paths *)

Lemma path_split_join d name : path_split (os_path_join d name) = Some (d, name).
Proof.
  unfold path_split, os_path_join. rewrite reverse_snoc.
  by rewrite reverse_involutive.
Qed.

Lemma read_file_join fs d name :
  read_file fs (os_path_join d name) = fs !! d ≫= (.!! name).
Proof. unfold read_file. by rewrite path_split_join. Qed.

(** A partition folder is never one of the two input folders. *)
Lemma destination_not_source root dest kind kind' :
  os_path_join (os_path_join root dest) kind ≠ os_path_join root kind'.
Proof.
  unfold os_path_join. intros H%(f_equal length).
  rewrite !length_app in H. cbn in H. lia.
Qed.

(** *** Frame: what the primitives leave alone *)

Lemma os_makedirs_frame d q fs :
  d ≠ q → (os_makedirs d fs).2 !! q = fs !! q.
Proof.
  intros Hne. unfold os_makedirs. cbn.
  destruct (fs !! d); [done|]. by rewrite lookup_insert_ne.
Qed.

Lemma shutil_copyfile_frame src d name q fs :
  d ≠ q → (shutil_copyfile src (os_path_join d name) fs).2 !! q = fs !! q.
Proof.
  intros Hne. unfold shutil_copyfile. rewrite path_split_join.
  destruct (read_file fs src); [|done].
  destruct (fs !! d); [|done]. cbn. by rewrite lookup_insert_ne.
Qed.

Lemma bind_frame {A B : Type} (m : IO A) (k : A → IO B) (q : path) fs :
  (∀ fs', (m fs').2 !! q = fs' !! q) →
  (∀ a fs', (k a fs').2 !! q = fs' !! q) →
  ((m ≫= k) fs).2 !! q = fs !! q.
Proof.
  intros Hm Hk. unfold mbind, Py.M_bind. specialize (Hm fs).
  destruct (m fs) as [[a|e] fs']; cbn in *; [|done].
  by rewrite Hk.
Qed.

Section frame.
Context {G : Type} `{!Random G}.
Variable root : path.

Lemma make_folders_frame folders q fs :
  (∀ folder kind, folder ∈ folders → os_path_join folder kind ≠ q) →
  (make_folders folders fs).2 !! q = fs !! q.
Proof.
  revert fs. induction folders as [|folder rest IH]; intros fs Hne; [done|].
  cbn [make_folders]. apply bind_frame.
  - intros fs'. apply os_makedirs_frame, Hne. left.
  - intros _ fs'. apply bind_frame.
    + intros fs''. apply os_makedirs_frame, Hne. left.
    + intros _ fs''. apply IH. intros ???. apply Hne. by right.
Qed.

Lemma copy_pair_frame ts vs i file q fs :
  is_source root q → (copy_pair root ts vs i file fs).2 !! q = fs !! q.
Proof.
  intros Hq. unfold copy_pair. apply bind_frame.
  - intros fs'. apply shutil_copyfile_frame.
    destruct Hq as [-> | ->]; apply destination_not_source.
  - intros _ fs'. apply shutil_copyfile_frame.
    destruct Hq as [-> | ->]; apply destination_not_source.
Qed.

Lemma distribute_frame ts vs i files q fs :
  is_source root q → (distribute root ts vs i files fs).2 !! q = fs !! q.
Proof.
  intros Hq. revert i fs. induction files as [|file rest IH]; intros i fs; [done|].
  cbn [distribute]. apply bind_frame.
  - intros fs'. by apply copy_pair_frame.
  - intros _ fs'. apply IH.
Qed.

Lemma os_listdir_state d fs : (os_listdir d fs).2 = fs.
Proof. unfold os_listdir. by destruct (fs !! d). Qed.

Lemma os_listdir_ok d fs entries :
  fs !! d = Some entries → os_listdir d fs = (Py.Ok (map_to_list entries).*1, fs).
Proof. intros H. unfold os_listdir. by rewrite H. Qed.

Lemma os_listdir_missing d fs :
  fs !! d = None → os_listdir d fs = (Py.Raise (Py.FileNotFoundError d), fs).
Proof. intros H. unfold os_listdir. by rewrite H. Qed.

Lemma split_data_frame tr vr (g : G) q fs :
  is_source root q → (split_data root tr vr g fs).2 !! q = fs !! q.
Proof.
  intros Hq. unfold split_data. apply bind_frame.
  - intros fs'. apply make_folders_frame. intros folder kind Hin.
    assert (∃ dest, folder = os_path_join root dest) as [dest ->].
    { unfold train_folder, val_folder, test_folder in Hin.
      repeat (apply elem_of_cons in Hin as [-> | Hin]; [by eexists|]).
      by apply elem_of_nil in Hin. }
    destruct Hq as [-> | ->]; apply destination_not_source.
  - intros _ fs'. apply bind_frame.
    { intros fs''. by rewrite os_listdir_state. }
    intros image_files fs''. apply bind_frame.
    { intros fs3. by rewrite os_listdir_state. }
    intros label_files fs3. by apply distribute_frame.
Qed.
End frame.

(** *** Copies *)

Section copies.
Context {G : Type} `{!Random G}.
Variable root : path.

Lemma partition_folder_inj dest kind dest' kind' :
  os_path_join (os_path_join root dest) kind
  = os_path_join (os_path_join root dest') kind' →
  dest = dest' ∧ kind = kind'.
Proof.
  unfold os_path_join. rewrite <- !(assoc_L (++)). cbn.
  intros H%app_inv_head. by injection H.
Qed.

Lemma destination_partition i ts vs : destination i ts vs ∈ partitions.
Proof.
  unfold destination, partitions.
  repeat case_match; repeat constructor.
Qed.

(** Copying entry [name] of input folder [kind] to partition [dest]. *)
Lemma copy_entry_ok fs dest kind name data :
  source_entry root fs kind name = Some data →
  is_Some (fs !! os_path_join (os_path_join root dest) kind) →
  ∃ entries,
    fs !! os_path_join (os_path_join root dest) kind = Some entries
    ∧ shutil_copyfile (os_path_join (os_path_join root kind) name)
        (os_path_join (os_path_join (os_path_join root dest) kind) name) fs
      = (Py.Ok tt,
         <[os_path_join (os_path_join root dest) kind := <[name := data]> entries]> fs).
Proof.
  intros Hsrc [entries Hdir]. exists entries. split; [done|].
  unfold shutil_copyfile, source_entry in *.
  by rewrite read_file_join, Hsrc, path_split_join, Hdir.
Qed.

(** The state reached from [fs] by writing [data] as entry [name] of
    folder [kind] of partition [dest]. *)
Section one_copy.
Variables (fs0 fs : filesystem) (dest kind name data : string).
Variable entries : gmap string string.
Hypothesis Hsrc0 : source_entry root fs0 kind name = Some data.
Hypothesis Hdir : fs !! os_path_join (os_path_join root dest) kind = Some entries.

Let fs' : filesystem :=
  <[os_path_join (os_path_join root dest) kind := <[name := data]> entries]> fs.

Lemma one_copy_source q : is_source root q → fs' !! q = fs !! q.
Proof.
  intros Hq. subst fs'. rewrite lookup_insert_ne; [done|].
  destruct Hq as [-> | ->]; apply destination_not_source.
Qed.

Lemma one_copy_exist : partition_folders_exist root fs → partition_folders_exist root fs'.
Proof.
  intros Hex d k Hd Hk. subst fs'.
  destruct (decide (os_path_join (os_path_join root dest) kind
                    = os_path_join (os_path_join root d) k)) as [<- | Hne].
  - rewrite lookup_insert_eq. by eexists.
  - rewrite lookup_insert_ne by done. by apply Hex.
Qed.

Lemma one_copy_new : copied root fs0 fs' dest kind name.
Proof.
  exists data. split; [done|]. unfold partition_entry. subst fs'.
  rewrite lookup_insert_eq. cbn. by rewrite lookup_insert_eq.
Qed.

Lemma one_copy_keeps d k n :
  copied root fs0 fs d k n → copied root fs0 fs' d k n.
Proof.
  intros (c & Hc0 & Hc). exists c. split; [done|].
  unfold partition_entry in *. subst fs'.
  destruct (decide (os_path_join (os_path_join root dest) kind
                    = os_path_join (os_path_join root d) k)) as [Heq | Hne].
  - apply partition_folder_inj in Heq as [<- <-].
    rewrite lookup_insert_eq. cbn. rewrite Hdir in Hc. cbn in Hc.
    destruct (decide (name = n)) as [<- | Hn].
    + rewrite lookup_insert_eq. congruence.
    + by rewrite lookup_insert_ne.
  - by rewrite lookup_insert_ne.
Qed.
End one_copy.

Lemma copy_pair_ok fs0 fs ts vs i file data ldata :
  running root fs0 fs →
  source_entry root fs0 "images" file = Some data →
  source_entry root fs0 "labels" (label_name file) = Some ldata →
  ∃ fs', copy_pair root ts vs i file fs = (Py.Ok tt, fs')
         ∧ running root fs0 fs'
         ∧ (∀ d k n, copied root fs0 fs d k n → copied root fs0 fs' d k n)
         ∧ copied root fs0 fs' (destination (Z.of_nat i) ts vs) "images" file
         ∧ copied root fs0 fs' (destination (Z.of_nat i) ts vs) "labels"
                  (label_name file).
Proof.
  intros [Hsrc Hex] Himg Hlab.
  set (dest := destination (Z.of_nat i) ts vs).
  assert (Hdest : dest ∈ partitions) by apply destination_partition.
  assert (Himg' : source_entry root fs "images" file = Some data).
  { unfold source_entry in *. rewrite Hsrc; [done | by left]. }
  destruct (copy_entry_ok fs dest "images" file data Himg') as (e1 & He1 & Hc1).
  { apply Hex; [done | unfold kinds; left]. }
  set (fs1 := <[os_path_join (os_path_join root dest) "images" := <[file := data]> e1]> fs)
    in *.
  assert (Hsrc1 : ∀ q, is_source root q → fs1 !! q = fs0 !! q).
  { intros q Hq. subst fs1. rewrite one_copy_source by done. by apply Hsrc. }
  assert (Hex1 : partition_folders_exist root fs1) by by apply one_copy_exist.
  assert (Hlab' : source_entry root fs1 "labels" (label_name file) = Some ldata).
  { unfold source_entry in *. rewrite Hsrc1; [done | by right]. }
  destruct (copy_entry_ok fs1 dest "labels" (label_name file) ldata Hlab')
    as (e2 & He2 & Hc2).
  { apply Hex1; [done | unfold kinds; right; left]. }
  eexists. split.
  { unfold copy_pair, images_folder, labels_folder. fold dest.
    unfold mbind, Py.M_bind. rewrite Hc1. exact Hc2. }
  split; [split|].
  - intros q Hq. rewrite one_copy_source by done. by apply Hsrc1.
  - by apply one_copy_exist.
  - split; [|split].
    + intros d k n Hc. eapply one_copy_keeps; [done..|].
      eapply one_copy_keeps; [done..|]. done.
    + eapply one_copy_keeps; [done..|]. by eapply one_copy_new.
    + by eapply one_copy_new.
Qed.

Lemma distribute_ok fs0 ts vs files :
  (∀ file, file ∈ files →
     is_Some (source_entry root fs0 "images" file)
     ∧ is_Some (source_entry root fs0 "labels" (label_name file))) →
  ∀ i fs,
    running root fs0 fs →
    ∃ fs', distribute root ts vs i files fs = (Py.Ok tt, fs')
           ∧ running root fs0 fs'
           ∧ (∀ d k n, copied root fs0 fs d k n → copied root fs0 fs' d k n)
           ∧ ∀ j file, files !! j = Some file →
               copied root fs0 fs' (destination (Z.of_nat (i + j)) ts vs) "images" file
               ∧ copied root fs0 fs' (destination (Z.of_nat (i + j)) ts vs) "labels"
                        (label_name file).
Proof.
  induction files as [|file rest IH]; intros Hfiles i fs Hrun.
  - exists fs. do 3 (split; [done|]). intros j f Hj. by rewrite lookup_nil in Hj.
  - destruct (Hfiles file) as [[data Hd] [ldata Hl]]; [left|].
    destruct (copy_pair_ok fs0 fs ts vs i file data ldata Hrun Hd Hl)
      as (fs1 & Hstep & Hrun1 & Hkeep1 & Hi1 & Hl1).
    destruct (IH (λ f Hf, Hfiles f (list_elem_of_further _ _ _ Hf)) (S i) fs1 Hrun1)
      as (fs2 & Hrest & Hrun2 & Hkeep2 & Hall).
    exists fs2. split.
    { cbn [distribute]. unfold mbind, Py.M_bind. by rewrite Hstep. }
    split; [done|]. split; [by auto|].
    intros [|j] f Hj; cbn in Hj.
    + injection Hj as <-. rewrite Nat.add_0_r. split; by apply Hkeep2.
    + replace (i + S j)%nat with (S i + j)%nat by lia. by apply Hall.
Qed.

(** A second pass over files already copied changes nothing. *)
Lemma copy_pair_again fs ts vs i file :
  copied root fs fs (destination (Z.of_nat i) ts vs) "images" file →
  copied root fs fs (destination (Z.of_nat i) ts vs) "labels" (label_name file) →
  copy_pair root ts vs i file fs = (Py.Ok tt, fs).
Proof.
  intros (data & Hs & Hp) (ldata & Hls & Hlp).
  set (dest := destination (Z.of_nat i) ts vs) in *.
  unfold partition_entry in Hp, Hlp.
  destruct (fs !! os_path_join (os_path_join root dest) "images")
    as [e1|] eqn:He1; [|done].
  destruct (fs !! os_path_join (os_path_join root dest) "labels")
    as [e2|] eqn:He2; [|done].
  cbn in Hp, Hlp.
  destruct (copy_entry_ok fs dest "images" file data Hs) as (e1' & He1' & Hc1);
    [by eexists|].
  destruct (copy_entry_ok fs dest "labels" (label_name file) ldata Hls)
    as (e2' & He2' & Hc2); [by eexists|].
  assert (e1' = e1) as -> by congruence. assert (e2' = e2) as -> by congruence.
  rewrite (insert_id e1), (insert_id fs) in Hc1 by done.
  rewrite (insert_id e2), (insert_id fs) in Hc2 by done.
  unfold copy_pair, images_folder, labels_folder. fold dest.
  unfold mbind, Py.M_bind. by rewrite Hc1.
Qed.

Lemma distribute_again fs ts vs files :
  ∀ i,
    (∀ j file, files !! j = Some file →
       copied root fs fs (destination (Z.of_nat (i + j)) ts vs) "images" file
       ∧ copied root fs fs (destination (Z.of_nat (i + j)) ts vs) "labels"
                (label_name file)) →
    distribute root ts vs i files fs = (Py.Ok tt, fs).
Proof.
  induction files as [|file rest IH]; intros i Hall; [done|].
  cbn [distribute]. unfold mbind, Py.M_bind.
  destruct (Hall 0%nat file eq_refl) as [Hi Hl]. rewrite Nat.add_0_r in Hi, Hl.
  rewrite (copy_pair_again fs ts vs i file Hi Hl).
  apply IH. intros j f Hj.
  replace (S i + j)%nat with (i + S j)%nat by lia. by apply Hall.
Qed.

(** *** Creating the partition folders *)

Lemma make_folders_ok folders fs :
  ∃ fs', make_folders folders fs = (Py.Ok tt, fs')
         ∧ (∀ q, is_Some (fs !! q) → is_Some (fs' !! q))
         ∧ ∀ folder kind, folder ∈ folders → kind ∈ kinds →
             is_Some (fs' !! os_path_join folder kind).
Proof.
  assert (Hmk : ∀ d fs0, ∃ fs1, os_makedirs d fs0 = (Py.Ok tt, fs1)
                  ∧ is_Some (fs1 !! d)
                  ∧ ∀ q, is_Some (fs0 !! q) → is_Some (fs1 !! q)).
  { intros d fs0. unfold os_makedirs. eexists. split; [done|].
    destruct (fs0 !! d) eqn:Hd; [by rewrite Hd|].
    split; [by rewrite lookup_insert_eq|].
    intros q Hq. destruct (decide (d = q)) as [<- | Hne].
    - by rewrite lookup_insert_eq.
    - by rewrite lookup_insert_ne. }
  revert fs. induction folders as [|folder rest IH]; intros fs.
  - exists fs. split; [done|]. split; [done|]. intros ? ? Hin. by apply elem_of_nil in Hin.
  - destruct (Hmk (os_path_join folder "images") fs) as (fs1 & E1 & Hi1 & Hk1).
    destruct (Hmk (os_path_join folder "labels") fs1) as (fs2 & E2 & Hi2 & Hk2).
    destruct (IH fs2) as (fs3 & E3 & Hk3 & Hall).
    exists fs3. split.
    { cbn [make_folders]. unfold mbind, Py.M_bind. by rewrite E1, E2. }
    split; [by auto|].
    intros f kind Hf Hkind. apply elem_of_cons in Hf as [-> | Hf]; [|by apply Hall].
    apply Hk3. unfold kinds in Hkind.
    apply elem_of_cons in Hkind as [-> | Hkind]; [by apply Hk2|].
    apply elem_of_cons in Hkind as [-> | Hkind]; [done|].
    by apply elem_of_nil in Hkind.
Qed.

Lemma make_folders_again folders fs :
  (∀ folder kind, folder ∈ folders → kind ∈ kinds →
     is_Some (fs !! os_path_join folder kind)) →
  make_folders folders fs = (Py.Ok tt, fs).
Proof.
  induction folders as [|folder rest IH]; intros Hall; [done|].
  cbn [make_folders]. unfold mbind, Py.M_bind, os_makedirs.
  destruct (Hall folder "images") as [? ->]; [left | left |].
  destruct (Hall folder "labels") as [? ->]; [left | right; left |].
  apply IH. intros ????. apply Hall; [by right | done].
Qed.

Lemma partition_folders_of_list fs :
  (∀ folder kind,
     folder ∈ [train_folder root; val_folder root; test_folder root] →
     kind ∈ kinds → is_Some (fs !! os_path_join folder kind))
  ↔ partition_folders_exist root fs.
Proof.
  unfold partition_folders_exist, partitions, train_folder, val_folder, test_folder.
  split.
  - intros H dest kind Hd Hk. apply H; [|done].
    repeat (apply elem_of_cons in Hd as [-> | Hd]; [repeat constructor|]).
    by apply elem_of_nil in Hd.
  - intros H folder kind Hf Hk.
    repeat (apply elem_of_cons in Hf as [-> | Hf];
            [apply H; [repeat constructor | done]|]).
    by apply elem_of_nil in Hf.
Qed.

(** The state in which the copy loop starts. *)
Lemma make_folders_running fs :
  ∃ fs', make_folders [train_folder root; val_folder root; test_folder root] fs
         = (Py.Ok tt, fs')
         ∧ running root fs fs'.
Proof.
  destruct (make_folders_ok [train_folder root; val_folder root; test_folder root] fs)
    as (fs' & E & _ & Hall).
  exists fs'. split; [done|]. split.
  - intros q Hq.
    pose proof (make_folders_frame
                  [train_folder root; val_folder root; test_folder root] q fs) as Hf.
    rewrite E in Hf. apply Hf. intros folder kind Hin.
    assert (∃ dest, folder = os_path_join root dest) as [dest ->].
    { unfold train_folder, val_folder, test_folder in Hin.
      repeat (apply elem_of_cons in Hin as [-> | Hin]; [by eexists|]).
      by apply elem_of_nil in Hin. }
    destruct Hq as [-> | ->]; apply destination_not_source.
  - by apply partition_folders_of_list.
Qed.

End copies.

(** *** The plan of a run *)

Lemma Py_int_floor (q : Q) : (0 <= q)%Q → Py.int q = Qfloor q.
Proof.
  destruct q as [n d]. unfold Qle, Py.int, Qfloor. cbn. intros Hq.
  apply Z.quot_div_nonneg; lia.
Qed.


Lemma partition_segment dest dest' (l : list string) :
  partition dest ((λ file, (file, dest')) <$> l) = if decide (dest' = dest) then l else [].
Proof.
  unfold partition. induction l as [|x l IH]; [by case_decide|].
  rewrite fmap_cons, filter_cons. cbn [snd].
  destruct (decide (dest' = dest)) as [Heq | Hne].
  - rewrite fmap_cons. cbn [fst]. by rewrite IH.
  - done.
Qed.

Lemma partition_app dest l k : partition dest (l ++ k) = partition dest l ++ partition dest k.
Proof. unfold partition. by rewrite filter_app, fmap_app. Qed.

(** With [a] files for training and [b] for validation available, the loop
    assigns the first [a] files of the shuffled list to [train], the next
    [b] to [valid] and the rest to [test]. *)
Lemma plan_segments (a b : nat) (l : list string) :
  (a + b ≤ length l)%nat →
  imap (λ i file, (file, destination (Z.of_nat i) (Z.of_nat a) (Z.of_nat b))) l
  = ((λ file, (file, "train")) <$> take a l)
    ++ ((λ file, (file, "valid")) <$> take b (drop a l))
    ++ ((λ file, (file, "test")) <$> drop b (drop a l)).
Proof.
  intros Hlen.
  rewrite <- (take_drop a l) at 1. rewrite imap_app. f_equal.
  { rewrite <- imap_const. apply imap_ext. intros i x Hi%lookup_lt_Some.
    rewrite length_take in Hi. unfold destination, const.
    rewrite (proj2 (Z.ltb_lt _ _)) by lia. done. }
  rewrite length_take_le by lia.
  rewrite <- (take_drop b (drop a l)) at 1. rewrite imap_app. f_equal.
  { rewrite <- imap_const. apply imap_ext. intros i x Hi%lookup_lt_Some.
    rewrite length_take in Hi. unfold destination, const.
    rewrite (proj2 (Z.ltb_ge _ _)) by lia.
    rewrite (proj2 (Z.ltb_lt _ _)) by lia. done. }
  rewrite length_take_le by (rewrite length_drop; lia).
  rewrite <- imap_const. apply imap_ext. intros i x _.
  unfold destination, const.
  rewrite (proj2 (Z.ltb_ge _ _)) by lia.
  rewrite (proj2 (Z.ltb_ge _ _)) by lia. done.
Qed.


Lemma paired_sources (images labels : gmap string string) file :
  file ∈ paired (map_to_list images).*1 (map_to_list labels).*1 →
  is_Some (images !! file) ∧ is_Some (labels !! label_name file).
Proof.
  unfold paired. rewrite list_elem_of_filter.
  intros [Hlab Himg]. split.
  - apply list_elem_of_fmap in Himg as ([k v] & -> & Hkv).
    apply elem_of_map_to_list in Hkv. by eexists.
  - apply list_elem_of_fmap in Hlab as ([k v] & Hk & Hkv). cbn in Hk. rewrite Hk.
    apply elem_of_map_to_list in Hkv. by eexists.
Qed.

Lemma paired_NoDup (images labels : gmap string string) :
  NoDup (paired (map_to_list images).*1 (map_to_list labels).*1).
Proof. apply NoDup_filter, NoDup_fst_map_to_list. Qed.

Lemma elem_of_partition dest plan file :
  file ∈ partition dest plan ↔ (file, dest) ∈ plan.
Proof.
  unfold partition. rewrite list_elem_of_fmap. split.
  - intros ([f d] & -> & Hin). apply list_elem_of_filter in Hin as [Hd Hin].
    cbn in *. by subst.
  - intros Hin. exists (file, dest). split; [done|].
    by apply list_elem_of_filter.
Qed.

Section runs.
Context {G : Type} `{!Random G}.
Variable root : path.

(** A run on a dataset that has both input folders: it returns, it has
    followed its plan, and the input folders are as before. *)
Lemma split_data_run (tr vr : Q) (g : G) fs images labels :
  fs !! images_folder root = Some images →
  fs !! labels_folder root = Some labels →
  let shuffled :=
    random_shuffle g (paired (map_to_list images).*1 (map_to_list labels).*1) in
  let total_files := Z.of_nat (length shuffled) in
  let ts := Py.int (tr * Py.float total_files) in
  let vs := Py.int (vr * Py.float total_files) in
  let plan := imap (λ i file, (file, destination (Z.of_nat i) ts vs)) shuffled in
  assignment root tr vr g fs = Some plan
  ∧ ∃ fs', split_data root tr vr g fs = (Py.Ok tt, fs')
           ∧ running root fs fs'
           ∧ ∀ file dest, (file, dest) ∈ plan →
               copied root fs fs' dest "images" file
               ∧ copied root fs fs' dest "labels" (label_name file).
Proof.
  intros Himg Hlab shuffled total_files ts vs plan.
  split.
  { unfold assignment. rewrite Himg, Hlab. done. }
  destruct (make_folders_running root fs) as (fsA & EA & HrunA).
  destruct (distribute_ok root fs ts vs shuffled) with (i := 0%nat) (fs := fsA)
    as (fs' & Ed & Hrun' & _ & Hall); [|done|].
  { intros file Hin. subst shuffled. rewrite random_shuffle_perm in Hin.
    apply paired_sources in Hin as [Hi Hl].
    unfold source_entry. fold (images_folder root) (labels_folder root).
    by rewrite Himg, Hlab. }
  exists fs'. split; [|split; [done|]].
  - unfold split_data, mbind, Py.M_bind. rewrite EA.
    destruct HrunA as [HsrcA _].
    rewrite (os_listdir_ok (images_folder root) fsA images)
      by (rewrite HsrcA; [done | by left]).
    rewrite (os_listdir_ok (labels_folder root) fsA labels)
      by (rewrite HsrcA; [done | by right]).
    exact Ed.
  - intros file dest Hin. subst plan.
    apply elem_of_lookup_imap in Hin as (j & f & [= -> ->] & Hj).
    by apply Hall.
Qed.

(** The same run again, from the state the first run left. *)
Lemma split_data_again (tr vr : Q) (g : G) fs :
  let first := split_data root tr vr g fs in
  split_data root tr vr g first.2 = (first.1, first.2).
Proof.
  intros first.
  destruct (make_folders_running root fs) as (fsA & EA & HrunA).
  pose proof HrunA as [HsrcA HexA].
  assert (Hagain : make_folders [train_folder root; val_folder root; test_folder root] fsA
                   = (Py.Ok tt, fsA)).
  { apply make_folders_again. by apply partition_folders_of_list. }
  destruct (fs !! images_folder root) as [images|] eqn:Himg;
    [destruct (fs !! labels_folder root) as [labels|] eqn:Hlab|].
  - destruct (split_data_run tr vr g fs images labels Himg Hlab)
      as (_ & fs' & E & [Hsrc' Hex'] & Hcopied).
    subst first. rewrite E. cbn [fst snd].
    unfold split_data, mbind, Py.M_bind.
    rewrite make_folders_again by (by apply partition_folders_of_list).
    rewrite (os_listdir_ok (images_folder root) fs' images)
      by (rewrite Hsrc'; [done | by left]).
    rewrite (os_listdir_ok (labels_folder root) fs' labels)
      by (rewrite Hsrc'; [done | by right]).
    apply distribute_again. intros j file Hj. rewrite Nat.add_0_l.
    destruct (Hcopied file (destination (Z.of_nat j)
                (Py.int (tr * Py.float (Z.of_nat (length
                   (random_shuffle g (paired (map_to_list images).*1
                                             (map_to_list labels).*1))))))
                (Py.int (vr * Py.float (Z.of_nat (length
                   (random_shuffle g (paired (map_to_list images).*1
                                             (map_to_list labels).*1))))))))
      as [(d & Hd0 & Hd) (l & Hl0 & Hl)].
    { apply elem_of_lookup_imap. by exists j, file. }
    unfold copied, source_entry in *.
    fold (images_folder root) (labels_folder root) in *.
    rewrite (Hsrc' (images_folder root)) by (by left).
    rewrite (Hsrc' (labels_folder root)) by (by right).
    split; [exists d | exists l]; by split.
  - assert (E : first = (Py.Raise (Py.FileNotFoundError (labels_folder root)), fsA)).
    { subst first. unfold split_data, mbind, Py.M_bind. rewrite EA.
      rewrite (os_listdir_ok (images_folder root) fsA images)
        by (rewrite HsrcA; [done | by left]).
      by rewrite os_listdir_missing by (rewrite HsrcA; [done | by right]). }
    rewrite E. cbn [fst snd]. unfold split_data, mbind, Py.M_bind. rewrite Hagain.
    rewrite (os_listdir_ok (images_folder root) fsA images)
      by (rewrite HsrcA; [done | by left]).
    by rewrite os_listdir_missing by (rewrite HsrcA; [done | by right]).
  - assert (E : first = (Py.Raise (Py.FileNotFoundError (images_folder root)), fsA)).
    { subst first. unfold split_data, mbind, Py.M_bind. rewrite EA.
      by rewrite os_listdir_missing by (rewrite HsrcA; [done | by left]). }
    rewrite E. cbn [fst snd]. unfold split_data, mbind, Py.M_bind. rewrite Hagain.
    by rewrite os_listdir_missing by (rewrite HsrcA; [done | by left]).
Qed.
End runs.




(** C9: with the generator in the same state, a second run on the file
    system the first run left decides the same partition for every paired
    file, ends the same way and leaves that file system as it is; more
    generally the partition decided by a run depends on the generator state
    and on the entries of the two input folders only. *)
Theorem C9_same_seed_same_partition {G : Type} `{!Random G} (root : path) (tr vr : Q)
    (g : G) (fs : filesystem) :
  let first := split_data root tr vr g fs in
  assignment root tr vr g first.2 = assignment root tr vr g fs
  ∧ split_data root tr vr g first.2 = (first.1, first.2)
  ∧ ∀ fs' : filesystem,
      fs' !! images_folder root = fs !! images_folder root →
      fs' !! labels_folder root = fs !! labels_folder root →
      assignment root tr vr g fs' = assignment root tr vr g fs.
Proof.
  intros first. split; [|split; [apply split_data_again|]].
  - unfold assignment. subst first.
    rewrite !split_data_frame by (by left + by right). done.
  - intros fs' Hi Hl. unfold assignment. by rewrite Hi, Hl.
Qed.

(** C10: whatever the run does, the [images] and [labels] folders hold the
    same entries with the same contents afterwards. *)
Theorem C10_sources_untouched {G : Type} `{!Random G} (root : path) (tr vr : Q)
    (g : G) (fs : filesystem) :
  let fs' := (split_data root tr vr g fs).2 in
  fs' !! images_folder root = fs !! images_folder root
  ∧ fs' !! labels_folder root = fs !! labels_folder root
  ∧ (∀ name, read_file fs' (os_path_join (images_folder root) name)
             = read_file fs (os_path_join (images_folder root) name))
  ∧ (∀ name, read_file fs' (os_path_join (labels_folder root) name)
             = read_file fs (os_path_join (labels_folder root) name)).
Proof.
  intros fs'. subst fs'.
  assert (Hi := split_data_frame root tr vr g (images_folder root) fs (or_introl eq_refl)).
  assert (Hl := split_data_frame root tr vr g (labels_folder root) fs (or_intror eq_refl)).
  repeat split; try done.
  - intros name. by rewrite !read_file_join, Hi.
  - intros name. by rewrite !read_file_join, Hl.
Qed.

End SplitDataSpec.

(** ** The synthetic-data generator *)

Module RotationSpec.
Import SyntheticData.
Local Open Scope R_scope.


Section angles.
Variables ax ay az : R.

Let M : list (list R) :=
  np_dot (rotation_matrix_z az) (np_dot (rotation_matrix_y ay) (rotation_matrix_x ax)).



End angles.



Section sampler.
Context {G : Type} `{!NumpyRandom G}.


End sampler.

End RotationSpec.

Module GridSpec.
Import SyntheticData.

(** *** Truncation on the quotients the generator forms *)


Lemma Py_int_quotient (b a : Z) :
  (0 ≤ b)%Z → (0 < a)%Z → Py.int (Py.float b / Py.float a) = (b `div` a)%Z.
Proof.
  intros Hb Ha. destruct a as [|a|a]; try lia.
  unfold Py.int, Py.float. cbn.
  rewrite Z.mul_1_r. apply Z.quot_div_nonneg; lia.
Qed.

(** *** Lists built by nested loops *)

Lemma bind_one {A B} (f : A → B) (l : list A) : l ≫= (λ x, [f x]) = f <$> l.
Proof. induction l as [|x l IH]; [done|]. rewrite bind_cons, IH. done. Qed.

Lemma length_bind_rows {A B} (f : A → list B) (n : nat) (l : list A) :
  (∀ x, length (f x) = n) → length (l ≫= f) = (length l * n)%nat.
Proof.
  intros Hf. induction l as [|x l IH]; [done|].
  rewrite bind_cons, length_app, Hf, IH. cbn. lia.
Qed.


Section grid.
Variables avg_width avg_height grid_horisontal grid_vertical : Z.

Let cells := grid_cells avg_width avg_height grid_horisontal grid_vertical.

Let grid_row := grid_row avg_width avg_height grid_horisontal.

Lemma grid_cells_rows : cells = seqZ 0 grid_vertical ≫= grid_row.
Proof.
  subst cells. unfold grid_cells. apply list_bind_ext; [|done].
  intros v. subst grid_row. unfold SyntheticData.grid_row. by rewrite <- bind_one.
Qed.

Lemma length_grid_row v : length (grid_row v) = Z.to_nat grid_horisontal.
Proof.
  subst grid_row. unfold SyntheticData.grid_row. by rewrite length_fmap, length_seqZ.
Qed.

Lemma length_grid_cells :
  length cells = (Z.to_nat grid_vertical * Z.to_nat grid_horisontal)%nat.
Proof.
  rewrite grid_cells_rows.
  rewrite (length_bind_rows _ (Z.to_nat grid_horisontal)) by apply length_grid_row.
  by rewrite length_seqZ.
Qed.



End grid.

Lemma Py_int_nonneg (q : Q) : (0 <= q)%Q → (0 ≤ Py.int q)%Z.
Proof.
  destruct q as [n d]. unfold Qle, Py.int. cbn. intros Hq.
  apply Z.quot_pos; lia.
Qed.

End GridSpec.

Module RenderSpec.
Import SyntheticData GridSpec.

Section render.
Context {G : Type} `{!NumpyRandom G}.
Variable window_size : Z * Z.

Lemma le_add_nonneg (n m : Z) : (0 ≤ m)%Z → (n ≤ n + m)%Z.
Proof. lia. Qed.

Lemma scaled_nonneg (w : Z) (low high u : Q) :
  (0 ≤ w)%Z → (0 <= low)%Q → (low <= high)%Q → (0 <= u)%Q →
  (0 ≤ Py.int (Py.float w * (low + (high - low) * u)))%Z.
Proof.
  intros Hw Hlow Hhigh Hu. apply Py_int_nonneg.
  apply Qmult_le_0_compat.
  - unfold Py.float. rewrite <- (Zle_Qle 0). done.
  - assert (0 <= (high - low) * u)%Q by (apply Qmult_le_0_compat; Lqa.lra).
    Lqa.lra.
Qed.

Lemma render_mesh_spec fault j file (st : state G) :
  ∃ st', render_mesh window_size fault j file st = (Py.Ok tt, st')
         ∧ placed st' = placed st ∧ label_file st' = label_file st
         ∧ matrix st' = matrix st
         ∧ ((0 ≤ window_size.1)%Z → (avg_width st ≤ avg_width st')%Z)
         ∧ ((0 ≤ window_size.2)%Z → (avg_height st ≤ avg_height st')%Z)
         ∧ (temp st' = temp st
            ∨ fault = RenderOk
              ∧ ∃ size, temp st' = <[Py.str (Z.of_nat j) +:+ ".png" := size]> (temp st)
                        ∧ ((0 ≤ window_size.1)%Z → (0 ≤ size.1)%Z)).
Proof.
  unfold render_mesh, rotation_samples, np_random_uniform, np_random_sample.
  destruct fault; run.
  2:{ eexists. split; [reflexivity|]. cbn. repeat split; try done; try lia. by left. }
  all: destruct (random_sample (rng st)) as [u1 g1]; run;
    destruct (random_sample g1) as [u2 g2]; run;
    destruct (random_sample g2) as [u3 g3] eqn:E3; run.
  2:{ eexists. split; [reflexivity|]. cbn. repeat split; try done; try lia. by left. }
  all: pose proof (random_sample_range g3) as [Hu _];
    destruct (Py.contains "lid" file); run;
    destruct (random_sample g3) as [u g4]; run; cbn in Hu;
    (eexists; split; [reflexivity|]); cbn;
    (split; [done|]); (split; [done|]); (split; [done|]).
  all: split;
    [intros Hw; apply le_add_nonneg, scaled_nonneg;
     [done | unfold Qle; cbn; lia | unfold Qle; cbn; lia | done]|].
  all: split;
    [intros Hw; apply le_add_nonneg, scaled_nonneg;
     [done | unfold Qle; cbn; lia | unfold Qle; cbn; lia | done]|].
  all: try (by left).
  all: right; split; [done|]; eexists; split; [reflexivity|]; cbn;
    intros Hw; apply scaled_nonneg;
    [done | unfold Qle; cbn; lia | unfold Qle; cbn; lia | done].
Qed.
Lemma render_all_spec faults stl_files :
  ∀ j0 (st : state G),
    ∃ st', render_all window_size faults j0 stl_files st = (Py.Ok tt, st')
           ∧ placed st' = placed st ∧ label_file st' = label_file st
           ∧ matrix st' = matrix st
           ∧ ((0 ≤ window_size.1)%Z → (avg_width st ≤ avg_width st')%Z)
           ∧ ((0 ≤ window_size.2)%Z → (avg_height st ≤ avg_height st')%Z)
           ∧ ∀ name size, temp st' !! name = Some size →
               temp st !! name = Some size
               ∨ rendered window_size faults j0 (length stl_files) name size.
Proof.
  induction stl_files as [|file rest IH]; intros j0 st.
  - exists st. repeat split; try done; try lia. by left.
  - destruct (render_mesh_spec (faults j0) j0 file st)
      as (st1 & E1 & Hp1 & Hl1 & Hm1 & Hw1 & Hh1 & Ht1).
    destruct (IH (S j0) st1) as (st2 & E2 & Hp2 & Hl2 & Hm2 & Hw2 & Hh2 & Ht2).
    exists st2. split.
    { cbn [render_all]. unfold mbind, Py.M_bind. by rewrite E1. }
    split; [congruence|]. split; [congruence|]. split; [congruence|].
    split; [intros Hw; specialize (Hw1 Hw); specialize (Hw2 Hw); lia|].
    split; [intros Hw; specialize (Hh1 Hw); specialize (Hh2 Hw); lia|].
    intros name size Hn. destruct (Ht2 name size Hn) as [Hin1 | Hr].
    + destruct Ht1 as [Ht1 | (Hok & sz & Ht1 & Hsz)].
      * left. by rewrite <- Ht1.
      * rewrite Ht1 in Hin1.
        apply lookup_insert_Some in Hin1 as [[<- <-] | [_ Hin]]; [|by left].
        right. exists j0. cbn. repeat split; try done; lia.
    + right. destruct Hr as (j & Hj & Hok & Hname & Hsz).
      exists j. cbn. repeat split; try done; lia.
Qed.

Lemma footprint_nonneg (total : Z) (j : nat) : (0 ≤ total)%Z → (0 ≤ footprint total j)%Z.
Proof.
  intros Ht. unfold footprint. apply Py_int_nonneg.
  assert (0 <= Py.float total)%Q by (unfold Py.float; by rewrite <- (Zle_Qle 0)).
  assert (0 < Py.float (Z.of_nat j + 1))%Q
    by (unfold Py.float; rewrite <- (Zlt_Qlt 0); lia).
  apply Qle_shift_div_l; [done|]. rewrite Qmult_0_l.
  apply Qle_shift_div_l; [done|]. by rewrite Qmult_0_l.
Qed.

Lemma build_matrix_spec bg_width bg_height n (st st' : state G) o :
  build_matrix bg_width bg_height n st = (o, st') →
  temp st' = temp st ∧ placed st' = placed st ∧ label_file st' = label_file st
  ∧ (o ≠ Py.Ok tt → matrix st' = matrix st)
  ∧ (o = Py.Ok tt →
     avg_width st' ≠ 0%Z ∧ avg_height st' ≠ 0%Z
     ∧ matrix st'
       = grid_cells (avg_width st') (avg_height st')
           (Py.int (Py.float bg_width / Py.float (avg_width st')))
           (Py.int (Py.float bg_height / Py.float (avg_height st')))
     ∧ ((0 ≤ avg_width st)%Z → (0 < avg_width st')%Z)
     ∧ ((0 ≤ avg_height st)%Z → (0 < avg_height st')%Z)).
Proof.
  unfold build_matrix. destruct n as [|j]; run.
  { intros [= <- <-]. done. }
  destruct (decide (footprint (avg_width st) j = 0%Z)) as [Hw | Hw]; run.
  { intros [= <- <-]. done. }
  destruct (decide (footprint (avg_height st) j = 0%Z)) as [Hh | Hh]; run.
  { intros [= <- <-]. done. }
  intros [= <- <-]. cbn. repeat split; try done.
  - intros H0. pose proof (footprint_nonneg _ j H0). lia.
  - intros H0. pose proof (footprint_nonneg _ j H0). lia.
Qed.

Lemma prepare_image_spec bg_width bg_height stl_files faults (st0 st1 : state G) o :
  prepare_image window_size bg_width bg_height stl_files faults st0 = (o, st1) →
  placed st1 = placed st0 ∧ label_file st1 = label_file st0
  ∧ (∀ name size, temp st1 !! name = Some size →
       temp st0 !! name = Some size
       ∨ rendered window_size faults 0 (length stl_files) name size)
  ∧ (o ≠ Py.Ok tt → matrix st1 = matrix st0)
  ∧ (o = Py.Ok tt →
     avg_width st1 ≠ 0%Z ∧ avg_height st1 ≠ 0%Z
     ∧ matrix st1
       = grid_cells (avg_width st1) (avg_height st1)
           (Py.int (Py.float bg_width / Py.float (avg_width st1)))
           (Py.int (Py.float bg_height / Py.float (avg_height st1)))
     ∧ ((0 ≤ window_size.1)%Z → (0 < avg_width st1)%Z)
     ∧ ((0 ≤ window_size.2)%Z → (0 < avg_height st1)%Z)).
Proof.
  unfold prepare_image. run.
  destruct (render_all_spec faults stl_files 0 (set_avg 0 0 st0))
    as (stR & ER & Hp & Hl & Hm & Hw & Hh & Ht).
  rewrite ER.
  destruct (build_matrix bg_width bg_height (length stl_files) stR) as [o' st'] eqn:EB.
  apply build_matrix_spec in EB as (Ht' & Hp' & Hl' & Hraise & Hok).
  intros [= <- <-]. cbn in *.
  split; [congruence|]. split; [congruence|].
  split; [intros name size Hn; rewrite Ht' in Hn; by apply Ht|].
  split; [intros Ho; rewrite (Hraise Ho); congruence|].
  intros Eo. destruct (Hok Eo) as (Ha & Hb & Hmx & Hpw & Hph).
  repeat split; try done.
  - intros H0. apply Hpw. specialize (Hw H0). lia.
  - intros H0. apply Hph. specialize (Hh H0). lia.
Qed.
End render.

End RenderSpec.

Module PlacementSpec.
Import SyntheticData.

Section placement.
Context {G : Type} `{!NumpyRandom G}.
Variables (bg_width bg_height : Z) (image_file : string).

Lemma place_raster_pass fault name (st : state G) :
  is_Some (temp st !! name) →
  ∃ st', place_raster bg_width bg_height image_file fault name st = (Py.Ok tt, st')
         ∧ pass bg_width bg_height image_file fault name st st'.
Proof.
  intros [size Hsize]. unfold place_raster.
  destruct fault; run; rewrite ?Hsize; run.
  all: try (eexists; split; [reflexivity|]; by apply pass_skipped).
  all: unfold np_random_randint0;
    destruct (length (matrix st)) as [|n] eqn:Hlen; run; rewrite ?Hsize; run;
    try (eexists; split; [reflexivity|]; by apply pass_skipped).
  all: destruct (randint_below (rng st) (S n)) as [random_index g]; run;
    destruct (matrix st !! random_index) as [[x y]|] eqn:Hpos; run;
    rewrite ?Hsize; run;
    try (eexists; split; [reflexivity|]; by apply pass_skipped).
  unfold create_label_file.
  destruct (decide (bg_width = 0%Z ∨ bg_height = 0%Z)) as [Hz | Hnz];
    run; rewrite ?Hsize; run.
  { eexists; split; [reflexivity|]; by apply pass_skipped. }
  eexists; split; [reflexivity|].
  by eapply (pass_placed _ _ _ _ _ _ _ random_index (x, y) size); cbn; try tauto.
Qed.
Lemma place_all_passes faults listing :
  NoDup listing →
  ∀ x (st : state G),
    (∀ name, name ∈ listing → is_Some (temp st !! name)) →
    ∃ st', place_all bg_width bg_height image_file faults x listing st = (Py.Ok tt, st')
           ∧ passes bg_width bg_height image_file faults x listing st st'.
Proof.
  induction 1 as [|name rest Hnotin Hnd IH]; intros x st Hall.
  - exists st. split; [done | constructor].
  - destruct (place_raster_pass (faults x) name st) as (st1 & E1 & Hpass).
    { apply Hall. left. }
    destruct (IH (S x) st1) as (st2 & E2 & Hrest).
    { intros n Hn.
      assert (Ht : temp st1 = delete name (temp st)) by (by destruct Hpass).
      rewrite Ht, lookup_delete_ne; [apply Hall; by right|].
      intros ->. done. }
    exists st2. split; [|by econstructor].
    cbn [place_all]. unfold mbind, Py.M_bind. by rewrite E1.
Qed.

(** What a run of the loop has done when it ends. *)
Lemma passes_summary faults x listing (st st' : state G) :
  passes bg_width bg_height image_file faults x listing st st' →
  NoDup listing →
  ∃ new k,
    placed st' = placed st ++ new
    ∧ label_file st' = label_file st ++ (label <$> new)
    ∧ (cell <$> new) ++ matrix st' ≡ₚ matrix st
    ∧ Forall (placement_of bg_width bg_height listing st) new
    ∧ (∀ n, temp st' !! n = if decide (n ∈ listing) then None else temp st !! n)
    ∧ stdout st' = stdout st ++ replicate k (error_message image_file)
    ∧ (length new + k = length listing)%nat.
Proof.
  induction 1 as [x st | x name rest st st1 st2 Hpass Hrest IH]; intros Hnd.
  - exists [], 0%nat. cbn. rewrite !app_nil_r. repeat split; try done.
    all: intros n; rewrite decide_False; [done | apply not_elem_of_nil].
  - apply NoDup_cons in Hnd as [Hnotin Hnd].
    destruct (IH Hnd) as (new & k & Hp & Hl & Hm & Hf & Ht & Ho & Hlen).
    assert (Ht1 : temp st1 = delete name (temp st)) by (by destruct Hpass).
    assert (Htemp : ∀ n, temp st2 !! n
                         = if decide (n ∈ name :: rest) then None else temp st !! n).
    { intros n. rewrite Ht, Ht1. destruct (decide (n = name)) as [-> | Hne].
      - rewrite lookup_delete_eq. rewrite (decide_True (P := name ∈ name :: rest)) by left.
        by case_decide.
      - rewrite lookup_delete_ne by done.
        destruct (decide (n ∈ rest)) as [Hin | Hnin].
        + by rewrite decide_True by (by right).
        + rewrite decide_False; [done|]. rewrite elem_of_cons. tauto. }
    assert (Hf' : Forall (placement_of bg_width bg_height (name :: rest) st) new).
    { eapply Forall_impl; [exact Hf|].
      intros p (pos & size & Ep & Hin & Hsz & Hpos & Hbw & Hbh).
      exists pos, size. split; [done|]. split; [by right|].
      split.
      { rewrite Ht1 in Hsz. by apply lookup_delete_Some in Hsz as [_ ?]. }
      split; [|done].
      destruct Hpass as [i pos0 size0 _ _ _ _ Hi _ Hmx _ _ _ | _ Hmx _ _ _].
      - rewrite Hmx in Hpos. by eapply list_elem_of_delete_inv.
      - by rewrite Hmx in Hpos. }
    destruct Hpass as [i pos0 size0 Hfault Hbw Hbh Hsz Hi _ Hmx Hpl Hlf Hso
                      | _ Hmx Hpl Hlf Hso].
    + exists (placement_for bg_width bg_height name pos0 size0 :: new), k.
      split; [by rewrite Hp, Hpl, <- (assoc_L (++))|].
      split; [by rewrite Hl, Hlf, <- (assoc_L (++))|].
      split.
      { cbn. rewrite Hm, Hmx. symmetry. exact (delete_Permutation _ _ _ Hi). }
      split.
      { constructor; [|done].
        exists pos0, size0. cbn. repeat split; try done; [left|].
        by eapply list_elem_of_lookup_2. }
      split; [done|]. split; [by rewrite Ho, Hso | cbn; lia].
    + exists new, (S k).
      split; [by rewrite Hp, Hpl|]. split; [by rewrite Hl, Hlf|].
      split; [by rewrite Hm, Hmx|].
      split; [done|].
      split; [done|]. split; [|cbn; lia].
      rewrite Ho, Hso. cbn. by rewrite <- (assoc_L (++)).
Qed.
End placement.

End PlacementSpec.

Module NameSpec.

Lemma append_cons c s t : String c s +:+ t = String c (s +:+ t).
Proof. reflexivity. Qed.

Lemma pretty_N_char_digit x : is_Some (Ascii.is_nat (pretty_N_char x)).
Proof. unfold pretty_N_char. repeat case_match; by eexists. Qed.

Lemma pretty_N_go_digits x s : Py.all_digits s → Py.all_digits (pretty_N_go x s).
Proof.
  revert s. induction (N.lt_wf_0 x) as [x _ IH]; intros s Hs.
  assert (x = 0 ∨ 0 < x)%N as [-> | Hx] by lia.
  - by rewrite pretty_N_go_0.
  - rewrite pretty_N_go_step by done. apply IH.
    + by apply N.div_lt.
    + split; [apply pretty_N_char_digit | done].
Qed.

Lemma str_digits (j : nat) : Py.all_digits (Py.str (Z.of_nat j)).
Proof.
  unfold Py.str, pretty, pretty_Z.
  destruct (Z.of_nat j) as [|p|p] eqn:E; [cbn; split; [by eexists | done] | | lia].
  unfold pretty, pretty_positive, pretty, pretty_N.
  case_decide; [done|]. by apply pretty_N_go_digits.
Qed.

Lemma digit_not (c d : ascii) :
  is_Some (Ascii.is_nat c) → Ascii.is_nat d = None → c ≠ d.
Proof. intros [n Hn] Hd ->. congruence. Qed.

Lemma basename_raster s : Py.all_digits s → Py.basename (s +:+ ".png") = s +:+ ".png".
Proof.
  intros Hs. unfold Py.basename.
  enough (Py.after_last "/" (s +:+ ".png") = None) as -> by done.
  induction s as [|c s IH]; [done|].
  destruct Hs as [Hc Hs]. rewrite append_cons. cbn [Py.after_last].
  rewrite IH by done. rewrite decide_False; [done|].
  by apply digit_not.
Qed.

Lemma replace_raster s : Py.all_digits s → Py.replace (s +:+ ".png") ".png" "" = s.
Proof.
  intros Hs. unfold Py.replace.
  induction s as [|c s IH]; [done|].
  destruct Hs as [Hc Hs]. rewrite append_cons. cbn [Py.replace_go].
  assert (Hne : "."%char ≠ c) by (apply not_eq_sym, digit_not; done).
  cbn [Py.startswith]. rewrite decide_False by done.
  by rewrite IH.
Qed.

(** The class identifier computed for the raster of mesh number [j]. *)
Lemma class_id_of_raster (j : nat) :
  Py.replace (Py.basename (Py.str (Z.of_nat j) +:+ ".png")) ".png" ""
  = Py.str (Z.of_nat j).
Proof.
  rewrite basename_raster by apply str_digits.
  apply replace_raster, str_digits.
Qed.

End NameSpec.

Module GeneratorSpec.
Import SyntheticData GridSpec RenderSpec PlacementSpec NameSpec.

Section loop.
Context {G : Type} `{!NumpyRandom G}.
Variables (bg_width bg_height : Z) (image_file : string).
Variable faults : nat → place_fault.

Lemma listing_NoDup (st : state G) : NoDup (os_listdir_temp st).
Proof. apply NoDup_fst_map_to_list. Qed.

Lemma listing_present (st : state G) name :
  name ∈ os_listdir_temp st ↔ is_Some (temp st !! name).
Proof.
  unfold os_listdir_temp. rewrite list_elem_of_fmap. split.
  - intros ([n sz] & -> & Hin). apply elem_of_map_to_list in Hin. by eexists.
  - intros [sz Hsz]. exists (name, sz). split; [done|]. by apply elem_of_map_to_list.
Qed.

Lemma place_all_snoc l name :
  ∀ x (st : state G),
    place_all bg_width bg_height image_file faults x (l ++ [name]) st
    = (place_all bg_width bg_height image_file faults x l;;
       place_raster bg_width bg_height image_file (faults (x + length l)) name) st.
Proof.
  induction l as [|n l IH]; intros x st.
  - cbn. rewrite Nat.add_0_r. unfold mbind, Py.M_bind, mret, Py.M_ret.
    by destruct (place_raster _ _ _ _ _ _) as [[[]|e] st1].
  - cbn [app place_all length]. unfold mbind, Py.M_bind.
    destruct (place_raster bg_width bg_height image_file (faults x) n st)
      as [[[]|e] st1]; [|done].
    rewrite IH. unfold mbind, Py.M_bind.
    by replace (S x + length l)%nat with (x + S (length l))%nat by lia.
Qed.

(** The loop over any part of the listing that has no repetition and is
    still in [temp] runs to its end. *)
Lemma place_all_run x listing (st : state G) :
  NoDup listing →
  (∀ name, name ∈ listing → is_Some (temp st !! name)) →
  ∃ st' new k,
    place_all bg_width bg_height image_file faults x listing st = (Py.Ok tt, st')
    ∧ placed st' = placed st ++ new
    ∧ label_file st' = label_file st ++ (label <$> new)
    ∧ (cell <$> new) ++ matrix st' ≡ₚ matrix st
    ∧ Forall (placement_of bg_width bg_height listing st) new
    ∧ (∀ n, temp st' !! n = if decide (n ∈ listing) then None else temp st !! n)
    ∧ stdout st' = stdout st ++ replicate k (error_message image_file)
    ∧ (length new + k = length listing)%nat.
Proof.
  intros Hnd Hall.
  destruct (place_all_passes bg_width bg_height image_file faults listing Hnd x st Hall)
    as (st' & E & Hpasses).
  destruct (passes_summary _ _ _ _ _ _ _ _ Hpasses Hnd) as (new & k & Hsum).
  exists st', new, k. by split.
Qed.
End loop.

(** *** Where the cells lie and what the label fields are *)




Section image.
Context {G : Type} `{!NumpyRandom G}.
Variables (window_size : Z * Z) (bg_width bg_height : Z) (image_file : string).
Variables (stl_files : list string).
Variables (render_faults : nat → render_fault) (place_faults : nat → place_fault).

(** One background image, from a state without placements. *)
Lemma process_image_summary (st0 : state G) :
  placed st0 = [] → label_file st0 = [] →
  let prepared :=
    prepare_image window_size bg_width bg_height stl_files render_faults st0 in
  let final :=
    (process_image window_size bg_width bg_height image_file stl_files
                   render_faults place_faults st0).2 in
  label_file final = label <$> placed final
  ∧ Forall (placement_of bg_width bg_height (os_listdir_temp prepared.2) prepared.2)
           (placed final)
  ∧ (prepared.1 = Py.Ok tt →
     (cell <$> placed final) ++ matrix final ≡ₚ matrix prepared.2).
Proof.
  intros Hp0 Hl0 prepared final. subst final. unfold process_image, mbind, Py.M_bind.
  fold prepared.
  destruct prepared as [o st1] eqn:Eprep.
  pose proof (prepare_image_spec _ _ _ _ _ _ _ _ Eprep) as (Hp1 & Hl1 & _).
  rewrite Hp0 in Hp1. rewrite Hl0 in Hl1.
  destruct o as [[]|e]; cbn [fst snd].
  - unfold place_rasters, mbind, Py.M_bind, Py.get.
    destruct (place_all_run bg_width bg_height image_file place_faults 0
                (os_listdir_temp st1) st1)
      as (st2 & new & k & E & Hp & Hl & Hm & Hf & _).
    { apply listing_NoDup. }
    { intros name. apply listing_present. }
    rewrite E. cbn. rewrite Hp1 in Hp. rewrite Hl1 in Hl. cbn in Hp, Hl.
    rewrite Hp, Hl. done.
  - rewrite Hp1, Hl1. by repeat split.
Qed.
End image.

Section claims.
Context {G : Type} `{!NumpyRandom G}.


(** C8: the placement loop goes through the whole listing of [temp] and
    returns; [temp] is empty afterwards.  Pass number [k] finds its
    raster in [temp] and leaves [temp] without it before pass [k+1]
    starts, whether the raster was placed or the pass raised; a pass
    under a fault places nothing and prints the error message. *)
Theorem C8_raster_removed_every_pass (bg_width bg_height : Z) (image_file : string)
    (faults : nat → place_fault) (st : state G) :
  let listing := os_listdir_temp st in
  let after k :=
    (place_all bg_width bg_height image_file faults 0 (take k listing) st).2 in
  place_rasters bg_width bg_height image_file faults st
  = (Py.Ok tt, after (length listing))
  ∧ temp (after (length listing)) = ∅
  ∧ ∀ k name, listing !! k = Some name →
      place_raster bg_width bg_height image_file (faults k) name (after k)
      = (Py.Ok tt, after (S k))
      ∧ pass bg_width bg_height image_file (faults k) name (after k) (after (S k))
      ∧ is_Some (temp (after k) !! name)
      ∧ temp (after (S k)) = delete name (temp (after k))
      ∧ (faults k ≠ PlaceOk →
         placed (after (S k)) = placed (after k)
         ∧ label_file (after (S k)) = label_file (after k)
         ∧ stdout (after (S k)) = stdout (after k) ++ [error_message image_file]).
Proof.
  intros listing after.
  assert (Hnd : NoDup listing) by apply listing_NoDup.
  assert (Hall : ∀ name, name ∈ listing → is_Some (temp st !! name)).
  { intros name. apply listing_present. }
  assert (Hprefix : ∀ k,
            place_all bg_width bg_height image_file faults 0 (take k listing) st
            = (Py.Ok tt, after k)
            ∧ ∀ n, temp (after k) !! n
                   = if decide (n ∈ take k listing) then None else temp st !! n).
  { intros k.
    destruct (place_all_run bg_width bg_height image_file faults 0 (take k listing) st)
      as (st' & new & j & E & _ & _ & _ & _ & Ht & _).
    - rewrite <- (take_drop k listing) in Hnd. by apply NoDup_app in Hnd as [? _].
    - intros name Hin. apply Hall. by eapply subseteq_take.
    - subst after. cbn beta. rewrite E. done. }
  split; [|split].
  - unfold place_rasters, mbind, Py.M_bind, Py.get. fold listing.
    destruct (Hprefix (length listing)) as [E _].
    by rewrite take_ge in E by done.
  - destruct (Hprefix (length listing)) as [_ Ht]. rewrite take_ge in Ht by done.
    apply map_eq. intros n. rewrite Ht, lookup_empty.
    case_decide as Hin; [done|].
    destruct (temp st !! n) eqn:Hn; [|done].
    exfalso. apply Hin. apply listing_present. by eexists.
  - intros k name Hk.
    destruct (Hprefix k) as [Ek Htk]. destruct (Hprefix (S k)) as [ESk _].
    assert (Hname : is_Some (temp (after k) !! name)).
    { rewrite Htk. rewrite decide_False.
      - apply Hall. by eapply list_elem_of_lookup_2.
      - intros Hin. rewrite <- (take_drop_middle listing k name Hk) in Hnd.
        apply NoDup_app in Hnd as (_ & Hdis & _). apply (Hdis name Hin). left. }
    destruct (place_raster_pass bg_width bg_height image_file (faults k) name
                (after k) Hname) as (st' & Estep & Hpass).
    assert (st' = after (S k)) as ->.
    { rewrite (take_S_r listing k name Hk), place_all_snoc in ESk.
      unfold mbind, Py.M_bind in ESk. rewrite Ek in ESk.
      rewrite length_take_le in ESk by (apply lookup_lt_Some in Hk; lia).
      cbn in ESk. congruence. }
    split; [done|]. split; [done|]. split; [done|].
    split; [by destruct Hpass|].
    intros Hfault. by destruct Hpass.
Qed.

(** C6, as amended: the class identifier written for a placed object is
    the decimal number of its mesh in the list of STL files: the raster
    is stored under that number, and the identifier is the raster's file
    name without [.png]. *)
Theorem C6_class_id_is_mesh_number (window_size : Z * Z) (bg_width bg_height : Z)
    (image_file : string) (stl_files : list string)
    (render_faults : nat → render_fault) (place_faults : nat → place_fault) (g : G) :
  Forall (λ p, ∃ j mesh,
            stl_files !! j = Some mesh
            ∧ render_faults j = RenderOk
            ∧ raster_name p = Py.str (Z.of_nat j) +:+ ".png"
            ∧ class_id (label p) = Py.str (Z.of_nat j))
         (placed (process_image window_size bg_width bg_height image_file stl_files
                                render_faults place_faults (initial_state g)).2).
Proof.
  destruct (process_image_summary window_size bg_width bg_height image_file stl_files
              render_faults place_faults (initial_state g) eq_refl eq_refl)
    as (_ & Hplaced & _).
  destruct (prepare_image window_size bg_width bg_height stl_files render_faults
              (initial_state g)) as [o st1] eqn:Eprep.
  cbn [snd] in Hplaced.
  pose proof (prepare_image_spec _ _ _ _ _ _ _ _ Eprep) as (_ & _ & Htemp & _).
  eapply Forall_impl; [exact Hplaced|].
  intros p (pos & size & Ep & _ & Hsize & _).
  destruct (Htemp _ _ Hsize) as [Habs | (j & Hj & Hok & Hname & _)].
  { cbn in Habs. by rewrite lookup_empty in Habs. }
  destruct (lookup_lt_is_Some_2 stl_files j) as [mesh Hmesh]; [lia|].
  exists j, mesh. split; [done|]. split; [done|]. split; [done|].
  rewrite Ep. cbn [label placement_for label_for class_id].
  rewrite Hname. apply class_id_of_raster.
Qed.
End claims.

(** *** Runs on small inputs *)



(** C6, as stated, fails: the object placed in [narrow_run] comes from
    [stl/sun_c.stl], whose base name without extension is [sun_c], and its
    class identifier is [0]. *)
Lemma C6_class_id_not_base_name :
  ∃ p, p ∈ placed narrow_run.2
       ∧ raster_name p = "0.png"
       ∧ class_id (label p) = "0"
       ∧ spec_class_id "stl/sun_c.stl" = "sun_c"
       ∧ class_id (label p) ≠ spec_class_id "stl/sun_c.stl".
Proof.
  assert (E : placed narrow_run.2
              = [PlacedObject "0.png" (25, 19)%Z (-25, -19)%Z
                   (LabelLine "0" (25 # 50) (19 # 40) (101 # 100) (101 # 80))])
    by (vm_compute; done).
  rewrite E. eexists. split; [left|]. cbn. repeat split; try done.
Qed.

(** A pass that raises after the paste leaves the raster on the background
    and the cell free: in [unlabelled_run] both rasters are pasted centred on
    the only cell, (35,26), and none counts as placed. *)
Lemma pasted_without_placement :
  unlabelled_run.1 = Py.Ok tt
  ∧ background unlabelled_run.2 = [("1.png", (-79, -59)%Z); ("0.png", (8, 6)%Z)]
  ∧ matrix unlabelled_run.2 = [(35, 26)%Z]
  ∧ placed unlabelled_run.2 = []
  ∧ label_file unlabelled_run.2 = []
  ∧ temp unlabelled_run.2 = ∅.
Proof. vm_compute. done. Qed.

(** C5 on [one_failed_run]: one mesh rendered, 226x170; its halved average
    is 113x85, and the generator, dividing the sums by the number of all
    meshes, builds the grid from 56x42. *)
Lemma C5_failed_mesh_in_divisor :
  one_failed_run.1 = Py.Ok tt
  ∧ map_to_list (temp one_failed_run.2) = [("1.png", (226, 170)%Z)]
  ∧ (avg_width one_failed_run.2, avg_height one_failed_run.2) = (56, 42)%Z
  ∧ (spec_footprint [226%Z], spec_footprint [170%Z]) = (113, 85)%Z.
Proof. vm_compute. done. Qed.



End GeneratorSpec.


(** * Further properties *)

(** ** Drawing boxes: any label file *)

Module DrawBoundingBoxMore.
Import DrawBoundingBox.






(** Truncation of a non-negative quotient is its floor. *)
Lemma int_is_floor (q : Q) : (0 <= q)%Q → Py.int q = Qfloor q.
Proof.
  destruct q as [n d]. unfold Qle, Py.int, Qfloor. cbn. intros Hq.
  apply Z.quot_div_nonneg; lia.
Qed.

Lemma le_floor (z : Z) (q : Q) : (inject_Z z <= q)%Q → (z ≤ Qfloor q)%Z.
Proof. intros Hle. rewrite <- (Qfloor_Z z). by apply Qfloor_resp_le. Qed.

(** One axis of a box that lies inside the unit interval. *)
Lemma span_inside (W : Z) (x w : Q) :
  (0 ≤ W)%Z → (0 <= w)%Q → (w / 2 <= x)%Q → (x + w / 2 <= 1)%Q →
  (0 ≤ Py.int (x * Py.float W) - Py.int (w * Py.float W) `div` 2
   ≤ Py.int (x * Py.float W) + Py.int (w * Py.float W) `div` 2 ≤ W)%Z.
Proof.
  intros HW Hw Hlo Hhi.
  assert (HWq : (0 <= Py.float W)%Q) by (unfold Py.float; by rewrite <- (Zle_Qle 0)).
  assert (Hx : (0 <= x)%Q).
  { apply Qle_trans with (w / 2)%Q; [|done].
    apply Qle_shift_div_l; [done|]. by rewrite Qmult_0_l. }
  assert (HA : (0 <= x * Py.float W)%Q) by (by apply Qmult_le_0_compat).
  assert (HB : (0 <= w * Py.float W)%Q) by (by apply Qmult_le_0_compat).
  rewrite !int_is_floor by done.
  set (A := (x * Py.float W)%Q) in *. set (B := (w * Py.float W)%Q) in *.
  assert (HBA : (B / 2 <= A)%Q).
  { subst A B.
    assert (E : (w * Py.float W / 2 == (w / 2) * Py.float W)%Q) by field.
    rewrite E. by apply Qmult_le_compat_r. }
  assert (HAB : (A + B / 2 <= Py.float W)%Q).
  { subst A B.
    assert (E : (x * Py.float W + w * Py.float W / 2 == (x + w / 2) * Py.float W)%Q)
      by field.
    rewrite E. rewrite <- (Qmult_1_l (Py.float W)) at 2.
    by apply Qmult_le_compat_r. }
  pose proof (Qfloor_le A) as HfA. pose proof (Qfloor_le B) as HfB.
  assert (0 ≤ Qfloor B)%Z by (by apply (le_floor 0)).
  set (b := Qfloor B) in *. set (a := Qfloor A) in *.
  assert (Hhalf : (inject_Z (b `div` 2) <= inject_Z b / 2)%Q).
  { apply Qle_shift_div_l; [done|].
    change 2%Q with (inject_Z 2). rewrite <- inject_Z_mult, <- Zle_Qle.
    pose proof (Z.div_mod b 2). pose proof (Z.mod_pos_bound b 2). lia. }
  assert (HbB : (inject_Z b / 2 <= B / 2)%Q).
  { apply Qmult_le_compat_r; [done|]. by vm_compute. }
  assert (b `div` 2 ≤ a)%Z.
  { apply le_floor. eauto using Qle_trans. }
  assert (0 ≤ b `div` 2)%Z by (apply Z.div_pos; lia).
  assert (a + b `div` 2 ≤ W)%Z.
  { rewrite Zle_Qle, inject_Z_plus. unfold Py.float in HAB.
    apply Qle_trans with (A + B / 2)%Q; [|done].
    apply Qplus_le_compat; [done | eauto using Qle_trans]. }
  lia.
Qed.

(** A label whose box lies inside the unit square is drawn inside the
    image. *)
Theorem box_inside_image (W H : Z) (line : string) (class_id x y width height : Q) :
  (0 ≤ W)%Z → (0 ≤ H)%Z →
  Py.float_of_string <$> Py.split (Py.strip line)
  = [Some class_id; Some x; Some y; Some width; Some height] →
  (0 <= width)%Q → (width / 2 <= x)%Q → (x + width / 2 <= 1)%Q →
  (0 <= height)%Q → (height / 2 <= y)%Q → (y + height / 2 <= 1)%Q →
  ∃ x1 y1 x2 y2 text,
    draw_line W H line = Some [Rectangle (x1, y1) (x2, y2); text]
    ∧ (0 ≤ x1 ≤ x2 ≤ W)%Z ∧ (0 ≤ y1 ≤ y2 ≤ H)%Z.
Proof.
  intros HW HH Hparse Hw Hxl Hxh Hh Hyl Hyh.
  unfold draw_line. rewrite Hparse.
  do 5 eexists. split; [reflexivity|].
  pose proof (span_inside W x width HW Hw Hxl Hxh).
  pose proof (span_inside H y height HH Hh Hyl Hyh).
  lia.
Qed.

Lemma box_inside_image_witness :
  ∃ x1 y1 x2 y2 text,
    draw_line 640 480 "2 0.1 0.9 0.2 0.2" = Some [Rectangle (x1, y1) (x2, y2); text]
    ∧ (0 ≤ x1 ≤ x2 ≤ 640)%Z ∧ (0 ≤ y1 ≤ y2 ≤ 480)%Z.
Proof.
  apply (box_inside_image 640 480 "2 0.1 0.9 0.2 0.2" 2 (1 # 10) (9 # 10) (1 # 5) (1 # 5)).
  - lia.
  - lia.
  - vm_compute. reflexivity.
  - vm_compute. discriminate.
  - vm_compute. discriminate.
  - vm_compute. discriminate.
  - vm_compute. discriminate.
  - vm_compute. discriminate.
  - vm_compute. discriminate.
Defined.

End DrawBoundingBoxMore.

(** ** Splitting a dataset: any ratios, repeated runs, missing folders *)

Module SplitDataMore.
Import SplitData SplitDataInvariant SplitDataSpec.

(** *** Which label an image needs *)

Lemma replace_absent (old new s : string) :
  Py.contains old s = false → Py.replace s old new = s.
Proof.
  unfold Py.replace. induction s as [|c s IH]; [done|].
  cbn [Py.contains]. intros [Hhere Hrest]%orb_false_iff.
  cbn [Py.replace_go]. rewrite Hhere. by rewrite IH.
Qed.

Lemma label_name_jpg (stem : string) :
  Py.contains "." stem = false → label_name (stem +:+ ".jpg") = stem +:+ ".txt".
Proof.
  unfold label_name, Py.replace. induction stem as [|c stem IH]; [done|].
  cbn [Py.contains]. intros [Hhere Hrest]%orb_false_iff.
  change (String c stem +:+ ".jpg") with (String c (stem +:+ ".jpg")).
  change (String c stem +:+ ".txt") with (String c (stem +:+ ".txt")).
  cbn [Py.replace_go Py.startswith] in *.
  destruct (decide ("."%char = c)) as [-> | Hne]; [done|].
  by rewrite IH.
Qed.

(** An image is kept when the labels folder lists the name obtained by
    replacing [.jpg] by [.txt]: for [stem.jpg] with a dot-free stem this is
    [stem.txt]; a name without [.jpg] (a PNG, an upper-case [.JPG]) is its
    own label name, so such an image is kept only if the labels folder lists
    an entry with the image's own name. *)
Theorem pairing_by_name (image_files label_files : list string) (file stem : string) :
  (file ∈ paired image_files label_files
   ↔ file ∈ image_files ∧ label_name file ∈ label_files)
  ∧ (Py.contains "." stem = false →
     (stem +:+ ".jpg" ∈ paired image_files label_files
      ↔ stem +:+ ".jpg" ∈ image_files ∧ stem +:+ ".txt" ∈ label_files))
  ∧ (Py.contains ".jpg" file = false →
     (file ∈ paired image_files label_files
      ↔ file ∈ image_files ∧ file ∈ label_files)).
Proof.
  assert (Hp : ∀ f, f ∈ paired image_files label_files
                    ↔ f ∈ image_files ∧ label_name f ∈ label_files).
  { intros f. unfold paired. rewrite list_elem_of_filter. tauto. }
  split; [apply Hp|]. split.
  - intros Hstem. rewrite Hp, label_name_jpg by done. tauto.
  - intros Hfile. rewrite Hp. unfold label_name. rewrite replace_absent by done. tauto.
Qed.

(** *** Any ratios *)

(** For the indices of a list of [n] files the tests of the loop are those
    for the two cut points clamped to the list. *)
Lemma destination_clamped (n i : nat) (ts vs : Z) :
  (i < n)%nat →
  let t := Nat.min n (Z.to_nat ts) in
  let u := Nat.min n (Z.to_nat (Z.max ts (ts + vs))) in
  destination (Z.of_nat i) ts vs
  = destination (Z.of_nat i) (Z.of_nat t) (Z.of_nat (u - t)).
Proof.
  intros Hi t u. unfold destination.
  destruct (Z.ltb_spec (Z.of_nat i) ts), (Z.ltb_spec (Z.of_nat i) (ts + vs)),
    (Z.ltb_spec (Z.of_nat i) (Z.of_nat t)),
    (Z.ltb_spec (Z.of_nat i) (Z.of_nat t + Z.of_nat (u - t))); try done; lia.
Qed.

Lemma segment_files (dest : string) (l : list string) :
  ((λ file, (file, dest)) <$> l).*1 = l.
Proof. induction l as [|x l IH]; [done|]. cbn. by rewrite IH. Qed.

Lemma segments_partitions (l1 l2 l3 : list string) :
  let plan := ((λ file, (file, "train")) <$> l1)
              ++ ((λ file, (file, "valid")) <$> l2)
              ++ ((λ file, (file, "test")) <$> l3) in
  partition "train" plan = l1
  ∧ partition "valid" plan = l2
  ∧ partition "test" plan = l3.
Proof.
  cbv zeta. rewrite !partition_app, !partition_segment. cbn.
  by rewrite !app_nil_r.
Qed.

Section any_ratio.
Context {G : Type} `{!Random G}.
Variables (root : path) (tr vr : Q) (g : G).
Variables (fs : filesystem) (images labels : gmap string string).
Hypothesis Himages : fs !! images_folder root = Some images.
Hypothesis Hlabels : fs !! labels_folder root = Some labels.

Let files := paired (map_to_list images).*1 (map_to_list labels).*1.
Let shuffled := random_shuffle g files.
Let ts := Py.int (tr * Py.float (Z.of_nat (length shuffled))).
Let vs := Py.int (vr * Py.float (Z.of_nat (length shuffled))).
Let t := Nat.min (length shuffled) (Z.to_nat ts).
Let u := Nat.min (length shuffled) (Z.to_nat (Z.max ts (ts + vs))).

Lemma plan_clamped :
  assignment root tr vr g fs
  = Some (((λ file, (file, "train")) <$> take t shuffled)
          ++ ((λ file, (file, "valid")) <$> take (u - t) (drop t shuffled))
          ++ ((λ file, (file, "test")) <$> drop (u - t) (drop t shuffled))).
Proof.
  unfold assignment. rewrite Himages, Hlabels. cbn. f_equal.
  fold files. fold shuffled. fold ts. fold vs.
  rewrite <- (plan_segments t (u - t) shuffled) by (subst t u; lia).
  apply imap_ext. intros i file Hi%lookup_lt_Some. f_equal.
  by apply destination_clamped.
Qed.

Lemma shuffled_NoDup : NoDup shuffled ∧ shuffled ≡ₚ files.
Proof.
  assert (Hperm : shuffled ≡ₚ files) by apply random_shuffle_perm.
  split; [|done]. rewrite Hperm. apply paired_NoDup.
Qed.
End any_ratio.

(** Whatever the ratios (negative, above 1, summing to more than 1), a run
    on a dataset with both input folders returns; its plan lists every
    paired file once, each with one of the three partitions, so every paired
    file is in exactly one partition and no other file is in any; and each
    pair is copied to the folders of its partition. *)
Theorem every_pair_in_one_partition {G : Type} `{!Random G} (root : path) (tr vr : Q)
    (g : G) (fs : filesystem) (images labels : gmap string string) :
  fs !! images_folder root = Some images →
  fs !! labels_folder root = Some labels →
  ∃ plan fs',
    assignment root tr vr g fs = Some plan
    ∧ split_data root tr vr g fs = (Py.Ok tt, fs')
    ∧ plan.*1 ≡ₚ paired (map_to_list images).*1 (map_to_list labels).*1
    ∧ NoDup plan.*1
    ∧ Forall (λ entry, entry.2 ∈ partitions) plan
    ∧ Forall (λ file, in_exactly_one file plan)
             (paired (map_to_list images).*1 (map_to_list labels).*1)
    ∧ (∀ dest file, file ∈ partition dest plan →
         file ∈ paired (map_to_list images).*1 (map_to_list labels).*1)
    ∧ ∀ dest file, file ∈ partition dest plan →
        copied root fs fs' dest "images" file
        ∧ copied root fs fs' dest "labels" (label_name file).
Proof.
  intros Himg Hlab.
  pose proof (plan_clamped root tr vr g fs images labels Himg Hlab) as Hplan.
  destruct (shuffled_NoDup g images labels) as [Hnd Hperm].
  destruct (split_data_run root tr vr g fs images labels Himg Hlab)
    as (Hplan2 & fs' & Erun & _ & Hcopied).
  cbv zeta in Hplan, Hnd, Hperm, Hplan2, Hcopied.
  rewrite Hplan in Hplan2. injection Hplan2 as Hsame. rewrite <- Hsame in Hcopied.
  clear Hsame.
  set (files := paired (map_to_list images).*1 (map_to_list labels).*1) in *.
  set (shuffled := random_shuffle g files) in *.
  set (t := Nat.min (length shuffled) _) in Hplan.
  set (u := Nat.min (length shuffled) _) in Hplan.
  set (l1 := take t shuffled) in *.
  set (l2 := take (u - t) (drop t shuffled)) in *.
  set (l3 := drop (u - t) (drop t shuffled)) in *.
  assert (Hsplit : shuffled = l1 ++ l2 ++ l3).
  { subst l1 l2 l3. by rewrite !take_drop. }
  eexists _, fs'. split; [exact Hplan|]. split; [exact Erun|].
  assert (Hfst : (((λ file : string, (file, "train")) <$> l1)
                  ++ ((λ file : string, (file, "valid")) <$> l2)
                  ++ ((λ file : string, (file, "test")) <$> l3)).*1 = shuffled).
  { by rewrite !fmap_app, !segment_files, Hsplit. }
  assert (Hparts : ∀ dest,
            partition dest (((λ file : string, (file, "train")) <$> l1)
                            ++ ((λ file : string, (file, "valid")) <$> l2)
                            ++ ((λ file : string, (file, "test")) <$> l3))
            = (if decide ("train" = dest) then l1 else [])
              ++ (if decide ("valid" = dest) then l2 else [])
              ++ (if decide ("test" = dest) then l3 else [])).
  { intros dest. by rewrite !partition_app, !partition_segment. }
  rewrite Hfst. split; [done|]. split; [done|]. split; [|split; [|split]].
  - rewrite !Forall_app, !Forall_fmap. unfold partitions.
    repeat split; apply Forall_forall; intros; cbn; repeat constructor.
  - apply Forall_forall. intros file Hin. unfold in_exactly_one. clear Hcopied.
    destruct (segments_partitions l1 l2 l3) as (-> & -> & ->).
    rewrite <- Hperm, Hsplit in Hin. rewrite Hsplit in Hnd.
    apply NoDup_app in Hnd as (_ & Hd1 & Hnd).
    apply NoDup_app in Hnd as (_ & Hd2 & _).
    rewrite !elem_of_app in Hin. setoid_rewrite elem_of_app in Hd1.
    destruct Hin as [Hin | [Hin | Hin]].
    + left. naive_solver.
    + right; left. naive_solver.
    + right; right. naive_solver.
  - intros dest file Hin. rewrite Hparts in Hin. rewrite <- Hperm, Hsplit.
    rewrite !elem_of_app in Hin. rewrite !elem_of_app.
    destruct Hin as [Hin | [Hin | Hin]]; case_decide; try (by apply elem_of_nil in Hin);
      auto.
  - intros dest file Hin. apply Hcopied. by apply elem_of_partition.
Qed.

Lemma every_pair_in_one_partition_witness :
  ∃ plan fs',
    assignment ["data"] (-1 # 2) (7 # 4) 3%N example_fs = Some plan
    ∧ split_data ["data"] (-1 # 2) (7 # 4) 3%N example_fs = (Py.Ok tt, fs')
    ∧ plan.*1 ≡ₚ paired (map_to_list example_images).*1 (map_to_list example_labels).*1
    ∧ NoDup plan.*1
    ∧ Forall (λ entry, entry.2 ∈ partitions) plan
    ∧ Forall (λ file, in_exactly_one file plan)
             (paired (map_to_list example_images).*1 (map_to_list example_labels).*1)
    ∧ (∀ dest file, file ∈ partition dest plan →
         file ∈ paired (map_to_list example_images).*1 (map_to_list example_labels).*1)
    ∧ ∀ dest file, file ∈ partition dest plan →
        copied ["data"] example_fs fs' dest "images" file
        ∧ copied ["data"] example_fs fs' dest "labels" (label_name file).
Proof.
  apply (every_pair_in_one_partition ["data"] (-1 # 2) (7 # 4) 3%N example_fs
           example_images example_labels).
  - vm_compute. reflexivity.
  - vm_compute. reflexivity.
Defined.



(** *** What a run writes *)

Section extended.
Context {G : Type} `{!Random G}.
Variable root : path.
Variable fs0 : filesystem.

Lemma input_not_partition_folder kind :
  ¬ is_partition_folder root (os_path_join root kind).
Proof.
  intros (dest & k & _ & _ & H). symmetry in H.
  by apply destination_not_source in H.
Qed.

Lemma extended_refl : extended_by_copies root fs0 fs0.
Proof.
  split; [done|]. split; [|by left].
  intros d e He. by exists e.
Qed.

Lemma os_makedirs_extended d fs :
  is_partition_folder root d →
  extended_by_copies root fs0 fs →
  extended_by_copies root fs0 (os_makedirs d fs).2.
Proof.
  intros Hd (Ha & Hb & Hc). unfold os_makedirs. cbn.
  destruct (fs !! d) as [e|] eqn:Hfd; [done|].
  split; [|split].
  - intros q Hq. rewrite lookup_insert_ne; [by apply Ha|]. by intros ->.
  - intros q e He. destruct (Hb q e He) as (e' & He' & Hdom).
    exists e'. split; [|done]. rewrite lookup_insert_ne; [done|].
    intros ->. congruence.
  - intros dest kind name data. unfold partition_entry.
    destruct (decide (d = os_path_join (os_path_join root dest) kind)) as [-> | Hne].
    + rewrite lookup_insert_eq. cbn. by rewrite lookup_empty.
    + rewrite lookup_insert_ne by done. apply Hc.
Qed.

Lemma shutil_copyfile_extended dest kind name fs :
  dest ∈ partitions → kind ∈ kinds →
  extended_by_copies root fs0 fs →
  extended_by_copies root fs0
    (shutil_copyfile (os_path_join (os_path_join root kind) name)
       (os_path_join (os_path_join (os_path_join root dest) kind) name) fs).2.
Proof.
  intros Hdest Hkind (Ha & Hb & Hc). unfold shutil_copyfile.
  rewrite read_file_join, path_split_join.
  destruct (fs !! os_path_join root kind ≫= (.!! name)) as [data|] eqn:Hsrc; [|done].
  destruct (fs !! os_path_join (os_path_join root dest) kind) as [entries|] eqn:Hdir;
    [|done].
  cbn. split; [|split].
  - intros q Hq. rewrite lookup_insert_ne; [by apply Ha|].
    intros <-. apply Hq. by exists dest, kind.
  - intros q e He. destruct (Hb q e He) as (e' & He' & Hdom).
    destruct (decide (os_path_join (os_path_join root dest) kind = q)) as [<- | Hne].
    + rewrite lookup_insert_eq. eexists. split; [done|].
      intros n Hn. assert (e' = entries) as -> by congruence.
      destruct (decide (name = n)) as [<- | Hn'].
      * by rewrite lookup_insert_eq.
      * rewrite lookup_insert_ne by done. by apply Hdom.
    + rewrite lookup_insert_ne by done. by exists e'.
  - intros d k n data'. unfold partition_entry.
    destruct (decide (os_path_join (os_path_join root dest) kind
                      = os_path_join (os_path_join root d) k)) as [Heq | Hne].
    + apply partition_folder_inj in Heq as [<- <-].
      rewrite lookup_insert_eq. cbn.
      destruct (decide (name = n)) as [<- | Hn].
      * rewrite lookup_insert_eq. intros [= <-]. right.
        unfold source_entry. rewrite <- Ha; [done|].
        apply input_not_partition_folder.
      * rewrite lookup_insert_ne by done. intros Hn'. apply Hc.
        unfold partition_entry. by rewrite Hdir.
    + rewrite lookup_insert_ne by done. apply Hc.
Qed.

Lemma bind_extended {A B : Type} (m : IO A) (k : A → IO B) fs :
  (∀ fs', extended_by_copies root fs0 fs' → extended_by_copies root fs0 (m fs').2) →
  (∀ a fs', extended_by_copies root fs0 fs' → extended_by_copies root fs0 (k a fs').2) →
  extended_by_copies root fs0 fs →
  extended_by_copies root fs0 ((m ≫= k) fs).2.
Proof.
  intros Hm Hk Hfs. unfold mbind, Py.M_bind. specialize (Hm fs Hfs).
  destruct (m fs) as [[a|e] fs']; cbn in *; [|done]. by apply Hk.
Qed.

Lemma make_folders_extended folders fs :
  (∀ folder, folder ∈ folders →
     ∃ dest, dest ∈ partitions ∧ folder = os_path_join root dest) →
  extended_by_copies root fs0 fs →
  extended_by_copies root fs0 (make_folders folders fs).2.
Proof.
  revert fs. induction folders as [|folder rest IH]; intros fs Hall Hfs; [done|].
  destruct (Hall folder) as (dest & Hdest & ->); [left|].
  cbn [make_folders]. apply bind_extended; [| |done].
  - intros fs'. apply os_makedirs_extended. exists dest, "images".
    split; [done|]. split; [unfold kinds; left | done].
  - intros _ fs' Hfs'. apply bind_extended; [| |done].
    + intros fs''. apply os_makedirs_extended. exists dest, "labels".
      split; [done|]. split; [unfold kinds; right; left | done].
    + intros _ fs''. apply IH. intros f Hf. apply Hall. by right.
Qed.

Lemma copy_pair_extended ts vs i file fs :
  extended_by_copies root fs0 fs →
  extended_by_copies root fs0 (copy_pair root ts vs i file fs).2.
Proof.
  unfold copy_pair, images_folder, labels_folder. apply bind_extended.
  - intros fs'. apply shutil_copyfile_extended;
      [apply destination_partition | unfold kinds; left].
  - intros _ fs'. apply shutil_copyfile_extended;
      [apply destination_partition | unfold kinds; right; left].
Qed.

Lemma distribute_extended ts vs i files fs :
  extended_by_copies root fs0 fs →
  extended_by_copies root fs0 (distribute root ts vs i files fs).2.
Proof.
  revert i fs. induction files as [|file rest IH]; intros i fs; [done|].
  cbn [distribute]. apply bind_extended.
  - intros fs'. apply copy_pair_extended.
  - intros _ fs'. apply IH.
Qed.

Lemma split_data_extended tr vr (g : G) fs :
  extended_by_copies root fs0 fs →
  extended_by_copies root fs0 (split_data root tr vr g fs).2.
Proof.
  unfold split_data. apply bind_extended.
  - intros fs'. apply make_folders_extended. intros folder Hin.
    unfold train_folder, val_folder, test_folder, partitions in *.
    repeat (apply elem_of_cons in Hin as [-> | Hin];
            [eexists; split; [|done]; repeat constructor|]).
    by apply elem_of_nil in Hin.
  - intros _ fs'. apply bind_extended.
    { intros fs''. by rewrite os_listdir_state. }
    intros image_files fs''. apply bind_extended.
    { intros fs3. by rewrite os_listdir_state. }
    intros label_files fs3. apply distribute_extended.
Qed.
End extended.

(** Whatever the ratios and however the run ends, it only adds copies:
    files outside the six partition folders read as before (none is
    created, changed or removed there), no file that could be read before
    is missing afterwards, and every entry of a partition folder is either
    the one that was there or holds the contents of the entry of the same
    name in the input folder of the same kind. *)
Theorem only_copies_are_written {G : Type} `{!Random G} (root : path) (tr vr : Q)
    (g : G) (fs : filesystem) :
  let fs' := (split_data root tr vr g fs).2 in
  (∀ d name,
     (∀ dest kind, dest ∈ partitions → kind ∈ kinds →
                   d ≠ os_path_join (os_path_join root dest) kind) →
     read_file fs' (os_path_join d name) = read_file fs (os_path_join d name))
  ∧ (∀ p, is_Some (read_file fs p) → is_Some (read_file fs' p))
  ∧ (∀ dest kind name data,
       partition_entry root fs' dest kind name = Some data →
       partition_entry root fs dest kind name = Some data
       ∨ source_entry root fs kind name = Some data).
Proof.
  intros fs'. subst fs'.
  destruct (split_data_extended root fs tr vr g fs (extended_refl root fs))
    as (Ha & Hb & Hc).
  split; [|split; [|exact Hc]].
  - intros d name Hd. rewrite !read_file_join, Ha; [done|].
    intros (dest & kind & Hdest & Hkind & ->). by eapply Hd.
  - intros p [data Hp]. unfold read_file in *.
    destruct (path_split p) as [[d name]|]; [|done]. cbn in *.
    destruct (fs !! d) as [e|] eqn:He; [|done]. cbn in Hp.
    destruct (Hb d e He) as (e' & -> & Hdom). cbn. apply Hdom. by exists data.
Qed.

(** *** A missing input folder *)

Lemma os_makedirs_read d fs p : read_file (os_makedirs d fs).2 p = read_file fs p.
Proof.
  unfold os_makedirs, read_file. cbn.
  destruct (path_split p) as [[q name]|]; [|done]. cbn.
  destruct (fs !! d) as [e|] eqn:Hd; [done|].
  destruct (decide (d = q)) as [<- | Hne].
  - rewrite lookup_insert_eq, Hd. cbn. by rewrite lookup_empty.
  - by rewrite lookup_insert_ne.
Qed.

Lemma make_folders_read folders fs p :
  read_file (make_folders folders fs).2 p = read_file fs p.
Proof.
  revert fs. induction folders as [|folder rest IH]; intros fs; [done|].
  cbn [make_folders]. unfold mbind, Py.M_bind.
  change (os_makedirs (os_path_join folder "images") fs)
    with (Py.Ok tt, (os_makedirs (os_path_join folder "images") fs).2).
  cbn iota.
  change (os_makedirs (os_path_join folder "labels")
            (os_makedirs (os_path_join folder "images") fs).2)
    with (Py.Ok tt, (os_makedirs (os_path_join folder "labels")
                       (os_makedirs (os_path_join folder "images") fs).2).2).
  cbn iota. by rewrite IH, !os_makedirs_read.
Qed.

(** When one of the two input folders does not exist, the run creates the
    six partition folders and then stops with [FileNotFoundError] for the
    first missing folder, [images] before [labels]; no file has been
    written. *)
Theorem missing_input_folder {G : Type} `{!Random G} (root : path) (tr vr : Q)
    (g : G) (fs : filesystem) :
  fs !! images_folder root = None ∨ fs !! labels_folder root = None →
  ∃ fs',
    split_data root tr vr g fs
    = (Py.Raise (Py.FileNotFoundError
                   (if fs !! images_folder root is None
                    then images_folder root else labels_folder root)), fs')
    ∧ partition_folders_exist root fs'
    ∧ ∀ p, read_file fs' p = read_file fs p.
Proof.
  intros Hmissing.
  destruct (make_folders_running root fs) as (fsA & EA & [HsrcA HexA]).
  exists fsA. split; [|split; [done|]].
  - unfold split_data, mbind, Py.M_bind. rewrite EA.
    destruct (fs !! images_folder root) as [images|] eqn:Himg.
    + destruct Hmissing as [? | Hlab]; [done|].
      rewrite (os_listdir_ok (images_folder root) fsA images)
        by (rewrite HsrcA; [done | by left]).
      by rewrite os_listdir_missing by (rewrite HsrcA; [done | by right]).
    + by rewrite os_listdir_missing by (rewrite HsrcA; [done | by left]).
  - intros p.
    pose proof (make_folders_read [train_folder root; val_folder root; test_folder root]
                  fs p) as Hread.
    by rewrite EA in Hread.
Qed.

Lemma missing_input_folder_witness :
  ∃ fs',
    split_data ["data"] (7 # 10) (2 # 10) 7%N images_only_fs
    = (Py.Raise (Py.FileNotFoundError ["data"; "labels"]), fs')
    ∧ partition_folders_exist ["data"] fs'
    ∧ ∀ p, read_file fs' p = read_file images_only_fs p.
Proof.
  apply (missing_input_folder ["data"] (7 # 10) (2 # 10) 7%N images_only_fs).
  right. vm_compute. reflexivity.
Defined.

(** *** Running again with other parameters *)

Section rerun.
Context {G : Type} `{!Random G}.
Variable root : path.

Lemma os_makedirs_keeps d q e fs :
  fs !! q = Some e → (os_makedirs d fs).2 !! q = Some e.
Proof.
  intros Hq. unfold os_makedirs. cbn.
  destruct (fs !! d) as [e'|] eqn:Hd; [done|].
  rewrite lookup_insert_ne; [done|]. intros ->. congruence.
Qed.

Lemma make_folders_keeps folders q e fs :
  fs !! q = Some e → (make_folders folders fs).2 !! q = Some e.
Proof.
  revert fs. induction folders as [|folder rest IH]; intros fs Hq; [done|].
  cbn [make_folders]. unfold mbind, Py.M_bind.
  change (os_makedirs (os_path_join folder "images") fs)
    with (Py.Ok tt, (os_makedirs (os_path_join folder "images") fs).2).
  cbn iota.
  change (os_makedirs (os_path_join folder "labels")
            (os_makedirs (os_path_join folder "images") fs).2)
    with (Py.Ok tt, (os_makedirs (os_path_join folder "labels")
                       (os_makedirs (os_path_join folder "images") fs).2).2).
  cbn iota. by apply IH, os_makedirs_keeps, os_makedirs_keeps.
Qed.

(** A run started in a state [fs] that has the input folders of [fs0]:
    the copies [fs] holds are kept and those of the plan are added. *)
Lemma split_data_from (tr vr : Q) (g : G) fs0 fs images labels :
  fs0 !! images_folder root = Some images →
  fs0 !! labels_folder root = Some labels →
  (∀ q, is_source root q → fs !! q = fs0 !! q) →
  ∃ plan fs',
    assignment root tr vr g fs = Some plan
    ∧ split_data root tr vr g fs = (Py.Ok tt, fs')
    ∧ running root fs0 fs'
    ∧ (∀ d k n, copied root fs0 fs d k n → copied root fs0 fs' d k n)
    ∧ ∀ file dest, (file, dest) ∈ plan →
        copied root fs0 fs' dest "images" file
        ∧ copied root fs0 fs' dest "labels" (label_name file).
Proof.
  intros Himg Hlab Hsrc.
  set (shuffled :=
         random_shuffle g (paired (map_to_list images).*1 (map_to_list labels).*1)).
  set (ts := Py.int (tr * Py.float (Z.of_nat (length shuffled)))).
  set (vs := Py.int (vr * Py.float (Z.of_nat (length shuffled)))).
  destruct (make_folders_running root fs) as (fsA & EA & [HsrcA HexA]).
  assert (HrunA : running root fs0 fsA).
  { split; [|done]. intros q Hq. rewrite HsrcA by done. by apply Hsrc. }
  destruct (distribute_ok root fs0 ts vs shuffled) with (i := 0%nat) (fs := fsA)
    as (fs' & Ed & Hrun' & Hkeep & Hall); [|done|].
  { intros file Hin. subst shuffled. rewrite random_shuffle_perm in Hin.
    apply paired_sources in Hin as [Hi Hl].
    unfold source_entry. fold (images_folder root) (labels_folder root).
    by rewrite Himg, Hlab. }
  exists (imap (λ i file, (file, destination (Z.of_nat i) ts vs)) shuffled), fs'.
  split; [|split; [|split; [done|split]]].
  - unfold assignment. rewrite (Hsrc (images_folder root)) by (by left).
    rewrite (Hsrc (labels_folder root)) by (by right).
    by rewrite Himg, Hlab.
  - unfold split_data, mbind, Py.M_bind. rewrite EA.
    destruct HrunA as [HsrcA0 _].
    rewrite (os_listdir_ok (images_folder root) fsA images)
      by (rewrite HsrcA0; [done | by left]).
    rewrite (os_listdir_ok (labels_folder root) fsA labels)
      by (rewrite HsrcA0; [done | by right]).
    exact Ed.
  - intros d k n (data & Hd0 & Hd). apply Hkeep. exists data. split; [done|].
    unfold partition_entry in *.
    destruct (fs !! os_path_join (os_path_join root d) k) as [e|] eqn:He; [|done].
    pose proof (make_folders_keeps
                  [train_folder root; val_folder root; test_folder root] _ e fs He)
      as Hk.
    rewrite EA in Hk. cbn in Hk. by rewrite Hk.
  - intros file dest Hin.
    apply elem_of_lookup_imap in Hin as (j & f & [= -> ->] & Hj).
    by apply Hall.
Qed.
End rerun.

(** The partitions are never cleared: after a second run with other ratios
    or another shuffle, every pair is copied in the partition the second
    run chose and is still copied in the partition the first run chose.  A
    pair the two runs assign differently ends up in two partitions. *)
Theorem rerun_keeps_earlier_copies {G : Type} `{!Random G} (root : path)
    (tr vr tr' vr' : Q) (g g' : G) (fs : filesystem)
    (images labels : gmap string string) :
  fs !! images_folder root = Some images →
  fs !! labels_folder root = Some labels →
  ∃ plan plan' fs1 fs2,
    assignment root tr vr g fs = Some plan
    ∧ assignment root tr' vr' g' fs1 = Some plan'
    ∧ split_data root tr vr g fs = (Py.Ok tt, fs1)
    ∧ split_data root tr' vr' g' fs1 = (Py.Ok tt, fs2)
    ∧ ∀ file dest, (file, dest) ∈ plan ++ plan' →
        copied root fs fs2 dest "images" file
        ∧ copied root fs fs2 dest "labels" (label_name file).
Proof.
  intros Himg Hlab.
  destruct (split_data_from root tr vr g fs fs images labels Himg Hlab)
    as (plan & fs1 & Hplan & E1 & [Hsrc1 _] & _ & Hcopied1); [done|].
  destruct (split_data_from root tr' vr' g' fs fs1 images labels Himg Hlab Hsrc1)
    as (plan' & fs2 & Hplan' & E2 & _ & Hkeep & Hcopied2).
  exists plan, plan', fs1, fs2. do 4 (split; [done|]).
  intros file dest [Hin | Hin]%elem_of_app.
  - destruct (Hcopied1 file dest Hin). split; by apply Hkeep.
  - by apply Hcopied2.
Qed.

Lemma rerun_keeps_earlier_copies_witness :
  ∃ plan plan' fs1 fs2,
    assignment ["data"] (1 # 2) (1 # 4) 7%N example_fs = Some plan
    ∧ assignment ["data"] (1 # 4) (1 # 4) 3%N fs1 = Some plan'
    ∧ split_data ["data"] (1 # 2) (1 # 4) 7%N example_fs = (Py.Ok tt, fs1)
    ∧ split_data ["data"] (1 # 4) (1 # 4) 3%N fs1 = (Py.Ok tt, fs2)
    ∧ ∀ file dest, (file, dest) ∈ plan ++ plan' →
        copied ["data"] example_fs fs2 dest "images" file
        ∧ copied ["data"] example_fs fs2 dest "labels" (label_name file).
Proof.
  apply (rerun_keeps_earlier_copies ["data"] (1 # 2) (1 # 4) (1 # 4) (1 # 4) 7%N 3%N
           example_fs example_images example_labels).
  - vm_compute. reflexivity.
  - vm_compute. reflexivity.
Defined.

End SplitDataMore.

(** ** The rotation sampler: no translation, bounded tilt *)

Module RotationMore.
Import SyntheticData RotationSpec.
Local Open Scope R_scope.

Section entries.
Variables ax ay az : R.




End entries.



Section tilt.
Context {G : Type} `{!NumpyRandom G}.

End tilt.

End RotationMore.

(** ** The render loop and the footprint *)

Module RenderMore.
Import SyntheticData SyntheticDataObservations GridSpec RenderSpec NameSpec.

Lemma string_length_append (s t : string) :
  String.length (s +:+ t) = (String.length s + String.length t)%nat.
Proof. induction s as [|c s IH]; [done|]. rewrite append_cons. cbn. by rewrite IH. Qed.

Lemma append_inv_tail (s1 s2 t : string) : s1 +:+ t = s2 +:+ t → s1 = s2.
Proof.
  revert s2. induction s1 as [|c s1 IH]; intros [|c' s2] H.
  - done.
  - apply (f_equal String.length) in H. rewrite append_cons in H.
    cbn in H. rewrite !string_length_append in H. cbn in H. lia.
  - apply (f_equal String.length) in H. rewrite append_cons in H.
    cbn in H. rewrite !string_length_append in H. cbn in H. lia.
  - rewrite !append_cons in H. injection H as -> H. f_equal. by apply IH.
Qed.

Lemma raster_of_inj (j j' : nat) : raster_of j = raster_of j' → j = j'.
Proof.
  unfold raster_of, Py.str. intros H%append_inv_tail.
  apply (inj pretty) in H. lia.
Qed.

Lemma scaling_in_range (file : string) (u : Q) :
  (0 <= u)%Q → (u < 1)%Q →
  ((scaling_range file).1
   <= (scaling_range file).1 + ((scaling_range file).2 - (scaling_range file).1) * u)%Q
  ∧ ((scaling_range file).1 + ((scaling_range file).2 - (scaling_range file).1) * u
     < (scaling_range file).2)%Q.
Proof.
  unfold scaling_range. destruct (Py.contains "lid" file); cbn [fst snd]; intros; split;
    Lqa.lra.
Qed.

Section render.
Context {G : Type} `{!NumpyRandom G}.
Variable window_size : Z * Z.

Lemma render_mesh_step fault j file (st : state G) :
  ∃ st' s,
    render_mesh window_size fault j file st = (Py.Ok tt, st')
    ∧ ((scaling_range file).1 <= s)%Q ∧ (s < (scaling_range file).2)%Q
    ∧ placed st' = placed st ∧ label_file st' = label_file st
    ∧ matrix st' = matrix st ∧ background st' = background st
    ∧ temp st'
      = (if decide (fault = RenderOk)
         then <[raster_of j := raster_size window_size s]> (temp st) else temp st)
    ∧ stdout st'
      = (if decide (fault = RenderOk) then stdout st
         else stdout st ++ [stl_message file])
    ∧ avg_width st'
      = (if decide (fault = FailRead ∨ fault = FailPlot) then avg_width st
         else avg_width st + (raster_size window_size s).1)%Z
    ∧ avg_height st'
      = (if decide (fault = FailRead ∨ fault = FailPlot) then avg_height st
         else avg_height st + (raster_size window_size s).2)%Z.
Proof.
  assert (Hdefault : ((scaling_range file).1 <= (scaling_range file).1)%Q
                     ∧ ((scaling_range file).1 < (scaling_range file).2)%Q).
  { unfold scaling_range. destruct (Py.contains "lid" file); cbn; split; Lqa.lra. }
  unfold render_mesh, rotation_samples, np_random_uniform, np_random_sample.
  destruct fault; run.
  2:{ eexists _, _. split; [reflexivity|]. split; [apply Hdefault|].
      split; [apply Hdefault|]. cbn.
      repeat case_decide; try done; try tauto; try (by intuition discriminate). }
  all: destruct (random_sample (rng st)) as [u1 g1]; run;
    destruct (random_sample g1) as [u2 g2]; run;
    destruct (random_sample g2) as [u3 g3] eqn:E3; run.
  2:{ eexists _, _. split; [reflexivity|]. split; [apply Hdefault|].
      split; [apply Hdefault|]. cbn.
      repeat case_decide; try done; try tauto; try (by intuition discriminate). }
  all: pose proof (random_sample_range g3) as [Hu0 Hu1];
    pose proof (scaling_in_range file) as Hrange; unfold scaling_range in *;
    destruct (Py.contains "lid" file); run;
    destruct (random_sample g3) as [u g4]; run; cbn [fst snd] in *;
    destruct (Hrange u Hu0 Hu1) as [Hlo Hhi];
    (eexists _, _; split; [reflexivity|]);
    (split; [exact Hlo|]); (split; [exact Hhi|]); cbn;
    repeat case_decide; try done; try tauto; try (by intuition discriminate).
Qed.

Lemma failed_meshes_cons faults j0 file rest :
  failed_meshes faults j0 (file :: rest)
  = (if decide (faults j0 = RenderOk) then [] else [file])
    ++ failed_meshes faults (S j0) rest.
Proof.
  unfold failed_meshes. cbn [length seq zip zip_with]. rewrite filter_cons. cbn [fst].
  repeat case_decide; try done.
Qed.

Lemma rendered_count_S faults j0 n :
  rendered_count faults j0 (S n)
  = ((if decide (faults j0 = RenderOk) then 1 else 0) + rendered_count faults (S j0) n)%nat.
Proof.
  unfold rendered_count. cbn [seq]. rewrite filter_cons. by case_decide.
Qed.

Lemma render_all_steps faults stl_files :
  ∀ j0 (st : state G),
    ∃ st', render_all window_size faults j0 stl_files st = (Py.Ok tt, st')
           ∧ placed st' = placed st ∧ label_file st' = label_file st
           ∧ matrix st' = matrix st ∧ background st' = background st
           ∧ (∀ j file, stl_files !! j = Some file → faults (j0 + j)%nat = RenderOk →
                ∃ s, ((scaling_range file).1 <= s)%Q ∧ (s < (scaling_range file).2)%Q
                     ∧ temp st' !! raster_of (j0 + j) = Some (raster_size window_size s))
           ∧ (∀ name,
                (∀ j, (j < length stl_files)%nat → faults (j0 + j)%nat = RenderOk →
                      name ≠ raster_of (j0 + j)) →
                temp st' !! name = temp st !! name)
           ∧ stdout st' = stdout st ++ (stl_message <$> failed_meshes faults j0 stl_files).
Proof.
  induction stl_files as [|file rest IH]; intros j0 st.
  - exists st. do 5 (split; [done|]). split; [|split; [done|]].
    + intros j f Hj. by rewrite lookup_nil in Hj.
    + cbn. by rewrite app_nil_r.
  - destruct (render_mesh_step (faults j0) j0 file st)
      as (st1 & s & E1 & Hlo & Hhi & Hp1 & Hl1 & Hm1 & Hb1 & Ht1 & Ho1 & _).
    destruct (IH (S j0) st1) as (st2 & E2 & Hp2 & Hl2 & Hm2 & Hb2 & Hin2 & Hout2 & Ho2).
    exists st2. split.
    { cbn [render_all]. unfold mbind, Py.M_bind. by rewrite E1. }
    split; [congruence|]. split; [congruence|]. split; [congruence|].
    split; [congruence|]. split; [|split].
    + intros [|j] f Hj Hok; cbn in Hj.
      * injection Hj as <-. rewrite Nat.add_0_r in *. exists s.
        split; [done|]. split; [done|].
        rewrite Hout2.
        { rewrite Ht1, decide_True by done. by rewrite lookup_insert_eq. }
        intros j' _ _ Heq%raster_of_inj. lia.
      * replace (j0 + S j)%nat with (S j0 + j)%nat in * by lia. by apply Hin2.
    + intros name Hname. rewrite Hout2.
      * rewrite Ht1. case_decide as Hok; [|done].
        rewrite lookup_insert_ne; [done|]. intros Heq.
        apply (Hname 0%nat); [cbn; lia | by rewrite Nat.add_0_r | by rewrite Nat.add_0_r].
      * intros j Hj Hok. replace (S j0 + j)%nat with (j0 + S j)%nat in * by lia.
        apply Hname; [cbn; lia | done].
    + rewrite Ho2, Ho1, failed_meshes_cons, fmap_app.
      case_decide; cbn; [done|]. by rewrite <- (assoc_L (++)).
Qed.

Lemma total_width_insert name size (t : gmap string (Z * Z)) :
  t !! name = None → total_width (<[name := size]> t) = (size.1 + total_width t)%Z.
Proof.
  intros Hnone. unfold total_width.
  rewrite map_fold_insert_L; [done| |done]. intros. lia.
Qed.

Lemma total_height_insert name size (t : gmap string (Z * Z)) :
  t !! name = None → total_height (<[name := size]> t) = (size.2 + total_height t)%Z.
Proof.
  intros Hnone. unfold total_height.
  rewrite map_fold_insert_L; [done| |done]. intros. lia.
Qed.

Lemma render_all_totals faults stl_files :
  ∀ j0 (st : state G),
    (∀ j, (j < length stl_files)%nat → faults (j0 + j)%nat ≠ FailScreenshot) →
    (∀ j, (j < length stl_files)%nat → temp st !! raster_of (j0 + j) = None) →
    let st' := (render_all window_size faults j0 stl_files st).2 in
    (avg_width st' - avg_width st = total_width (temp st') - total_width (temp st))%Z
    ∧ (avg_height st' - avg_height st
       = total_height (temp st') - total_height (temp st))%Z
    ∧ size (temp st')
      = (size (temp st) + rendered_count faults j0 (length stl_files))%nat.
Proof.
  induction stl_files as [|file rest IH]; intros j0 st Hshot Hfresh.
  - cbn. unfold rendered_count. cbn. repeat split; lia.
  - destruct (render_mesh_step (faults j0) j0 file st)
      as (st1 & s & E1 & _ & _ & _ & _ & _ & _ & Ht1 & _ & Hw1 & Hh1).
    cbn [render_all length]. unfold mbind, Py.M_bind. rewrite E1.
    specialize (IH (S j0) st1).
    destruct IH as (Hw & Hh & Hsize).
    { intros j Hj. replace (S j0 + j)%nat with (j0 + S j)%nat by lia.
      apply Hshot. cbn. lia. }
    { intros j Hj. rewrite Ht1.
      replace (S j0 + j)%nat with (j0 + S j)%nat by lia.
      destruct (decide (faults j0 = RenderOk)); [|apply Hfresh; cbn; lia].
      rewrite lookup_insert_ne; [apply Hfresh; cbn; lia|].
      intros Heq%raster_of_inj. lia. }
    cbv zeta. rewrite rendered_count_S.
    pose proof (Hshot 0%nat ltac:(cbn; lia)) as Hs0.
    pose proof (Hfresh 0%nat ltac:(cbn; lia)) as Hf0.
    rewrite Nat.add_0_r in Hs0, Hf0.
    destruct (faults j0) eqn:Hfault; try done.
    + rewrite decide_True in Ht1 by done.
      rewrite decide_False in Hw1, Hh1 by (intros [?|?]; discriminate).
      rewrite decide_True by done.
      rewrite Ht1 in Hw, Hh, Hsize.
      rewrite total_width_insert in Hw by done.
      rewrite total_height_insert in Hh by done.
      rewrite map_size_insert_None in Hsize by done.
      repeat split; lia.
    + rewrite decide_False in Ht1 by done.
      rewrite decide_True in Hw1, Hh1 by (by left).
      rewrite decide_False by done.
      rewrite Ht1 in Hw, Hh, Hsize. repeat split; lia.
    + rewrite decide_False in Ht1 by done.
      rewrite decide_True in Hw1, Hh1 by (by right).
      rewrite decide_False by done.
      rewrite Ht1 in Hw, Hh, Hsize. repeat split; lia.
Qed.

(** Meshes that fail before the scaling leave the accumulators alone. *)
Lemma render_all_none faults stl_files :
  ∀ j0 (st : state G),
    (∀ j, (j < length stl_files)%nat →
          faults (j0 + j)%nat = FailRead ∨ faults (j0 + j)%nat = FailPlot) →
    let st' := (render_all window_size faults j0 stl_files st).2 in
    avg_width st' = avg_width st ∧ avg_height st' = avg_height st
    ∧ temp st' = temp st.
Proof.
  induction stl_files as [|file rest IH]; intros j0 st Hfail; [done|].
  destruct (render_mesh_step (faults j0) j0 file st)
    as (st1 & s & E1 & _ & _ & _ & _ & _ & _ & Ht1 & _ & Hw1 & Hh1).
  cbn [render_all length]. unfold mbind, Py.M_bind. rewrite E1.
  specialize (IH (S j0) st1).
  destruct IH as (Hw & Hh & Ht).
  { intros j Hj. replace (S j0 + j)%nat with (j0 + S j)%nat by lia.
    apply Hfail. cbn. lia. }
  pose proof (Hfail 0%nat ltac:(cbn; lia)) as H0. rewrite Nat.add_0_r in H0.
  rewrite decide_True in Hw1, Hh1 by done.
  rewrite decide_False in Ht1 by (destruct H0 as [-> | ->]; discriminate).
  cbv zeta. rewrite Hw, Hh, Ht. done.
Qed.

Lemma failed_meshes_all faults stl_files :
  ∀ j0,
    (∀ j, (j < length stl_files)%nat → faults (j0 + j)%nat ≠ RenderOk) →
    failed_meshes faults j0 stl_files = stl_files.
Proof.
  induction stl_files as [|file rest IH]; intros j0 Hfail; [done|].
  rewrite failed_meshes_cons, IH.
  - pose proof (Hfail 0%nat ltac:(cbn; lia)) as H0. rewrite Nat.add_0_r in H0.
    by rewrite decide_False by done.
  - intros j Hj. replace (S j0 + j)%nat with (j0 + S j)%nat by lia.
    apply Hfail. cbn. lia.
Qed.

(** The render loop never raises.  It leaves in [temp] one raster for every
    mesh that rendered, named by the mesh's position in the list, both of
    its sizes being the window's scaled by one factor from the range of the
    mesh's kind; it prints one message for every other mesh, in order; and
    it changes nothing else in [temp], nor the placements, labels, cells or
    background. *)
Theorem render_loop_summary (faults : nat → render_fault) (stl_files : list string)
    (st : state G) :
  ∃ st',
    render_all window_size faults 0 stl_files st = (Py.Ok tt, st')
    ∧ (∀ j file, stl_files !! j = Some file → faults j = RenderOk →
         ∃ s, ((scaling_range file).1 <= s)%Q ∧ (s < (scaling_range file).2)%Q
              ∧ temp st' !! raster_of j = Some (raster_size window_size s))
    ∧ (∀ name,
         (∀ j, (j < length stl_files)%nat → faults j = RenderOk → name ≠ raster_of j) →
         temp st' !! name = temp st !! name)
    ∧ stdout st' = stdout st ++ (stl_message <$> failed_meshes faults 0 stl_files)
    ∧ placed st' = placed st ∧ label_file st' = label_file st
    ∧ matrix st' = matrix st ∧ background st' = background st.
Proof.
  destruct (render_all_steps faults stl_files 0 st)
    as (st' & E & Hp & Hl & Hm & Hb & Hin & Hout & Ho).
  exists st'. by repeat split.
Qed.

Lemma Py_int_mono (q r : Q) : (0 <= q)%Q → (q <= r)%Q → (Py.int q ≤ Py.int r)%Z.
Proof.
  intros Hq Hqr. rewrite !SplitDataSpec.Py_int_floor by Lqa.lra.
  by apply Qfloor_resp_le.
Qed.

Lemma scaled_mono (w : Z) (s s' : Q) :
  (0 ≤ w)%Z → (0 <= s)%Q → (s <= s')%Q →
  (Py.int (Py.float w * s) ≤ Py.int (Py.float w * s'))%Z.
Proof.
  intros Hw Hs Hss.
  assert (0 <= Py.float w)%Q by (unfold Py.float; by rewrite <- (Zle_Qle 0)).
  apply Py_int_mono.
  - by apply Qmult_le_0_compat.
  - rewrite !(Qmult_comm (Py.float w)). by apply Qmult_le_compat_r.
Qed.

Lemma scaling_range_pos (file : string) : (0 <= (scaling_range file).1)%Q.
Proof. unfold scaling_range. by destruct (Py.contains "lid" file). Qed.

(** For a window of non-negative size, the raster of a mesh that rendered
    is at least as large as the window scaled by the lower end of the range
    of its kind and at most as large as the window scaled by the upper end:
    between 22% and 30% of the window for a mesh with [lid] in its path,
    between 5% and 22% for any other, so that no other mesh is rendered
    larger than a lid. *)
Theorem raster_sizes_by_kind (faults : nat → render_fault) (stl_files : list string)
    (st : state G) (j : nat) (file : string) :
  (0 ≤ window_size.1)%Z → (0 ≤ window_size.2)%Z →
  stl_files !! j = Some file → faults j = RenderOk →
  let st' := (render_all window_size faults 0 stl_files st).2 in
  let lowest := raster_size window_size (scaling_range file).1 in
  let highest := raster_size window_size (scaling_range file).2 in
  ∃ size,
    temp st' !! raster_of j = Some size
    ∧ (lowest.1 ≤ size.1 ≤ highest.1)%Z ∧ (lowest.2 ≤ size.2 ≤ highest.2)%Z
    ∧ ((raster_size window_size (5 # 100)).1 ≤ size.1
       ≤ (raster_size window_size (3 # 10)).1)%Z
    ∧ (if Py.contains "lid" file
       then ((raster_size window_size (22 # 100)).1 ≤ size.1)%Z
       else (size.1 ≤ (raster_size window_size (22 # 100)).1)%Z).
Proof.
  intros Hw Hh Hj Hok st' lowest highest.
  destruct (render_all_steps faults stl_files 0 st)
    as (st1 & E & _ & _ & _ & _ & Hin & _).
  subst st'. rewrite E. cbn [snd].
  destruct (Hin j file Hj Hok) as (s & Hlo & Hhi & Hsize).
  exists (raster_size window_size s). split; [done|].
  pose proof (scaling_range_pos file) as Hpos.
  assert (Hb : ∀ w, (0 ≤ w)%Z →
            (Py.int (Py.float w * (scaling_range file).1) ≤ Py.int (Py.float w * s)
             ≤ Py.int (Py.float w * (scaling_range file).2))%Z).
  { intros w Hw0. split; apply scaled_mono; try done; Lqa.lra. }
  subst lowest highest. unfold raster_size in *. cbn [fst snd].
  split; [by apply Hb|]. split; [by apply Hb|].
  specialize (Hb _ Hw). revert Hb Hlo Hhi. unfold scaling_range.
  destruct (Py.contains "lid" file); cbn [fst snd]; intros Hb Hlo Hhi.
  - split; [|lia]. split; [|lia].
    etrans; [|apply Hb]. apply scaled_mono; [done| |]; Lqa.lra.
  - split; [|lia]. split; [lia|].
    etrans; [apply Hb|]. apply scaled_mono; [done| |]; Lqa.lra.
Qed.
End render.

Lemma raster_sizes_by_kind_witness :
  let st' := (render_all default_window (λ _, RenderOk) 0 ["stl/sun_c.stl"; "stl/lid.stl"]
                (initial_state 0%nat)).2 in
  let lowest := raster_size default_window (scaling_range "stl/lid.stl").1 in
  let highest := raster_size default_window (scaling_range "stl/lid.stl").2 in
  ∃ size,
    temp st' !! raster_of 1 = Some size
    ∧ (lowest.1 ≤ size.1 ≤ highest.1)%Z ∧ (lowest.2 ≤ size.2 ≤ highest.2)%Z
    ∧ ((raster_size default_window (5 # 100)).1 ≤ size.1
       ≤ (raster_size default_window (3 # 10)).1)%Z
    ∧ (if Py.contains "lid" "stl/lid.stl"
       then ((raster_size default_window (22 # 100)).1 ≤ size.1)%Z
       else (size.1 ≤ (raster_size default_window (22 # 100)).1)%Z).
Proof.
  apply (raster_sizes_by_kind default_window (λ _, RenderOk)
           ["stl/sun_c.stl"; "stl/lid.stl"] (initial_state 0%nat) 1 "stl/lid.stl").
  - cbn. lia.
  - cbn. lia.
  - reflexivity.
  - reflexivity.
Defined.


Lemma footprint_zero (j : nat) : footprint 0 j = 0%Z.
Proof. unfold footprint, Py.int, Py.float. cbn. apply Z.quot_0_l. lia. Qed.

Section prepare.
Context {G : Type} `{!NumpyRandom G}.
Variable window_size : Z * Z.
Variables (bg_width bg_height : Z).

Lemma build_matrix_avg (j : nat) (st : state G) :
  let st' := (build_matrix bg_width bg_height (S j) st).2 in
  avg_width st' = footprint (avg_width st) j
  ∧ avg_height st' = footprint (avg_height st) j
  ∧ temp st' = temp st.
Proof.
  unfold build_matrix. run.
  destruct (decide (footprint (avg_width st) j = 0%Z)) as [Hw | Hw]; run; [done|].
  destruct (decide (footprint (avg_height st) j = 0%Z)) as [Hh | Hh]; run; done.
Qed.

(** The footprint is the sum of the sizes of the rasters in [temp] divided
    by the number of all meshes of the list, rendered or not, and halved;
    [temp] holds one raster for each mesh that rendered.  (From an empty
    [temp], when no screenshot fails after the sizes were added.) *)
Theorem footprint_over_all_meshes (stl_files : list string)
    (faults : nat → render_fault) (st0 : state G) :
  stl_files ≠ [] → (∀ j, faults j ≠ FailScreenshot) → temp st0 = ∅ →
  let st1 := (prepare_image window_size bg_width bg_height stl_files faults st0).2 in
  let n := Z.of_nat (length stl_files) in
  avg_width st1 = Py.int (Py.float (total_width (temp st1)) / Py.float n / 2)
  ∧ avg_height st1 = Py.int (Py.float (total_height (temp st1)) / Py.float n / 2)
  ∧ size (temp st1) = rendered_count faults 0 (length stl_files).
Proof.
  intros Hne Hshot Hempty st1 n. subst st1 n.
  destruct stl_files as [|file rest]; [done|].
  pose proof (render_all_totals window_size faults (file :: rest) 0 (set_avg 0 0 st0))
    as Htotals.
  destruct (render_all_steps window_size faults (file :: rest) 0 (set_avg 0 0 st0))
    as (stR & ER & _).
  rewrite ER in Htotals. cbn [snd] in Htotals.
  destruct Htotals as (Hw & Hh & Hsize).
  { intros j _. apply Hshot. }
  { intros j _. cbn. by rewrite Hempty, lookup_empty. }
  cbn [temp avg_width avg_height set_avg] in Hw, Hh, Hsize.
  rewrite Hempty in Hw, Hh, Hsize.
  unfold total_width in Hw at 2. unfold total_height in Hh at 2.
  rewrite map_fold_empty in Hw, Hh. rewrite map_size_empty in Hsize.
  unfold prepare_image, mbind, Py.M_bind, Py.modify. rewrite ER.
  cbn [length].
  destruct (build_matrix_avg (length rest) stR) as (Hw' & Hh' & Ht').
  rewrite Hw', Hh', Ht'. unfold footprint.
  replace (Z.of_nat (S (length rest))) with (Z.of_nat (length rest) + 1)%Z by lia.
  replace (avg_width stR) with (total_width (temp stR)) by lia.
  replace (avg_height stR) with (total_height (temp stR)) by lia.
  done.
Qed.

(** When no mesh gets as far as the scaling (an empty list of STL files,
    or every mesh failing to load or to plot), the image is abandoned
    before the grid is built: with [NameError] for the unbound loop index
    when the list is empty, with [ZeroDivisionError] otherwise.  Nothing is
    pasted, placed or labelled, [temp] is as before, and one message per
    mesh has been printed. *)
Theorem no_rendered_mesh_no_image (image_file : string) (stl_files : list string)
    (render_faults : nat → render_fault) (place_faults : nat → place_fault)
    (st0 : state G) :
  (∀ j, (j < length stl_files)%nat →
        render_faults j = FailRead ∨ render_faults j = FailPlot) →
  ∃ st1,
    process_image window_size bg_width bg_height image_file stl_files
                  render_faults place_faults st0
    = (Py.Raise (if decide (stl_files = []) then Py.NameError
                 else Py.ZeroDivisionError), st1)
    ∧ placed st1 = placed st0 ∧ label_file st1 = label_file st0
    ∧ background st1 = background st0 ∧ matrix st1 = matrix st0
    ∧ temp st1 = temp st0
    ∧ stdout st1 = stdout st0 ++ (stl_message <$> stl_files).
Proof.
  intros Hfail.
  pose proof (render_all_none window_size render_faults stl_files 0 (set_avg 0 0 st0))
    as Hnone.
  destruct (render_all_steps window_size render_faults stl_files 0 (set_avg 0 0 st0))
    as (stR & ER & Hp & Hl & Hm & Hb & _ & _ & Ho).
  rewrite ER in Hnone. cbn [snd] in Hnone.
  destruct Hnone as (Hw & Hh & Ht); [done|].
  rewrite failed_meshes_all in Ho
    by (intros j Hj; destruct (Hfail j Hj) as [E | E]; cbn; rewrite E; discriminate).
  cbn [temp avg_width avg_height placed label_file matrix background stdout set_avg]
    in Hw, Hh, Ht, Hp, Hl, Hm, Hb, Ho.
  unfold process_image, prepare_image, mbind, Py.M_bind, Py.modify. rewrite ER.
  destruct stl_files as [|file rest].
  - rewrite decide_True by done. cbn. eexists. split; [reflexivity|]. done.
  - rewrite decide_False by done. cbn [length]. unfold build_matrix. run.
    rewrite Hw, footprint_zero. rewrite decide_True by done. run.
    eexists. split; [reflexivity|]. done.
Qed.
End prepare.

Lemma footprint_over_all_meshes_witness :
  let st1 := (prepare_image default_window 1920 1080 ["stl/sun_c.stl"; "stl/lid.stl"]
                (λ j, if decide (j = 0%nat) then FailRead else RenderOk)
                (initial_state 0%nat)).2 in
  let n := Z.of_nat (length ["stl/sun_c.stl"; "stl/lid.stl"]) in
  avg_width st1 = Py.int (Py.float (total_width (temp st1)) / Py.float n / 2)
  ∧ avg_height st1 = Py.int (Py.float (total_height (temp st1)) / Py.float n / 2)
  ∧ size (temp st1)
    = rendered_count (λ j, if decide (j = 0%nat) then FailRead else RenderOk) 0
        (length ["stl/sun_c.stl"; "stl/lid.stl"]).
Proof.
  apply (footprint_over_all_meshes default_window 1920 1080
           ["stl/sun_c.stl"; "stl/lid.stl"]
           (λ j, if decide (j = 0%nat) then FailRead else RenderOk)
           (initial_state 0%nat)).
  - discriminate.
  - intros j. by case_decide.
  - reflexivity.
Defined.

Lemma no_rendered_mesh_no_image_witness :
  ∃ st1,
    process_image default_window 1920 1080 "bg.jpg" ["stl/sun_c.stl"; "stl/lid.stl"]
                  (λ j, if decide (j = 0%nat) then FailRead else FailPlot)
                  (λ _, PlaceOk) (initial_state 0%nat)
    = (Py.Raise (if decide (["stl/sun_c.stl"; "stl/lid.stl"] = [])
                 then Py.NameError else Py.ZeroDivisionError), st1)
    ∧ placed st1 = placed (initial_state 0%nat)
    ∧ label_file st1 = label_file (initial_state 0%nat)
    ∧ background st1 = background (initial_state 0%nat)
    ∧ matrix st1 = matrix (initial_state 0%nat)
    ∧ temp st1 = temp (initial_state 0%nat)
    ∧ stdout st1
      = stdout (initial_state 0%nat)
        ++ (stl_message <$> ["stl/sun_c.stl"; "stl/lid.stl"]).
Proof.
  apply (no_rendered_mesh_no_image default_window 1920 1080 "bg.jpg"
           ["stl/sun_c.stl"; "stl/lid.stl"]
           (λ j, if decide (j = 0%nat) then FailRead else FailPlot)
           (λ _, PlaceOk) (initial_state 0%nat)).
  intros j _. case_decide; [by left | by right].
Defined.

End RenderMore.

(** ** The placement loop: counts, geometry, pastes *)

Module PlacementMore.
Import SyntheticData SyntheticDataObservations GridSpec RenderSpec PlacementSpec NameSpec.
Import GeneratorSpec.

Section counts.
Context {G : Type} `{!NumpyRandom G}.
Variables (bg_width bg_height : Z) (image_file : string).
Hypothesis Hbw : bg_width ≠ 0%Z.
Hypothesis Hbh : bg_height ≠ 0%Z.

Lemma place_raster_free_cell name size (st : state G) :
  temp st !! name = Some size → matrix st ≠ [] →
  ∃ st' i pos,
    place_raster bg_width bg_height image_file PlaceOk name st = (Py.Ok tt, st')
    ∧ matrix st !! i = Some pos
    ∧ matrix st' = delete i (matrix st)
    ∧ placed st' = placed st ++ [placement_for bg_width bg_height name pos size]
    ∧ temp st' = delete name (temp st)
    ∧ stdout st' = stdout st.
Proof.
  intros Hsize Hcells. unfold place_raster. run. rewrite ?Hsize. run.
  unfold np_random_randint0.
  destruct (length (matrix st)) as [|n] eqn:Hlen.
  { by apply nil_length_inv in Hlen. }
  pose proof (randint_below_lt (rng st) (S n) ltac:(lia)) as Hlt.
  destruct (randint_below (rng st) (S n)) as [random_index g]. cbn [fst] in Hlt.
  run.
  destruct (lookup_lt_is_Some_2 (matrix st) random_index) as [[x y] Hpos]; [lia|].
  rewrite Hpos. run. rewrite ?Hsize. run.
  unfold create_label_file.
  rewrite decide_False by tauto. run. rewrite ?Hsize. run.
  eexists _, random_index, (x, y). split; [reflexivity|]. cbn. done.
Qed.

Lemma place_raster_no_cell name size (st : state G) :
  temp st !! name = Some size → matrix st = [] →
  ∃ st',
    place_raster bg_width bg_height image_file PlaceOk name st = (Py.Ok tt, st')
    ∧ matrix st' = []
    ∧ placed st' = placed st
    ∧ temp st' = delete name (temp st)
    ∧ stdout st' = stdout st ++ [error_message image_file].
Proof.
  intros Hsize Hcells. unfold place_raster. run. rewrite ?Hsize. run.
  unfold np_random_randint0. rewrite Hcells. run. rewrite ?Hsize. run.
  eexists. split; [reflexivity|]. cbn. done.
Qed.

Lemma place_all_counts listing :
  NoDup listing →
  ∀ x (st : state G),
    (∀ name, name ∈ listing → is_Some (temp st !! name)) →
    ∃ st',
      place_all bg_width bg_height image_file (λ _, PlaceOk) x listing st
      = (Py.Ok tt, st')
      ∧ length (placed st')
        = (length (placed st) + length listing `min` length (matrix st))%nat
      ∧ length (matrix st') = (length (matrix st) - length listing)%nat
      ∧ stdout st'
        = stdout st ++ replicate (length listing - length (matrix st))
                                 (error_message image_file).
Proof.
  induction 1 as [|name rest Hnotin Hnd IH]; intros x st Hall.
  - exists st. cbn. rewrite app_nil_r. repeat split; try done; lia.
  - destruct (Hall name) as [size Hsize]; [left|].
    assert (Hrest : ∀ st1 : state G, temp st1 = delete name (temp st) →
              ∀ n, n ∈ rest → is_Some (temp st1 !! n)).
    { intros st1 Ht n Hn. rewrite Ht, lookup_delete_ne; [apply Hall; by right|].
      by intros ->. }
    destruct (matrix st) as [|c cells] eqn:Hcells.
    + destruct (place_raster_no_cell name size st Hsize Hcells)
        as (st1 & E1 & Hm1 & Hp1 & Ht1 & Ho1).
      destruct (IH (S x) st1 (Hrest st1 Ht1)) as (st2 & E2 & Hp2 & Hm2 & Ho2).
      exists st2. split.
      { cbn [place_all]. unfold mbind, Py.M_bind. by rewrite E1. }
      rewrite Hp2, Hm2, Ho2, Hm1, Hp1, Ho1. cbn [length].
      split; [lia|]. split; [lia|].
      rewrite <- (assoc_L (++)). f_equal.
      rewrite !Nat.sub_0_r. done.
    + destruct (place_raster_free_cell name size st Hsize)
        as (st1 & i & pos & E1 & Hi & Hm1 & Hp1 & Ht1 & Ho1).
      { by rewrite Hcells. }
      destruct (IH (S x) st1 (Hrest st1 Ht1)) as (st2 & E2 & Hp2 & Hm2 & Ho2).
      exists st2. split.
      { cbn [place_all]. unfold mbind, Py.M_bind. by rewrite E1. }
      assert (Hlen : length (matrix st1) = length cells).
      { rewrite Hm1, Hcells. apply lookup_lt_Some in Hi. rewrite Hcells in Hi.
        rewrite length_delete by (rewrite Hcells in *; by eapply lookup_lt_is_Some_2).
        cbn. lia. }
      rewrite Hp2, Hm2, Ho2, Hlen, Hp1, Ho1, length_app. cbn [length].
      split; [lia|]. split; [lia|]. done.
Qed.
End counts.

Section geometry.
Context {G : Type} `{!NumpyRandom G}.

(** Without library failures, on a background of non-zero size, the
    placement loop places and labels as many rasters as there are free
    cells, or all of them if there are fewer rasters than cells; a raster
    for which no cell is left (the draw of an index raises) is removed
    without being placed, never pasted over another one, and [temp] is empty
    at the end. *)
Theorem fault_free_placements (bg_width bg_height : Z) (image_file : string)
    (st : state G) :
  bg_width ≠ 0%Z → bg_height ≠ 0%Z →
  let rasters := size (temp st) in
  let cells := length (matrix st) in
  ∃ st',
    place_rasters bg_width bg_height image_file (λ _, PlaceOk) st = (Py.Ok tt, st')
    ∧ length (placed st') = (length (placed st) + rasters `min` cells)%nat
    ∧ length (label_file st') = (length (label_file st) + rasters `min` cells)%nat
    ∧ length (matrix st') = (cells - rasters)%nat
    ∧ temp st' = ∅.
Proof.
  intros Hbw Hbh rasters cells.
  destruct (place_all_counts bg_width bg_height image_file Hbw Hbh
              (os_listdir_temp st) (listing_NoDup st) 0 st)
    as (st' & E & Hp & Hm & Ho).
  { intros name. apply listing_present. }
  destruct (place_all_run bg_width bg_height image_file (λ _, PlaceOk) 0
              (os_listdir_temp st) st (listing_NoDup st))
    as (st'' & new & k & E' & Hp' & Hl' & _ & _ & Ht' & _).
  { intros name. apply listing_present. }
  assert (st'' = st') as -> by congruence.
  assert (Hlen : length (os_listdir_temp st) = rasters).
  { unfold os_listdir_temp. by rewrite length_fmap, length_map_to_list. }
  rewrite Hlen in Hp, Hm.
  assert (Hnew : length new = (rasters `min` cells)%nat).
  { rewrite Hp' in Hp. rewrite length_app in Hp. lia. }
  exists st'. split; [|split; [done|split; [|split; [done|]]]].
  2:{ by rewrite Hl', length_app, length_fmap, Hnew. }
  2:{ apply map_eq. intros n. rewrite Ht', lookup_empty.
      case_decide as Hin; [done|].
      destruct (temp st !! n) eqn:Hn; [|done].
      exfalso. apply Hin. apply listing_present. by eexists. }
  unfold place_rasters, mbind, Py.M_bind, Py.get. exact E.
Qed.

Lemma quot2_near (a : Z) : (Z.abs (2 * (a ÷ 2) - a) ≤ 1)%Z.
Proof.
  pose proof (Z.quot_rem' a 2) as Hqr.
  pose proof (Z.rem_bound_abs a 2 ltac:(lia)) as Hrem.
  lia.
Qed.

Lemma paste_coordinate (c w : Z) :
  (Z.abs (2 * Py.int (Py.float c - Py.float w / 2) - (2 * c - w)) ≤ 1)%Z.
Proof.
  unfold Py.int, Py.float. cbn. change (1 * 2)%positive with 2%positive.
  replace (c * 2 + - (w * 1) * 1)%Z with (2 * c - w)%Z by lia.
  apply quot2_near.
Qed.

Lemma float_nonzero (b : Z) : b ≠ 0%Z → ¬ (Py.float b == 0)%Q.
Proof. unfold Py.float, Qeq. cbn. lia. Qed.

(** Every placed object is pasted so that its cell is the centre of the
    raster (to within half a pixel on each axis), and its label describes,
    in pixels of the background, a square centred on that cell whose side is
    half the raster's width: the raster's height does not enter the label. *)
Theorem placed_object_geometry (window_size : Z * Z) (bg_width bg_height : Z)
    (image_file : string) (stl_files : list string)
    (render_faults : nat → render_fault) (place_faults : nat → place_fault) (g : G) :
  let prepared :=
    (prepare_image window_size bg_width bg_height stl_files render_faults
                   (initial_state g)).2 in
  let final :=
    (process_image window_size bg_width bg_height image_file stl_files
                   render_faults place_faults (initial_state g)).2 in
  Forall (λ p, ∃ size,
            temp prepared !! raster_name p = Some size
            ∧ (Z.abs (2 * (paste_position p).1 - (2 * (cell p).1 - size.1)) ≤ 1)%Z
            ∧ (Z.abs (2 * (paste_position p).2 - (2 * (cell p).2 - size.2)) ≤ 1)%Z
            ∧ (x_center (label p) * Py.float bg_width == Py.float (cell p).1)%Q
            ∧ (y_center (label p) * Py.float bg_height == Py.float (cell p).2)%Q
            ∧ (width (label p) * Py.float bg_width == Py.float size.1 / 2)%Q
            ∧ (height (label p) * Py.float bg_height == Py.float size.1 / 2)%Q)
         (placed final).
Proof.
  intros prepared final.
  destruct (process_image_summary window_size bg_width bg_height image_file stl_files
              render_faults place_faults (initial_state g) eq_refl eq_refl)
    as (_ & Hplaced & _).
  fold final in Hplaced. fold prepared in Hplaced.
  eapply Forall_impl; [exact Hplaced|].
  intros p (pos & size & Ep & _ & Hsize & _ & Hbw & Hbh).
  exists size. split; [done|].
  rewrite Ep.
  cbn [label placement_for label_for x_center y_center width height cell
       paste_position fst snd].
  pose proof (float_nonzero _ Hbw). pose proof (float_nonzero _ Hbh).
  split; [apply paste_coordinate|]. split; [apply paste_coordinate|].
  repeat split; by field.
Qed.
End geometry.

Lemma fault_free_placements_witness :
  let st := (prepare_image default_window 640 480 ["stl/sun_c.stl"; "stl/lid.stl"]
               (λ _, RenderOk) (initial_state 0%nat)).2 in
  let rasters := size (temp st) in
  let cells := length (matrix st) in
  ∃ st',
    place_rasters 640 480 "bg.jpg" (λ _, PlaceOk) st = (Py.Ok tt, st')
    ∧ length (placed st') = (length (placed st) + rasters `min` cells)%nat
    ∧ length (label_file st') = (length (label_file st) + rasters `min` cells)%nat
    ∧ length (matrix st') = (cells - rasters)%nat
    ∧ temp st' = ∅.
Proof.
  apply (fault_free_placements 640 480 "bg.jpg"
           (prepare_image default_window 640 480 ["stl/sun_c.stl"; "stl/lid.stl"]
              (λ _, RenderOk) (initial_state 0%nat)).2).
  - lia.
  - lia.
Defined.

Section pastes.
Context {G : Type} `{!NumpyRandom G}.
Variables (bg_width bg_height : Z) (image_file : string).

Lemma place_raster_pastes fault name (st : state G) :
  is_Some (temp st !! name) →
  ∃ st',
    place_raster bg_width bg_height image_file fault name st = (Py.Ok tt, st')
    ∧ temp st' = delete name (temp st)
    ∧ ((placed st' = placed st ∧ background st' = background st)
       ∨ (placed st' = placed st ∧ late_failure bg_width bg_height fault
          ∧ ∃ pos, background st' = background st ++ [(name, pos)])
       ∨ (∃ p, placed st' = placed st ++ [p]
               ∧ background st' = background st ++ [paste_of p])).
Proof.
  intros [size Hsize]. unfold place_raster, late_failure.
  destruct fault; run; rewrite ?Hsize; run.
  all: try (eexists; split; [reflexivity|]; cbn; split; [done|]; by left).
  all: unfold np_random_randint0;
    destruct (length (matrix st)) as [|n] eqn:Hlen; run; rewrite ?Hsize; run;
    try (eexists; split; [reflexivity|]; cbn; split; [done|]; by left).
  all: destruct (randint_below (rng st) (S n)) as [random_index g]; run;
    destruct (matrix st !! random_index) as [[x y]|] eqn:Hpos; run;
    rewrite ?Hsize; run;
    try (eexists; split; [reflexivity|]; cbn; split; [done|]; by left).
  all: try (eexists; split; [reflexivity|]; cbn; split; [done|];
            right; left; split; [done|]; split; [tauto|]; by eexists).
  unfold create_label_file.
  destruct (decide (bg_width = 0%Z ∨ bg_height = 0%Z)) as [Hz | Hnz];
    run; rewrite ?Hsize; run.
  - eexists; split; [reflexivity|]; cbn; split; [done|].
    right; left; split; [done|]; split; [tauto|]; by eexists.
  - eexists; split; [reflexivity|]; cbn; split; [done|].
    right; right. eexists. split; [reflexivity|]. done.
Qed.

Lemma place_all_pastes faults listing :
  NoDup listing →
  ∀ x (st : state G),
    (∀ name, name ∈ listing → is_Some (temp st !! name)) →
    ∃ st' new pastes,
      place_all bg_width bg_height image_file faults x listing st = (Py.Ok tt, st')
      ∧ placed st' = placed st ++ new
      ∧ background st' = background st ++ pastes
      ∧ paste_of <$> new `sublist_of` pastes
      ∧ ((∀ j, (x ≤ j < x + length listing)%nat →
               ¬ late_failure bg_width bg_height (faults j)) →
         pastes = paste_of <$> new).
Proof.
  induction 1 as [|name rest Hnotin Hnd IH]; intros x st Hall.
  - exists st, [], []. cbn. rewrite !app_nil_r. by repeat split.
  - destruct (place_raster_pastes (faults x) name st) as (st1 & E1 & Ht1 & Hstep).
    { apply Hall. left. }
    destruct (IH (S x) st1) as (st2 & new & pastes & E2 & Hp2 & Hb2 & Hsub & Heq).
    { intros n Hn. rewrite Ht1, lookup_delete_ne; [apply Hall; by right|].
      by intros ->. }
    assert (Hrun : place_all bg_width bg_height image_file faults x (name :: rest) st
                   = (Py.Ok tt, st2)).
    { cbn [place_all]. unfold mbind, Py.M_bind. by rewrite E1. }
    assert (Heq' : (∀ j, (x ≤ j < x + length (name :: rest))%nat →
                         ¬ late_failure bg_width bg_height (faults j)) →
                   pastes = paste_of <$> new).
    { intros Hno. apply Heq. intros j Hj. apply Hno. cbn. lia. }
    destruct Hstep as [[Hp1 Hb1] | [(Hp1 & Hlate & pos & Hb1) | (p & Hp1 & Hb1)]].
    + exists st2, new, pastes. split; [done|].
      rewrite Hp2, Hb2, Hp1, Hb1. by repeat split.
    + exists st2, new, ((name, pos) :: pastes). split; [done|].
      rewrite Hp2, Hb2, Hp1, Hb1, <- (assoc_L (++)).
      split; [done|]. split; [done|]. split; [by apply sublist_cons|].
      intros Hno. exfalso. apply (Hno x); [cbn; lia | done].
    + exists st2, (p :: new), (paste_of p :: pastes). split; [done|].
      rewrite Hp2, Hb2, Hp1, Hb1, <- !(assoc_L (++)).
      split; [done|]. split; [done|]. split; [by apply sublist_skip|].
      intros Hno. cbn. f_equal. by apply Heq'.
Qed.

(** Every object that is placed (and labelled) has been pasted on the
    background, the pastes being in the order of the placements; and when
    neither saving the image nor writing the label fails, the pastes are
    exactly those of the placed objects, so that nothing is visible on the
    background without a label. *)
Theorem every_label_has_its_paste (faults : nat → place_fault) (st : state G) :
  ∃ st' new pastes,
    place_rasters bg_width bg_height image_file faults st = (Py.Ok tt, st')
    ∧ placed st' = placed st ++ new
    ∧ background st' = background st ++ pastes
    ∧ paste_of <$> new `sublist_of` pastes
    ∧ ((∀ j, ¬ late_failure bg_width bg_height (faults j)) → pastes = paste_of <$> new).
Proof.
  destruct (place_all_pastes faults (os_listdir_temp st) (listing_NoDup st) 0 st)
    as (st' & new & pastes & E & Hp & Hb & Hsub & Heq).
  { intros name. apply listing_present. }
  exists st', new, pastes. split.
  { unfold place_rasters, mbind, Py.M_bind, Py.get. exact E. }
  repeat split; try done. intros Hno. apply Heq. intros j _. apply Hno.
Qed.
End pastes.

End PlacementMore.

(** ** Splitting a dataset: what the partition folders hold *)

Module SplitDataExact.
Import SplitData SplitDataInvariant SplitDataSpec SplitDataMore.

Section exact.
Context {G : Type} `{!Random G}.
Variable root : path.

Lemma partition_entry_read (fs : filesystem) (dest kind name : string) :
  partition_entry root fs dest kind name
  = read_file fs (os_path_join (os_path_join (os_path_join root dest) kind) name).
Proof. by rewrite read_file_join. Qed.

Lemma shutil_copyfile_only (src : path) (dest kind name : string) (fs : filesystem)
    (d k n : string) :
  is_Some (partition_entry root
             (shutil_copyfile src
                (os_path_join (os_path_join (os_path_join root dest) kind) name) fs).2
             d k n) →
  is_Some (partition_entry root fs d k n) ∨ (d = dest ∧ k = kind ∧ n = name).
Proof.
  unfold shutil_copyfile. rewrite path_split_join.
  destruct (read_file fs src) as [data|]; [|by left].
  destruct (fs !! os_path_join (os_path_join root dest) kind) as [entries|] eqn:Hdir;
    [|by left].
  cbn. unfold partition_entry.
  destruct (decide (os_path_join (os_path_join root dest) kind
                    = os_path_join (os_path_join root d) k)) as [Heq | Hne].
  - apply partition_folder_inj in Heq as [<- <-].
    rewrite lookup_insert_eq, Hdir. cbn.
    destruct (decide (name = n)) as [<- | Hn]; [by right|].
    rewrite lookup_insert_ne by done. by left.
  - rewrite lookup_insert_ne by done. by left.
Qed.

Lemma copy_pair_only (ts vs : Z) (i : nat) (file : string) (fs : filesystem)
    (d k n : string) :
  is_Some (partition_entry root (copy_pair root ts vs i file fs).2 d k n) →
  is_Some (partition_entry root fs d k n)
  ∨ (d = destination (Z.of_nat i) ts vs
     ∧ (k = "images" ∧ n = file ∨ k = "labels" ∧ n = label_name file)).
Proof.
  unfold copy_pair, images_folder, labels_folder, mbind, Py.M_bind.
  set (dest := destination (Z.of_nat i) ts vs).
  set (first :=
         shutil_copyfile (os_path_join (os_path_join root "images") file)
           (os_path_join (os_path_join (os_path_join root dest) "images") file) fs).
  assert (Hfirst : ∀ d k n, is_Some (partition_entry root first.2 d k n) →
            is_Some (partition_entry root fs d k n)
            ∨ (d = dest ∧ k = "images" ∧ n = file)).
  { intros ???. apply shutil_copyfile_only. }
  destruct first as [[[]|e] fs1]; cbn [snd] in *.
  - intros [H | (-> & -> & ->)]%shutil_copyfile_only; [|by auto].
    destruct (Hfirst _ _ _ H) as [? | (-> & -> & ->)]; by auto.
  - intros H. destruct (Hfirst _ _ _ H) as [? | (-> & -> & ->)]; by auto.
Qed.

Lemma distribute_only (ts vs : Z) (files : list string) :
  ∀ (i : nat) (fs : filesystem) (d k n : string),
    is_Some (partition_entry root (distribute root ts vs i files fs).2 d k n) →
    is_Some (partition_entry root fs d k n)
    ∨ ∃ j file, files !! j = Some file
                ∧ d = destination (Z.of_nat (i + j)) ts vs
                ∧ (k = "images" ∧ n = file ∨ k = "labels" ∧ n = label_name file).
Proof.
  induction files as [|file rest IH]; intros i fs d k n; [by left|].
  cbn [distribute]. unfold mbind, Py.M_bind.
  pose proof (copy_pair_only ts vs i file fs d k n) as Hstep.
  destruct (copy_pair root ts vs i file fs) as [[[]|e] fs1]; cbn [snd] in *.
  - intros [H | (j & f & Hj & -> & Hkind)]%IH.
    + destruct (Hstep H) as [? | [-> Hkind]]; [by left|].
      right. exists 0%nat, file. by rewrite Nat.add_0_r.
    + right. exists (S j), f. split; [done|].
      by replace (i + S j)%nat with (S i + j)%nat by lia.
  - intros H. destruct (Hstep H) as [? | [-> Hkind]]; [by left|].
    right. exists 0%nat, file. by rewrite Nat.add_0_r.
Qed.
End exact.

(** A run on a dataset whose partition folders hold nothing yet leaves in
    them the copies of its plan and no other file: an image is in the
    [images] folder of a partition exactly when the plan assigns it to that
    partition, a label is in the [labels] folder exactly when it is the
    label of such an image, and no image is assigned to two partitions. *)
Theorem fresh_run_partitions_exact {G : Type} `{!Random G} (root : path) (tr vr : Q)
    (g : G) (fs : filesystem) (images labels : gmap string string) :
  fs !! images_folder root = Some images →
  fs !! labels_folder root = Some labels →
  (∀ dest kind name, partition_entry root fs dest kind name = None) →
  ∃ plan fs',
    assignment root tr vr g fs = Some plan
    ∧ split_data root tr vr g fs = (Py.Ok tt, fs')
    ∧ (∀ dest file,
         is_Some (partition_entry root fs' dest "images" file) ↔ (file, dest) ∈ plan)
    ∧ (∀ dest name,
         is_Some (partition_entry root fs' dest "labels" name)
         ↔ ∃ file, (file, dest) ∈ plan ∧ name = label_name file)
    ∧ (∀ file dest dest', (file, dest) ∈ plan → (file, dest') ∈ plan → dest = dest').
Proof.
  intros Himg Hlab Hfresh.
  set (shuffled :=
         random_shuffle g (paired (map_to_list images).*1 (map_to_list labels).*1)).
  set (ts := Py.int (tr * Py.float (Z.of_nat (length shuffled)))).
  set (vs := Py.int (vr * Py.float (Z.of_nat (length shuffled)))).
  set (plan := imap (λ i file, (file, destination (Z.of_nat i) ts vs)) shuffled).
  assert (Hnd : NoDup shuffled).
  { subst shuffled. rewrite random_shuffle_perm. apply paired_NoDup. }
  destruct (make_folders_running root fs) as (fsA & EA & HrunA).
  pose proof HrunA as [HsrcA _].
  destruct (distribute_ok root fs ts vs shuffled) with (i := 0%nat) (fs := fsA)
    as (fs' & Ed & _ & _ & Hall); [|done|].
  { intros file Hin. subst shuffled. rewrite random_shuffle_perm in Hin.
    apply paired_sources in Hin as [Hi Hl].
    unfold source_entry. fold (images_folder root) (labels_folder root).
    by rewrite Himg, Hlab. }
  assert (HfreshA : ∀ dest kind name, partition_entry root fsA dest kind name = None).
  { intros dest kind name. rewrite partition_entry_read.
    pose proof (make_folders_read [train_folder root; val_folder root; test_folder root]
                  fs (os_path_join (os_path_join (os_path_join root dest) kind) name))
      as Hread.
    rewrite EA in Hread. cbn [snd] in Hread.
    by rewrite Hread, <- partition_entry_read. }
  assert (Honly : ∀ d k n, is_Some (partition_entry root fs' d k n) →
            ∃ j file, shuffled !! j = Some file
                      ∧ d = destination (Z.of_nat j) ts vs
                      ∧ (k = "images" ∧ n = file ∨ k = "labels" ∧ n = label_name file)).
  { intros d k n H.
    pose proof (distribute_only root ts vs shuffled 0 fsA d k n) as Hd.
    rewrite Ed in Hd. destruct (Hd H) as [Habs | Hplanned]; [|done].
    rewrite HfreshA in Habs. by destruct Habs. }
  assert (Hplan : ∀ file dest, (file, dest) ∈ plan
                               ↔ ∃ j, shuffled !! j = Some file
                                      ∧ dest = destination (Z.of_nat j) ts vs).
  { intros file dest. subst plan. rewrite elem_of_lookup_imap. split.
    - intros (j & f & [= -> ->] & Hj). by exists j.
    - intros (j & Hj & ->). by exists j, file. }
  exists plan, fs'. split; [|split; [|split; [|split]]].
  - unfold assignment. by rewrite Himg, Hlab.
  - unfold split_data, mbind, Py.M_bind. rewrite EA.
    rewrite (os_listdir_ok (images_folder root) fsA images)
      by (rewrite HsrcA; [done | by left]).
    rewrite (os_listdir_ok (labels_folder root) fsA labels)
      by (rewrite HsrcA; [done | by right]).
    exact Ed.
  - intros dest file. rewrite Hplan. split.
    + intros (j & f & Hj & -> & [[_ ->] | [? _]])%Honly; [by exists j | done].
    + intros (j & Hj & ->). destruct (Hall j file Hj) as [(data & _ & Hc) _].
      rewrite Nat.add_0_l in Hc. by exists data.
  - intros dest name. split.
    + intros (j & f & Hj & -> & [[? _] | [_ ->]])%Honly; [done|].
      exists f. split; [|done]. apply Hplan. by exists j.
    + intros (file & (j & Hj & ->)%Hplan & ->).
      destruct (Hall j file Hj) as [_ (data & _ & Hc)].
      rewrite Nat.add_0_l in Hc. by exists data.
  - intros file dest dest' (j & Hj & ->)%Hplan (j' & Hj' & ->)%Hplan.
    by rewrite (NoDup_lookup _ _ _ _ Hnd Hj Hj').
Qed.

Lemma fresh_run_partitions_exact_witness :
  ∃ plan fs',
    assignment ["data"] (7 # 10) (2 # 10) 7%N example_fs = Some plan
    ∧ split_data ["data"] (7 # 10) (2 # 10) 7%N example_fs = (Py.Ok tt, fs')
    ∧ (∀ dest file,
         is_Some (partition_entry ["data"] fs' dest "images" file) ↔ (file, dest) ∈ plan)
    ∧ (∀ dest name,
         is_Some (partition_entry ["data"] fs' dest "labels" name)
         ↔ ∃ file, (file, dest) ∈ plan ∧ name = label_name file)
    ∧ (∀ file dest dest', (file, dest) ∈ plan → (file, dest') ∈ plan → dest = dest').
Proof.
  apply (fresh_run_partitions_exact ["data"] (7 # 10) (2 # 10) 7%N example_fs
           example_images example_labels).
  - vm_compute. reflexivity.
  - vm_compute. reflexivity.
  - intros dest kind name. unfold partition_entry, example_fs, os_path_join. cbn.
    rewrite lookup_insert_ne by (intros [=]).
    by rewrite lookup_singleton_ne by (intros [=]).
Defined.

End SplitDataExact.

(** ** One image without failures *)

Module ImageMore.
Import SyntheticData SyntheticDataObservations GridSpec RenderSpec PlacementSpec NameSpec.
Import GeneratorSpec RenderMore PlacementMore.

Lemma rendered_count_all (j0 n : nat) : rendered_count (λ _, RenderOk) j0 n = n.
Proof.
  revert j0. induction n as [|n IH]; intros j0; [done|].
  rewrite rendered_count_S, IH. by rewrite decide_True.
Qed.

Section image.
Context {G : Type} `{!NumpyRandom G}.
Variable window_size : Z * Z.
Variables (bg_width bg_height : Z).

Lemma prepare_image_temp stl_files faults (st0 : state G) :
  temp (prepare_image window_size bg_width bg_height stl_files faults st0).2
  = temp (render_all window_size faults 0 stl_files (set_avg 0 0 st0)).2.
Proof.
  unfold prepare_image, mbind, Py.M_bind, Py.modify.
  destruct (render_all_steps window_size faults stl_files 0 (set_avg 0 0 st0))
    as (stR & ER & _).
  rewrite ER. cbn [snd].
  destruct stl_files as [|file rest]; [done|]. cbn [length].
  by destruct (build_matrix_avg bg_width bg_height (length rest) stR) as (_ & _ & ->).
Qed.

(** An image processed without any library failure, on a background and a
    window of positive size: the run returns, and it writes one label line
    per placed object, as many as there are meshes if the grid has a cell
    for each, as many as the grid has cells otherwise; the meshes left over
    are dropped. *)
Theorem fault_free_image_labels (image_file : string) (stl_files : list string)
    (g : G) (st1 : state G) :
  (0 ≤ window_size.1)%Z → (0 ≤ window_size.2)%Z →
  (0 < bg_width)%Z → (0 < bg_height)%Z →
  prepare_image window_size bg_width bg_height stl_files (λ _, RenderOk)
                (initial_state g) = (Py.Ok tt, st1) →
  let final :=
    process_image window_size bg_width bg_height image_file stl_files
                  (λ _, RenderOk) (λ _, PlaceOk) (initial_state g) in
  let cells :=
    Z.to_nat ((bg_width `div` avg_width st1) * (bg_height `div` avg_height st1)) in
  final.1 = Py.Ok tt
  ∧ length (label_file final.2) = (length stl_files `min` cells)%nat
  ∧ length (placed final.2) = (length stl_files `min` cells)%nat
  ∧ length (matrix final.2) = (cells - length stl_files)%nat.
Proof.
  intros Hw1 Hw2 Hbw Hbh Eprep final cells.
  destruct (process_image_summary window_size bg_width bg_height image_file stl_files
              (λ _, RenderOk) (λ _, PlaceOk) (initial_state g) eq_refl eq_refl)
    as (Hlabels & _ & _).
  fold final in Hlabels.
  pose proof (prepare_image_spec _ _ _ _ _ _ _ _ Eprep) as (Hp1 & _ & _ & _ & Hok).
  destruct (Hok eq_refl) as (_ & _ & Hmx & Haw & Hah).
  specialize (Haw Hw1). specialize (Hah Hw2).
  rewrite !Py_int_quotient in Hmx by lia.
  assert (Hcells : length (matrix st1) = cells).
  { rewrite Hmx, length_grid_cells. subst cells.
    assert (0 ≤ bg_width `div` avg_width st1)%Z by (apply Z.div_pos; lia).
    assert (0 ≤ bg_height `div` avg_height st1)%Z by (apply Z.div_pos; lia).
    rewrite Z2Nat.inj_mul by done. lia. }
  assert (Hrasters : length (os_listdir_temp st1) = length stl_files).
  { unfold os_listdir_temp. rewrite length_fmap, length_map_to_list.
    pose proof (prepare_image_temp stl_files (λ _, RenderOk) (initial_state g)) as Ht.
    rewrite Eprep in Ht. cbn [snd] in Ht. rewrite Ht.
    destruct (render_all_totals window_size (λ _, RenderOk) stl_files 0
                (set_avg 0 0 (initial_state g))) as (_ & _ & ->); [done|done|].
    cbn [temp set_avg initial_state]. by rewrite map_size_empty, rendered_count_all. }
  destruct (place_all_counts bg_width bg_height image_file ltac:(lia) ltac:(lia)
              (os_listdir_temp st1) (listing_NoDup st1) 0 st1)
    as (st2 & E & Hp & Hm & Ho).
  { intros name. apply listing_present. }
  assert (Efinal : final = (Py.Ok tt, st2)).
  { subst final. unfold process_image, mbind, Py.M_bind. rewrite Eprep.
    unfold place_rasters, mbind, Py.M_bind, Py.get. exact E. }
  rewrite Efinal in *. cbn [fst snd] in *.
  rewrite Hrasters, Hcells in Hp, Hm. cbn in Hp1. rewrite Hp1 in Hp. cbn in Hp.
  split; [done|]. split; [by rewrite Hlabels, length_fmap|]. done.
Qed.
End image.

Lemma fault_free_image_labels_witness :
  let st1 := (prepare_image default_window 640 480 ["stl/sun_c.stl"; "stl/lid.stl"]
                (λ _, RenderOk) (initial_state 0%nat)).2 in
  let final :=
    process_image default_window 640 480 "bg.jpg" ["stl/sun_c.stl"; "stl/lid.stl"]
                  (λ _, RenderOk) (λ _, PlaceOk) (initial_state 0%nat) in
  let cells := Z.to_nat ((640 `div` avg_width st1) * (480 `div` avg_height st1)) in
  final.1 = Py.Ok tt
  ∧ length (label_file final.2) = (length ["stl/sun_c.stl"; "stl/lid.stl"] `min` cells)%nat
  ∧ length (placed final.2) = (length ["stl/sun_c.stl"; "stl/lid.stl"] `min` cells)%nat
  ∧ length (matrix final.2) = (cells - length ["stl/sun_c.stl"; "stl/lid.stl"])%nat.
Proof.
  apply (fault_free_image_labels default_window 640 480 "bg.jpg"
           ["stl/sun_c.stl"; "stl/lid.stl"] 0%nat).
  - cbn. lia.
  - cbn. lia.
  - lia.
  - lia.
  - vm_compute. reflexivity.
Defined.

End ImageMore.
